(** * Campaign manager: CSV lead import, sequence editing and backend calls

    A shallow embedding of the logic of

    - [src/components/UploadLeadsTab.tsx]  (CSV preview, column mapping,
      row validation, insertion of uploaded leads),
    - [src/components/Campaigns.tsx]       (campaign list and [EditCampaign]:
      the same CSV pipeline plus the automation webhooks),
    - [src/components/SequenceBuilder.tsx] (editing and saving the steps of
      a campaign sequence).

    Strings are JavaScript strings: finite sequences of UTF-16 code units.
    Objects used as dictionaries are finite maps.  Asynchronous handlers are
    functions from the answers of the outside world (backend responses,
    webhook responses, the [confirm] dialog) to the trace of effects they
    perform. *)

From Stdlib Require Import ZArith NArith List Ascii String DecimalString Lia.
From Stdlib Require DecimalPos DecimalN.
From stdpp Require Import gmap list fin_maps.

Set Default Proof Using "Type".
Local Open Scope Z_scope.

(** ** JavaScript strings *)

Module JS.

(** A string is a list of UTF-16 code units. *)
Abbreviation jstr := (list N).

(** String literals of the source are ASCII. *)
Definition lit (s : String.string) : jstr :=
  List.map N_of_ascii (list_ascii_of_string s).

(** Truthiness of a string value: every string but the empty one. *)
Definition truthy (s : jstr) : bool :=
  match s with [] => false | _ :: _ => true end.

(** Truthiness of a possibly [undefined] string. *)
Definition truthy_opt (o : option jstr) : bool :=
  match o with None => false | Some s => truthy s end.

(** [x || d] for a possibly [undefined] string [x]. *)
Definition or_else (o : option jstr) (d : jstr) : jstr :=
  match o with
  | Some s => if truthy s then s else d
  | None => d
  end.

(** ECMAScript [WhiteSpace] and [LineTerminator] code points, the ones
    [String.prototype.trim] strips. *)
Definition isWhiteSpace (c : N) : bool :=
  ((c =? 0x09) || (c =? 0x0A) || (c =? 0x0B) || (c =? 0x0C) || (c =? 0x0D)
   || (c =? 0x20) || (c =? 0xA0) || (c =? 0x1680)
   || ((0x2000 <=? c) && (c <=? 0x200A))
   || (c =? 0x2028) || (c =? 0x2029) || (c =? 0x202F) || (c =? 0x205F)
   || (c =? 0x3000) || (c =? 0xFEFF))%N.

Fixpoint trimStart (s : jstr) : jstr :=
  match s with
  | [] => []
  | c :: s' => if isWhiteSpace c then trimStart s' else s
  end.

Definition trimEnd (s : jstr) : jstr := rev (trimStart (rev s)).

(** [s.trim()] *)
Definition trim (s : jstr) : jstr := trimEnd (trimStart s).

(** [s.split(sep)] for a separator of one code unit. *)
Fixpoint split (sep : N) (s : jstr) : list jstr :=
  match s with
  | [] => [[]]
  | c :: s' =>
      if (c =? sep)%N then [] :: split sep s'
      else match split sep s' with
           | [] => [[c]]
           | piece :: pieces => (c :: piece) :: pieces
           end
  end.

(** [pieces.join(sep)], the inverse of [split]. *)
Fixpoint join (sep : N) (pieces : list jstr) : jstr :=
  match pieces with
  | [] => []
  | [p] => p
  | p :: ps => p ++ sep :: join sep ps
  end.

Definition newline : N := 0x0A.
Definition comma : N := 0x2C.
Definition dquote : N := 0x22.

(** [s.replace(/dquote/g, empty)]: every double quote is deleted. *)
Definition stripQuotes (s : jstr) : jstr :=
  List.filter (fun c => negb (c =? dquote)%N) s.

Fixpoint startsWith (p s : jstr) : bool :=
  match p, s with
  | [], _ => true
  | _ :: _, [] => false
  | a :: p', b :: s' => (a =? b)%N && startsWith p' s'
  end.

(** [s.includes(p)] *)
Fixpoint includes (s p : jstr) : bool :=
  startsWith p s ||
  match s with
  | [] => false
  | _ :: s' => includes s' p
  end.

(** [a === b] on strings. *)
Definition str_eqb (a b : jstr) : bool := bool_decide (a = b).

(** [arr.indexOf(x)]: the first position holding [x], or [-1]. *)
Fixpoint indexOf (arr : list jstr) (x : jstr) : Z :=
  match arr with
  | [] => -1
  | y :: arr' =>
      if str_eqb y x then 0
      else let r := indexOf arr' x in if r =? -1 then -1 else r + 1
  end.

(** [arr[i]] for a number [i]: [undefined] outside the array. *)
Definition at_index {A} (arr : list A) (i : Z) : option A :=
  if i <? 0 then None else arr !! Z.to_nat i.

(** [arr.find(p)] *)
Fixpoint find {A} (p : A -> bool) (arr : list A) : option A :=
  match arr with
  | [] => None
  | x :: arr' => if p x then Some x else find p arr'
  end.

(** [arr.slice(a, b)] for [0 <= a <= b]. *)
Definition slice {A} (a b : nat) (arr : list A) : list A :=
  take (b - a) (drop a arr).

(** Template-literal rendering of a non-negative integer. *)
Definition decimal (n : N) : jstr :=
  lit (NilZero.string_of_uint (N.to_uint n)).

(** The ASCII part of [toLowerCase]. *)
Definition asciiLower (s : jstr) : jstr :=
  List.map (fun c => if ((0x41 <=? c) && (c <=? 0x5A))%N then (c + 0x20)%N else c) s.

End JS.

Import JS.

(** ** The CSV import pipeline

    [parseCSVForPreview], the column auto-mapper of [handleFileSelect] and
    [processCSVWithMapping] appear twice in the sources, in
    [UploadLeadsTab] and in [EditCampaign], with the same text. *)

Module Csv.

Record DbColumn := {
  key : jstr;
  label : jstr;
  description : jstr;
  required : bool
}.

Definition DATABASE_COLUMNS : list DbColumn := [
  {| key := lit "name"; label := lit "Name";
     description := lit "Contact's full name"; required := false |};
  {| key := lit "phone"; label := lit "Phone Number";
     description := lit "Contact phone number"; required := false |};
  {| key := lit "email"; label := lit "Email Address";
     description := lit "Contact email address"; required := false |};
  {| key := lit "company_name"; label := lit "Company Name";
     description := lit "Company or organization name"; required := false |};
  {| key := lit "job_title"; label := lit "Job Title";
     description := lit "Contact's position or role"; required := false |};
  {| key := lit "source_url"; label := lit "Source URL";
     description := lit "Website or profile URL"; required := false |};
  {| key := lit "source_platform"; label := lit "Source Platform";
     description := lit "Platform where contact was found"; required := false |}
].

Record CSVPreview := {
  headers : list jstr;
  rows : list (list jstr);
  totalRows : Z
}.

(** [csvText.split(newline).filter(line => line.trim())] *)
Definition csvLines (csvText : jstr) : list jstr :=
  List.filter (fun line => truthy (trim line)) (split newline csvText).

(** [line.split(comma).map(cell => cell.trim().replace(/dquote/g, empty))] *)
Definition parseCells (line : jstr) : list jstr :=
  List.map (fun cell => stripQuotes (trim cell)) (split comma line).

Definition parseCSVForPreview (csvText : jstr) : CSVPreview :=
  let lines := csvLines csvText in
  match lines with
  | [] => {| headers := []; rows := []; totalRows := 0 |}
  | line0 :: _ =>
      {| headers := parseCells line0;
         rows := List.map parseCells (slice 1 6 lines);
         totalRows := Z.of_nat (length lines) - 1 |}
  end.

Section AutoMapping.

(** [String.prototype.toLowerCase] of the host. *)
Variable toLowerCase : jstr -> jstr.

(** The [switch (dbCol.key)] of the auto-mapper. *)
Definition patternMatch (dbKey lowerHeader : jstr) : bool :=
  if str_eqb dbKey (lit "name") then
    includes lowerHeader (lit "name") || includes lowerHeader (lit "full_name")
    || includes lowerHeader (lit "first_name")
  else if str_eqb dbKey (lit "phone") then
    includes lowerHeader (lit "phone") || includes lowerHeader (lit "mobile")
    || includes lowerHeader (lit "number") || str_eqb lowerHeader (lit "tel")
  else if str_eqb dbKey (lit "email") then
    includes lowerHeader (lit "email") || includes lowerHeader (lit "mail")
    || str_eqb lowerHeader (lit "e-mail")
  else if str_eqb dbKey (lit "company_name") then
    includes lowerHeader (lit "company") || includes lowerHeader (lit "organization")
    || includes lowerHeader (lit "org")
  else if str_eqb dbKey (lit "job_title") then
    includes lowerHeader (lit "title") || includes lowerHeader (lit "position")
    || includes lowerHeader (lit "job") || includes lowerHeader (lit "role")
  else if str_eqb dbKey (lit "source_url") then
    includes lowerHeader (lit "url") || includes lowerHeader (lit "website")
    || includes lowerHeader (lit "link")
  else if str_eqb dbKey (lit "source_platform") then
    includes lowerHeader (lit "platform") || includes lowerHeader (lit "source")
    || includes lowerHeader (lit "site")
  else false.

(** The predicate handed to [preview.headers.find]. *)
Definition headerMatches (dbCol : DbColumn) (header : jstr) : bool :=
  let lowerHeader := toLowerCase header in
  let lowerDbKey := toLowerCase (key dbCol) in
  if str_eqb lowerHeader lowerDbKey then true
  else patternMatch (key dbCol) lowerHeader.

(** The [DATABASE_COLUMNS.forEach] block that fills [autoMapping]. *)
Definition autoMapping (headers : list jstr) : gmap jstr jstr :=
  fold_left
    (fun (mapping : gmap jstr jstr) dbCol =>
       match find (headerMatches dbCol) headers with
       | Some matchingHeader =>
           if truthy matchingHeader
           then <[key dbCol := matchingHeader]> mapping
           else mapping
       | None => mapping
       end)
    DATABASE_COLUMNS ∅.

End AutoMapping.

(** The choice made in a mapping drop-down; the option [none] is stored as
    the empty string. *)
Definition handleColumnMappingChange (prev : gmap jstr jstr)
    (dbColumn csvColumn : jstr) : gmap jstr jstr :=
  <[dbColumn := if str_eqb csvColumn (lit "none") then [] else csvColumn]> prev.

(** The body of [Object.entries(columnMapping).forEach]: one entry of the
    mapping applied to the lead under construction. *)
Definition mapEntry (headers values : list jstr)
    (dbColumn csvColumn : jstr) (lead : gmap jstr jstr) : gmap jstr jstr :=
  if truthy csvColumn then
    let csvIndex := indexOf headers csvColumn in
    if negb (csvIndex =? -1) && truthy_opt (at_index values csvIndex) then
      match at_index values csvIndex with
      | Some value => <[dbColumn := value]> lead
      | None => lead
      end
    else lead
  else lead.

(** The lead object of one data row.  The entries of the mapping have
    pairwise different keys, so the order of the traversal is immaterial. *)
Definition buildLead (columnMapping : gmap jstr jstr)
    (headers values : list jstr) : gmap jstr jstr :=
  map_fold (mapEntry headers values) ∅ columnMapping.

(** [lead.name || lead.phone || lead.email] *)
Definition hasContact (lead : gmap jstr jstr) : bool :=
  truthy_opt (lead !! lit "name") || truthy_opt (lead !! lit "phone")
  || truthy_opt (lead !! lit "email").

Definition rowError (i : nat) : jstr :=
  lit "Row " ++ decimal (N.of_nat (i + 1))
  ++ lit ": Missing required data (name, phone, or email)".

(** The [for] loop over [lines[i]], [i = 1 .. lines.length - 1]; [rest] holds
    the lines from index [i] on. *)
Fixpoint processRows (columnMapping : gmap jstr jstr) (headers : list jstr)
    (i : nat) (rest : list jstr)
    (leads : list (gmap jstr jstr)) (errors : list jstr)
    : list (gmap jstr jstr) * list jstr :=
  match rest with
  | [] => (leads, errors)
  | line :: rest' =>
      let values := parseCells line in
      let lead := buildLead columnMapping headers values in
      if hasContact lead
      then processRows columnMapping headers (S i) rest' (leads ++ [lead]) errors
      else processRows columnMapping headers (S i) rest' leads (errors ++ [rowError i])
  end.

Definition processCSVWithMapping (columnMapping : gmap jstr jstr)
    (csvText : jstr) : list (gmap jstr jstr) * list jstr :=
  let lines := csvLines csvText in
  if (length lines <? 2)%nat then ([], [])
  else
    let headers := parseCells (nth 0 lines []) in
    processRows columnMapping headers 1 (drop 1 lines) [] [].

End Csv.

(** ** The outside world: backend tables, webhook, browser *)

Module World.

Inductive table := campaigns | uploaded_leads | campaign_sequences.

(** A thrown value: an [Error] object with its message, or anything else. *)
Inductive thrown := ErrorObject (message : jstr) | OtherValue.

(** The [{ error }] part of a backend answer. *)
Inductive db_response := DbOk | DbError (message : jstr).

(** The outcome of [fetch]: a response with its status, or a rejection. *)
Inductive http_response := Responded (status : Z) | FetchThrows (e : thrown).

(** [response.ok] *)
Definition response_ok (status : Z) : bool := (200 <=? status) && (status <=? 299).

Module User.
Record t := mk { id : jstr }.
End User.

Module File.
(** What [file.text()] resolves to, or the value it rejects with. *)
Record t := mk { text : thrown + jstr }.
End File.

Module Campaign.
Record t := mk {
  id : jstr;
  avatar : option jstr;
  offer : option jstr;
  calendar_url : option jstr;
  goal : option jstr;
  status : option jstr;
  created_at : jstr
}.
End Campaign.

Module FormData.
Record t := mk { offer : jstr; calendar_url : jstr; goal : jstr; status : jstr }.
End FormData.

Module UploadResult.
Record t := mk {
  success : bool;
  message : jstr;
  leadsCount : option Z;
  errors : option (list jstr)
}.
End UploadResult.

(** A row handed to [from(uploaded_leads).insert]. *)
Module LeadRow.
Record t := mk {
  user_id : jstr;
  campaign_id : jstr;
  name : jstr;
  phone : jstr;
  email : jstr;
  company_name : jstr;
  job_title : jstr;
  source_url : jstr;
  source_platform : jstr;
  status : jstr
}.
End LeadRow.

Inductive MessageType := call | sms | whatsapp | email.

(** A row handed to [from(campaign_sequences).insert]; [conditions = None]
    is [null]. *)
Module SeqRow.
Record t := mk {
  campaign_id : jstr;
  step_number : Z;
  message_type : MessageType;
  message_content : jstr;
  delay_hours : Z;
  conditions : option jstr
}.
End SeqRow.

Inductive campaign_patch :=
| WholeForm (f : FormData.t)
| StatusOnly (s : jstr).

(** What a handler does, in order.  A backend or webhook call carries the
    answer it received. *)
Inductive effect :=
| Query (t : table) (filters : list (jstr * jstr))
| InsertCampaign (user_id : jstr) (f : FormData.t) (r : db_response)
| InsertLeads (rows : list LeadRow.t) (r : db_response)
| InsertSteps (rows : list SeqRow.t) (r : db_response)
| UpdateCampaign (p : campaign_patch) (filters : list (jstr * jstr)) (r : db_response)
| DeleteFrom (t : table) (filters : list (jstr * jstr)) (r : db_response)
| HttpPost (url : jstr) (r : http_response)
| Confirm (question : jstr) (answer : bool)
| PreventDefault
| ConsoleError
| OnSave
| SetUploadResult (r : option UploadResult.t)
| SetUploadLoading (b : bool)
| SetCsvFile (f : option File.t)
| SetCsvPreview (p : option Csv.CSVPreview)
| SetShowPreview (b : bool)
| SetColumnMapping (m : gmap jstr jstr)
| SetFormData (f : FormData.t)
| SetShowCreateForm (b : bool)
| SetSaving (b : bool)
| SetPublishing (b : bool)
| PatchCampaignStatus (s : jstr)
| PatchFormStatus (s : jstr).

(** A computation: the effects performed so far and either a thrown value
    or a result. *)
Definition M (A : Type) : Type := list effect * (thrown + A).

#[global] Instance M_ret : MRet M := fun A a => ([], inr a).

#[global] Instance M_bind : MBind M := fun A B f m =>
  match m with
  | (t, inl e) => (t, inl e)
  | (t, inr a) => let '(t', r) := f a in (t ++ t', r)
  end.

Definition emit (e : effect) : M unit := ([e], inr tt).

Definition throw {A} (e : thrown) : M A := ([], inl e).

(** [if (error) throw error] *)
Definition throw_if_error (r : db_response) : M unit :=
  match r with
  | DbOk => mret tt
  | DbError m => throw (ErrorObject m)
  end.

(** [try { body } catch (error) { handler error }] *)
Definition try_catch {A} (body : M A) (handler : thrown -> M A) : M A :=
  match body with
  | (t, inl e) => let '(t', r) := handler e in (t ++ t', r)
  | (t, inr a) => (t, inr a)
  end.

(** [try { body } finally { fin }] *)
Definition finally {A} (body : M A) (fin : M unit) : M A :=
  let '(t, r) := body in
  let '(t', r') := fin in
  (t ++ t', match r' with inl e => inl e | inr _ => r end).

(** [await file.text()] *)
Definition await_text (f : File.t) : M jstr :=
  match File.text f with
  | inl e => throw e
  | inr s => mret s
  end.

(** [error instanceof Error ? error.message : fallback] *)
Definition message_or (e : thrown) (fallback : jstr) : jstr :=
  match e with
  | ErrorObject m => m
  | OtherValue => fallback
  end.

Definition trace {A} (m : M A) : list effect := fst m.

(** The backend requests among the effects. *)
Definition is_query (e : effect) : bool :=
  match e with Query _ _ => true | _ => false end.

Definition is_post (e : effect) : bool :=
  match e with HttpPost _ _ => true | _ => false end.

Definition is_insert_leads (e : effect) : bool :=
  match e with InsertLeads _ _ => true | _ => false end.

End World.

Import World.

(** ** UploadLeadsTab.tsx *)

Module UploadLeadsTab.

(** Props, context and state the handlers read. *)
Record state := {
  campaignId : jstr;
  user : option User.t;
  csvFile : option File.t;
  columnMapping : gmap jstr jstr
}.

(** Up to the [await] of the query: the call is not awaited by its callers,
    what follows the answer is a later task. *)
Definition fetchExistingLeads (st : state) : M unit :=
  match user st with
  | Some u =>
      if truthy (campaignId st)
      then emit (Query uploaded_leads
                   [(lit "campaign_id", campaignId st); (lit "user_id", User.id u)])
      else mret tt
  | None => mret tt
  end.

Definition handleFileSelect (toLowerCase : jstr -> jstr)
    (file : option File.t) : M unit :=
  match file with
  | None => mret tt
  | Some file =>
      emit (SetCsvFile (Some file));;
      emit (SetUploadResult None);;
      emit (SetShowPreview false);;
      try_catch
        (csvText ← await_text file;
         let preview := Csv.parseCSVForPreview csvText in
         emit (SetCsvPreview (Some preview));;
         emit (SetColumnMapping (Csv.autoMapping toLowerCase (Csv.headers preview)));;
         emit (SetShowPreview true))
        (fun error =>
           emit ConsoleError;;
           emit (SetUploadResult (Some {|
             UploadResult.success := false;
             UploadResult.message :=
               lit "Error reading CSV file. Please check the file format.";
             UploadResult.leadsCount := None;
             UploadResult.errors := Some
               [lit "Make sure the file is a valid CSV with comma-separated values"]
           |})))
  end.

(** [leads.map(lead => ({ user_id: ..., ..., status: pending }))] *)
Definition leadToInsert (userId campaign : jstr) (lead : gmap jstr jstr) : LeadRow.t :=
  {| LeadRow.user_id := userId;
     LeadRow.campaign_id := campaign;
     LeadRow.name := or_else (lead !! lit "name") [];
     LeadRow.phone := or_else (lead !! lit "phone") [];
     LeadRow.email := or_else (lead !! lit "email") [];
     LeadRow.company_name := or_else (lead !! lit "company_name") [];
     LeadRow.job_title := or_else (lead !! lit "job_title") [];
     LeadRow.source_url := or_else (lead !! lit "source_url") [];
     LeadRow.source_platform := or_else (lead !! lit "source_platform") [];
     LeadRow.status := lit "pending" |}.

Definition noValidLeads (errors : list jstr) : UploadResult.t :=
  {| UploadResult.success := false;
     UploadResult.message := lit "No valid leads found in CSV file.";
     UploadResult.leadsCount := None;
     UploadResult.errors := Some
       (lit "Please ensure at least one row has name, phone, or email data" :: errors) |}.

(** The result object of a completed upload. *)
Definition uploadSucceeded (count : nat) : UploadResult.t :=
  {| UploadResult.success := true;
     UploadResult.message :=
       lit "Successfully uploaded " ++ decimal (N.of_nat count) ++ lit " leads!";
     UploadResult.leadsCount := Some (Z.of_nat count);
     UploadResult.errors := None |}.

(** The result object set in the [catch] block. *)
Definition uploadFailed (error : thrown) : UploadResult.t :=
  {| UploadResult.success := false;
     UploadResult.message := lit "Failed to upload leads.";
     UploadResult.leadsCount := None;
     UploadResult.errors := Some [message_or error (lit "Unknown error occurred")] |}.

(** [insertAnswer] is the answer of the backend to the insert, used when the
    insert is reached. *)
Definition handleFileUpload (st : state) (insertAnswer : db_response) : M unit :=
  match csvFile st, user st with
  | Some file, Some u =>
      if truthy (campaignId st) then
        emit (SetUploadLoading true);;
        emit (SetUploadResult None);;
        finally
          (try_catch
             (csvText ← await_text file;
              let '(leads, errors) :=
                Csv.processCSVWithMapping (columnMapping st) csvText in
              if (length leads =? 0)%nat then
                emit (SetUploadResult (Some (noValidLeads errors)))
              else
                let leadsToInsert :=
                  List.map (leadToInsert (User.id u) (campaignId st)) leads in
                emit (InsertLeads leadsToInsert insertAnswer);;
                match insertAnswer with
                | DbError m => throw (ErrorObject (lit "Database error: " ++ m))
                | DbOk => mret tt
                end;;
                emit (SetUploadResult (Some (uploadSucceeded (length leads))));;
                emit (SetCsvFile None);;
                emit (SetCsvPreview None);;
                emit (SetShowPreview false);;
                emit (SetColumnMapping ∅);;
                fetchExistingLeads st)
             (fun error =>
                emit ConsoleError;;
                emit (SetUploadResult (Some (uploadFailed error)))))
          (emit (SetUploadLoading false))
      else mret tt
  | _, _ => mret tt
  end.

Definition deleteLead (st : state) (leadId : jstr)
    (confirmed : bool) (deleteAnswer : db_response) : M unit :=
  emit (Confirm (lit "Are you sure you want to delete this lead?") confirmed);;
  if confirmed then
    try_catch
      (emit (DeleteFrom uploaded_leads [(lit "id", leadId)] deleteAnswer);;
       throw_if_error deleteAnswer;;
       fetchExistingLeads st)
      (fun error => emit ConsoleError)
  else mret tt.

(** [Object.values(columnMapping).filter(Boolean).length], the number shown
    as fields mapped. *)
Definition mappedCount (mapping : gmap jstr jstr) : nat :=
  length (List.filter truthy (snd <$> map_to_list mapping)).

(** The [disabled] attribute of the upload button. *)
Definition uploadDisabled (uploadLoading : bool) (mapping : gmap jstr jstr) : bool :=
  uploadLoading || (mappedCount mapping =? 0)%nat.

End UploadLeadsTab.

(** ** Campaigns.tsx: the campaign list *)

Module Campaigns.

Record state := {
  user : option User.t;
  theme : jstr;
  formData : FormData.t
}.

Definition fetchCampaigns (st : state) : M unit :=
  match user st with
  | Some u => emit (Query campaigns [(lit "user_id", User.id u)])
  | None => mret tt
  end.

Definition emptyForm : FormData.t :=
  {| FormData.offer := []; FormData.calendar_url := []; FormData.goal := [];
     FormData.status := lit "draft" |}.

Definition handleCreateCampaign (st : state) (insertAnswer : db_response) : M unit :=
  emit PreventDefault;;
  match user st with
  | None => mret tt
  | Some u =>
      try_catch
        (emit (InsertCampaign (User.id u) (formData st) insertAnswer);;
         throw_if_error insertAnswer;;
         emit (SetFormData emptyForm);;
         emit (SetShowCreateForm false);;
         fetchCampaigns st)
        (fun error => emit ConsoleError)
  end.

Definition handleDeleteCampaign (st : state) (campaignId : jstr)
    (confirmed : bool) (deleteAnswer : db_response) : M unit :=
  let confirmMessage :=
    if str_eqb (theme st) (lit "gold")
    then lit "Are you sure you want to delete this elite campaign?"
    else lit "Are you sure you want to delete this campaign?" in
  emit (Confirm confirmMessage confirmed);;
  if confirmed then
    try_catch
      (emit (DeleteFrom campaigns [(lit "id", campaignId)] deleteAnswer);;
       throw_if_error deleteAnswer;;
       fetchCampaigns st)
      (fun error => emit ConsoleError)
  else mret tt.

End Campaigns.

(** ** Campaigns.tsx: [EditCampaign] *)

Module EditCampaign.

Record state := {
  id : option jstr;
  user : option User.t;
  campaign : option Campaign.t;
  csvFile : option File.t;
  columnMapping : gmap jstr jstr;
  formData : FormData.t
}.

Definition startCampaignUrl : jstr :=
  lit "https://mazirhx.app.n8n.cloud/webhook/start-campaign-upload".

Definition channelsEngineUrl : jstr :=
  lit "https://mazirhx.app.n8n.cloud/webhook/channels-engine".

Definition fetchCampaign (st : state) : M unit :=
  match id st, user st with
  | Some i, Some u =>
      if truthy i
      then emit (Query campaigns [(lit "id", i); (lit "user_id", User.id u)])
      else mret tt
  | _, _ => mret tt
  end.

Definition report (ok : bool) (msg : jstr) : effect :=
  SetUploadResult (Some {|
    UploadResult.success := ok;
    UploadResult.message := msg;
    UploadResult.leadsCount := None;
    UploadResult.errors := None |}).

Definition handleSubmit (st : state) (updateAnswer : db_response) : M unit :=
  emit PreventDefault;;
  match id st, user st with
  | Some i, Some u =>
      if truthy i then
        emit (SetSaving true);;
        finally
          (try_catch
             (emit (UpdateCampaign (WholeForm (formData st))
                      [(lit "id", i); (lit "user_id", User.id u)] updateAnswer);;
              throw_if_error updateAnswer;;
              emit (report true (lit "Campaign updated successfully!")))
             (fun error =>
                emit ConsoleError;;
                emit (report false (lit "Error updating campaign. Please try again."))))
          (emit (SetSaving false))
      else mret tt
  | _, _ => mret tt
  end.

Definition handlePublish (st : state) (updateAnswer : db_response) : M unit :=
  match id st, user st with
  | Some i, Some u =>
      if truthy i then
        emit (SetPublishing true);;
        finally
          (try_catch
             (emit (UpdateCampaign (StatusOnly (lit "active"))
                      [(lit "id", i); (lit "user_id", User.id u)] updateAnswer);;
              throw_if_error updateAnswer;;
              emit (PatchCampaignStatus (lit "active"));;
              emit (PatchFormStatus (lit "active"));;
              emit (report true (lit "Campaign published successfully!")))
             (fun error =>
                emit ConsoleError;;
                emit (report false (lit "Error publishing campaign. Please try again."))))
          (emit (SetPublishing false))
      else mret tt
  | _, _ => mret tt
  end.

Definition handleFileSelect := UploadLeadsTab.handleFileSelect.

(** The inner [try]/[catch] around the webhook call: the final values of
    [webhookSuccess] and [webhookError]. *)
Definition callStartCampaign (webhookAnswer : http_response)
    : M (bool * option jstr) :=
  try_catch
    (emit (HttpPost startCampaignUrl webhookAnswer);;
     match webhookAnswer with
     | FetchThrows e => throw e
     | Responded status =>
         if response_ok status then mret (true, None)
         else mret (false,
                    Some (lit "Webhook failed with status: "
                          ++ decimal (Z.to_N status)))
     end)
    (fun error =>
       mret (false,
             Some (lit "Webhook error: " ++ message_or error (lit "Unknown error")))).

Definition webhookNote : jstr :=
  lit "Note: Leads saved to database successfully, but automation webhook failed.".

(** The result object set once the rows are stored, whatever the webhook
    did. *)
Definition uploadSucceeded (count : nat)
    (webhookSuccess : bool) (webhookError : option jstr) : UploadResult.t :=
  {| UploadResult.success := true;
     UploadResult.message :=
       lit "Successfully uploaded " ++ decimal (N.of_nat count)
       ++ lit " leads to the database!";
     UploadResult.leadsCount := Some (Z.of_nat count);
     UploadResult.errors := Some
       (if webhookSuccess then []
        else [webhookNote;
              or_else webhookError (lit "Webhook connection failed")]) |}.

(** The result object set in the outer [catch] block. *)
Definition uploadFailed (error : thrown) : UploadResult.t :=
  {| UploadResult.success := false;
     UploadResult.message := lit "Failed to upload leads to database.";
     UploadResult.leadsCount := None;
     UploadResult.errors := Some [message_or error (lit "Unknown error occurred")] |}.

Definition handleFileUpload (st : state)
    (insertAnswer : db_response) (webhookAnswer : http_response) : M unit :=
  match csvFile st, user st, campaign st with
  | Some file, Some u, Some c =>
      emit (SetUploadLoading true);;
      emit (SetUploadResult None);;
      finally
        (try_catch
           (csvText ← await_text file;
            let '(leads, errors) :=
              Csv.processCSVWithMapping (columnMapping st) csvText in
            if (length leads =? 0)%nat then
              emit (SetUploadResult (Some (UploadLeadsTab.noValidLeads errors)))
            else
              let leadsToInsert :=
                List.map (UploadLeadsTab.leadToInsert (User.id u) (Campaign.id c))
                  leads in
              emit (InsertLeads leadsToInsert insertAnswer);;
              match insertAnswer with
              | DbError m => throw (ErrorObject (lit "Database error: " ++ m))
              | DbOk => mret tt
              end;;
              '(webhookSuccess, webhookError) ← callStartCampaign webhookAnswer;
              emit (SetUploadResult
                      (Some (uploadSucceeded (length leads)
                               webhookSuccess webhookError)));;
              emit (SetCsvFile None);;
              emit (SetCsvPreview None);;
              emit (SetShowPreview false);;
              emit (SetColumnMapping ∅))
           (fun error =>
              emit ConsoleError;;
              emit (SetUploadResult (Some (uploadFailed error)))))
        (emit (SetUploadLoading false))
  | _, _, _ => mret tt
  end.

Definition triggerChannelsEngine (st : state) (webhookAnswer : http_response)
    : M unit :=
  match campaign st, user st with
  | Some c, Some u =>
      try_catch
        (emit (HttpPost channelsEngineUrl webhookAnswer);;
         match webhookAnswer with
         | FetchThrows e => throw e
         | Responded status =>
             if response_ok status
             then emit (report true (lit "Channels engine triggered successfully!"))
             else throw (ErrorObject (lit "Failed to trigger channels engine"))
         end)
        (fun error =>
           emit (report false
                   (lit "Failed to trigger channels engine. Please try again.")))
  | _, _ => mret tt
  end.

End EditCampaign.

(** ** SequenceBuilder.tsx *)

Module SequenceBuilder.

Record SequenceStep := {
  id : option jstr;
  step_number : Z;
  message_type : MessageType;
  message_content : jstr;
  delay_hours : Z;
  conditions : option jstr
}.

(** The argument of [useState]. *)
Definition initialSteps : list SequenceStep := [
  {| id := None; step_number := 1; message_type := call;
     message_content := []; delay_hours := 0; conditions := None |}
].

Definition addStep (steps : list SequenceStep) : list SequenceStep :=
  let newStep :=
    {| id := None; step_number := Z.of_nat (length steps) + 1;
       message_type := sms; message_content := []; delay_hours := 24;
       conditions := None |} in
  steps ++ [newStep].

(** [steps.filter((_, i) => i !== index)] for a number [index]. *)
Fixpoint filterIndex (index : Z) (i : nat) (steps : list SequenceStep)
    : list SequenceStep :=
  match steps with
  | [] => []
  | step :: steps' =>
      if Z.of_nat i =? index then filterIndex index (S i) steps'
      else step :: filterIndex index (S i) steps'
  end.

Definition removeStep (steps : list SequenceStep) (index : Z) : list SequenceStep :=
  let newSteps := filterIndex index 0 steps in
  imap (fun i step =>
          {| id := id step; step_number := Z.of_nat i + 1;
             message_type := message_type step;
             message_content := message_content step;
             delay_hours := delay_hours step;
             conditions := conditions step |})
       newSteps.

(** [step.conditions || null] *)
Definition or_null (o : option jstr) : option jstr :=
  match o with
  | Some s => if truthy s then Some s else None
  | None => None
  end.

Definition stepToInsert (campaignId : jstr) (step : SequenceStep) : SeqRow.t :=
  {| SeqRow.campaign_id := campaignId;
     SeqRow.step_number := step_number step;
     SeqRow.message_type := message_type step;
     SeqRow.message_content := message_content step;
     SeqRow.delay_hours := delay_hours step;
     SeqRow.conditions := or_null (conditions step) |}.

Record state := {
  campaignId : jstr;
  user : option User.t;
  steps : list SequenceStep;
  onSave : bool   (* whether the [onSave] prop was given *)
}.

Definition saveSequence (st : state)
    (deleteAnswer insertAnswer : db_response) : M unit :=
  match user st with
  | None => mret tt
  | Some _ =>
      emit (SetSaving true);;
      finally
        (try_catch
           (emit (DeleteFrom campaign_sequences
                    [(lit "campaign_id", campaignId st)] deleteAnswer);;
            let stepsToInsert := List.map (stepToInsert (campaignId st)) (steps st) in
            emit (InsertSteps stepsToInsert insertAnswer);;
            throw_if_error insertAnswer;;
            if onSave st then emit OnSave else mret tt)
           (fun error => emit ConsoleError))
        (emit (SetSaving false))
  end.

(** The [campaign_sequences] table as the backend keeps it (row ids and
    creation times left out), and what a request that the backend answered
    without error does to it. *)
Definition rowMatches (filters : list (jstr * jstr)) (row : SeqRow.t) : bool :=
  forallb (fun '(column, value) =>
             str_eqb column (lit "campaign_id")
             && str_eqb (SeqRow.campaign_id row) value)
          filters.

Definition applyEffect (stored : list SeqRow.t) (e : effect) : list SeqRow.t :=
  match e with
  | DeleteFrom campaign_sequences filters DbOk =>
      List.filter (fun row => negb (rowMatches filters row)) stored
  | InsertSteps rows DbOk => stored ++ rows
  | _ => stored
  end.

Definition applyTrace (stored : list SeqRow.t) (t : list effect) : list SeqRow.t :=
  fold_left applyEffect t stored.

(** The stored sequence of one campaign. *)
Definition storedSequence (campaign : jstr) (stored : list SeqRow.t) : list SeqRow.t :=
  List.filter (fun row => str_eqb (SeqRow.campaign_id row) campaign) stored.

(** A row of [campaign_sequences] as a query returns it. *)
Module StoredRow.
Record t := mk {
  id : jstr;
  campaign_id : jstr;
  step_number : Z;
  message_type : MessageType;
  message_content : option jstr;
  delay_hours : Z;
  conditions : option jstr;
  created_at : jstr
}.
End StoredRow.

(** [step.conditions || undefined] *)
Definition or_undefined (o : option jstr) : option jstr :=
  match o with
  | Some c => if truthy c then Some c else None
  | None => None
  end.

(** The [data.map] of [fetchSequence]. *)
Definition rowToStep (row : StoredRow.t) : SequenceStep :=
  {| id := Some (StoredRow.id row);
     step_number := StoredRow.step_number row;
     message_type := StoredRow.message_type row;
     message_content := or_else (StoredRow.message_content row) [];
     delay_hours := StoredRow.delay_hours row;
     conditions := or_undefined (StoredRow.conditions row) |}.

(** The answer to the query of [fetchSequence]: an error, or the data
    ([None] is [null]). *)
Definition query_answer : Type := jstr + option (list StoredRow.t).

(** [fetchSequence] from the answer on, on the pair of [steps] and
    [loading]: the steps are replaced only by a non-empty result, the
    loading flag is cleared in every case. *)
Definition fetchSequence (current : list SequenceStep) (answer : query_answer)
    : list SequenceStep * bool :=
  match answer with
  | inl _ => (current, false)
  | inr None => (current, false)
  | inr (Some data) =>
      if (0 <? length data)%nat
      then (List.map rowToStep data, false)
      else (current, false)
  end.

(** A field of a step together with its new value. *)
Inductive field_value :=
| F_id (v : option jstr)
| F_step_number (v : Z)
| F_message_type (v : MessageType)
| F_message_content (v : jstr)
| F_delay_hours (v : Z)
| F_conditions (v : option jstr).

(** [{ ...step, [field]: value }] *)
Definition setField (step : SequenceStep) (fv : field_value) : SequenceStep :=
  match fv with
  | F_id v =>
      {| id := v; step_number := step_number step;
         message_type := message_type step;
         message_content := message_content step;
         delay_hours := delay_hours step; conditions := conditions step |}
  | F_step_number v =>
      {| id := id step; step_number := v;
         message_type := message_type step;
         message_content := message_content step;
         delay_hours := delay_hours step; conditions := conditions step |}
  | F_message_type v =>
      {| id := id step; step_number := step_number step;
         message_type := v;
         message_content := message_content step;
         delay_hours := delay_hours step; conditions := conditions step |}
  | F_message_content v =>
      {| id := id step; step_number := step_number step;
         message_type := message_type step;
         message_content := v;
         delay_hours := delay_hours step; conditions := conditions step |}
  | F_delay_hours v =>
      {| id := id step; step_number := step_number step;
         message_type := message_type step;
         message_content := message_content step;
         delay_hours := v; conditions := conditions step |}
  | F_conditions v =>
      {| id := id step; step_number := step_number step;
         message_type := message_type step;
         message_content := message_content step;
         delay_hours := delay_hours step; conditions := v |}
  end.

(** [updateStep(index, field, value)].  For an index outside the array the
    source stores an object with the one field at that index, which is not a
    list of steps any more: [None]. *)
Definition updateStep (steps : list SequenceStep) (index : nat)
    (fv : field_value) : option (list SequenceStep) :=
  match steps !! index with
  | Some step => Some (<[index := setField step fv]> steps)
  | None => None
  end.

(** What the rendered editor lets the user do: the add button, the remove
    button of a step (rendered only while [steps.length > 1]), and the three
    inputs of a step, which call [updateStep] with its index. *)
Inductive uiAction :=
| ClickAdd
| ClickRemove (index : nat)
| ChangeType (index : nat) (v : MessageType)
| ChangeDelay (index : nat) (v : Z)
| ChangeContent (index : nat) (v : jstr).

Definition editStep (steps : list SequenceStep) (index : nat)
    (fv : field_value) : list SequenceStep :=
  match updateStep steps index fv with
  | Some steps' => steps'
  | None => steps   (* no such step is rendered *)
  end.

Definition perform (steps : list SequenceStep) (a : uiAction) : list SequenceStep :=
  match a with
  | ClickAdd => addStep steps
  | ClickRemove index =>
      if (1 <? length steps)%nat && (index <? length steps)%nat
      then removeStep steps (Z.of_nat index)
      else steps   (* no such button is rendered *)
  | ChangeType index v => editStep steps index (F_message_type v)
  | ChangeDelay index v => editStep steps index (F_delay_hours v)
  | ChangeContent index v => editStep steps index (F_message_content v)
  end.

End SequenceBuilder.

(** ** Specification-side notions *)

Module Spec.

(** Steps numbered 1, 2, ..., n in list order. *)
Definition numbered (steps : list SequenceBuilder.SequenceStep) : Prop :=
  SequenceBuilder.step_number <$> steps
  = (fun i => Z.of_nat i + 1) <$> seq 0 (length steps).

(** Number of occurrences of a code unit. *)
Definition occurrences (c : N) (s : jstr) : nat :=
  length (List.filter (fun d => (d =? c)%N) s).

(** A line is blank when trimming leaves nothing. *)
Definition blank (line : jstr) : Prop := trim line = [].

#[global] Instance blank_dec line : Decision (blank line).
Proof. unfold blank. apply _. Defined.

(** The lines of a text that are not blank, in order: the text is cut at
    every newline. *)
Definition textLines (text : jstr) : list jstr :=
  filter (fun line => ~ blank line) (split newline text).

(** The cells of a line: the line is cut at every comma, each piece is
    trimmed and then loses all its double quotes. *)
Definition lineCells (line : jstr) : list jstr :=
  (fun piece => filter (fun c => c <> dquote) (trim piece)) <$> split comma line.

(** The cells of the first non-blank line of a text. *)
Definition textHeaders (text : jstr) : list jstr :=
  match textLines text with
  | [] => []
  | first :: _ => lineCells first
  end.

(** The cells of the non-blank lines after the first, each with its row
    number; the first of them is row 2. *)
Definition textRows (text : jstr) : list (nat * list jstr) :=
  imap (fun k line => ((k + 2)%nat, lineCells line)) (drop 1 (textLines text)).

(** The first position of [x] in [arr]. *)
Definition firstIndex (arr : list jstr) (x : jstr) : option nat :=
  fst <$> list_find (fun y => y = x) arr.

(** The non-empty cell of [values] that sits under the header [csvColumn]. *)
Definition cellUnder (headers values : list jstr) (csvColumn : jstr) : option jstr :=
  if decide (csvColumn = []) then None
  else
    i ← firstIndex headers csvColumn;
    value ← values !! i;
    if decide (value = []) then None else Some value.

(** The value a row yields for a database field under a column mapping:
    the non-empty cell under the header the field is mapped to. *)
Definition mappedValue (mapping : gmap jstr jstr) (headers values : list jstr)
    (field : jstr) : option jstr :=
  mapping !! field ≫= cellUnder headers values.

Definition contactFields : list jstr := [lit "name"; lit "phone"; lit "email"].

(** The row yields a non-empty name, phone or email. *)
Definition rowValid (mapping : gmap jstr jstr) (headers values : list jstr) : Prop :=
  Exists (fun field => is_Some (mappedValue mapping headers values field))
         contactFields.

#[global] Instance rowValid_dec mapping headers values :
  Decision (rowValid mapping headers values).
Proof. unfold rowValid. apply _. Defined.

(** The header cells of a text: the cells of its first non-blank line. *)
Definition headerCells (csvText : jstr) : list jstr :=
  match Csv.csvLines csvText with
  | [] => []
  | first :: _ => Csv.parseCells first
  end.

(** The data rows of a text, each with its row number: the non-blank lines
    after the first, the first of them being row 2. *)
Definition dataRows (csvText : jstr) : list (nat * list jstr) :=
  imap (fun k line => ((k + 2)%nat, Csv.parseCells line))
       (drop 1 (Csv.csvLines csvText)).

Definition rowMessage (n : nat) : jstr :=
  lit "Row " ++ decimal (N.of_nat n)
  ++ lit ": Missing required data (name, phone, or email)".

(** The seven fields of an inserted lead row, by key. *)
Definition leadFields : list (jstr * (LeadRow.t -> jstr)) := [
  (lit "name", LeadRow.name);
  (lit "phone", LeadRow.phone);
  (lit "email", LeadRow.email);
  (lit "company_name", LeadRow.company_name);
  (lit "job_title", LeadRow.job_title);
  (lit "source_url", LeadRow.source_url);
  (lit "source_platform", LeadRow.source_platform)
].

(** For each database field, the keywords its header may contain and the
    names it may equal, besides the field key itself. *)
Definition keywordTable : list (jstr * (list jstr * list jstr)) := [
  (lit "name", ([lit "name"; lit "full_name"; lit "first_name"], []));
  (lit "phone", ([lit "phone"; lit "mobile"; lit "number"], [lit "tel"]));
  (lit "email", ([lit "email"; lit "mail"], [lit "e-mail"]));
  (lit "company_name", ([lit "company"; lit "organization"; lit "org"], []));
  (lit "job_title", ([lit "title"; lit "position"; lit "job"; lit "role"], []));
  (lit "source_url", ([lit "url"; lit "website"; lit "link"], []));
  (lit "source_platform", ([lit "platform"; lit "source"; lit "site"], []))
].

(** The test a lower-cased header passes for a field: it is the field key,
    or contains one of the field's keywords, or is one of its other names. *)
Definition fieldTest (field lowerHeader : jstr) : bool :=
  str_eqb lowerHeader field
  || match find (fun entry => str_eqb entry.1 field) keywordTable with
     | Some (_, (contained, exact)) =>
         existsb (includes lowerHeader) contained
         || existsb (str_eqb lowerHeader) exact
     | None => false
     end.

Definition fieldKeys : list jstr := Csv.key <$> Csv.DATABASE_COLUMNS.

(** The header the mapper proposes for a field: the first one that matches,
    provided it is truthy. *)
Definition suggestion (toLowerCase : jstr -> jstr) (headers : list jstr)
    (field : jstr) : option jstr :=
  find (Csv.headerMatches toLowerCase
          {| Csv.key := field; Csv.label := []; Csv.description := [];
             Csv.required := false |}) headers
  ≫= fun header => if truthy header then Some header else None.

(** The webhook answered with an ok status. *)
Definition webhookOk (answer : http_response) : bool :=
  match answer with
  | Responded status => response_ok status
  | FetchThrows _ => false
  end.

(** The text that describes a failed webhook call. *)
Definition webhookFailure (answer : http_response) : jstr :=
  match answer with
  | Responded status =>
      lit "Webhook failed with status: " ++ decimal (Z.to_N status)
  | FetchThrows e =>
      lit "Webhook error: " ++ message_or e (lit "Unknown error")
  end.

(** The result objects shown to the user, in order. *)
Definition reported (t : list effect) : list UploadResult.t :=
  omap (fun e => match e with SetUploadResult (Some r) => Some r | _ => None end) t.

(** A change of backend data that the backend answered without error. *)
Definition is_mutation_ok (e : effect) : bool :=
  match e with
  | InsertCampaign _ _ DbOk | InsertLeads _ DbOk | InsertSteps _ DbOk
  | UpdateCampaign _ _ DbOk | DeleteFrom _ _ DbOk => true
  | _ => false
  end.

(** Every successful mutation of the trace is followed by a query. *)
Fixpoint refetches (t : list effect) : bool :=
  match t with
  | [] => true
  | e :: t' =>
      (if is_mutation_ok e then existsb is_query t' else true) && refetches t'
  end.

(** A cell that the naive parser reads back unchanged: nothing to trim, no
    comma, no double quote, no newline. *)
Definition cleanCell (cell : jstr) : Prop :=
  trim cell = cell /\ (comma ∉ cell) /\ (dquote ∉ cell) /\ (newline ∉ cell).



(** The same text with Windows line ends: a carriage return before every
    newline. *)
Definition toCrlf (text : jstr) : jstr :=
  flat_map (fun c => if (c =? newline)%N then [0x0D%N; newline] else [c]) text.

(** A step without its number. *)
Definition stepContent (step : SequenceBuilder.SequenceStep)
    : option jstr * MessageType * jstr * Z * option jstr :=
  (SequenceBuilder.id step, SequenceBuilder.message_type step,
   SequenceBuilder.message_content step, SequenceBuilder.delay_hours step,
   SequenceBuilder.conditions step).

(** A request sent to the backend or to a webhook. *)
Definition is_request (e : effect) : bool :=
  match e with
  | Query _ _ | InsertCampaign _ _ _ | InsertLeads _ _ | InsertSteps _ _
  | UpdateCampaign _ _ _ | DeleteFrom _ _ _ | HttpPost _ _ => true
  | _ => false
  end.

(** The [order(step_number)] of the query, as the backend carries it out:
    the rows by ascending step number. *)
Fixpoint insertByNumber (row : SequenceBuilder.StoredRow.t)
    (sorted : list SequenceBuilder.StoredRow.t) : list SequenceBuilder.StoredRow.t :=
  match sorted with
  | [] => [row]
  | next :: sorted' =>
      if SequenceBuilder.StoredRow.step_number row
         <=? SequenceBuilder.StoredRow.step_number next
      then row :: sorted
      else next :: insertByNumber row sorted'
  end.

Definition orderByStepNumber (rows : list SequenceBuilder.StoredRow.t)
    : list SequenceBuilder.StoredRow.t :=
  foldr insertByNumber [] rows.

(** The backend stores an inserted step row under a fresh id and time. *)
Definition storeRow (id created_at : jstr) (row : SeqRow.t)
    : SequenceBuilder.StoredRow.t :=
  {| SequenceBuilder.StoredRow.id := id;
     SequenceBuilder.StoredRow.campaign_id := SeqRow.campaign_id row;
     SequenceBuilder.StoredRow.step_number := SeqRow.step_number row;
     SequenceBuilder.StoredRow.message_type := SeqRow.message_type row;
     SequenceBuilder.StoredRow.message_content := Some (SeqRow.message_content row);
     SequenceBuilder.StoredRow.delay_hours := SeqRow.delay_hours row;
     SequenceBuilder.StoredRow.conditions := SeqRow.conditions row;
     SequenceBuilder.StoredRow.created_at := created_at |}.

End Spec.

Import Spec.

(** ** Sample data *)

Module Sample.

Definition mapping : gmap jstr jstr :=
  <[lit "name" := lit "Full Name"]> (<[lit "email" := lit "Mail"]> ∅).

(** Three non-blank lines: the header, a row with a name and an address, a
    row with a phone number only (a column the mapping does not use). *)
Definition csvText : jstr :=
  lit "Full Name,Mail,Phone" ++ [newline]
  ++ lit "Ann,ann@x.org,1" ++ [newline]
  ++ lit ",,5" ++ [newline].

(** A text whose only data row has no contact data under the mapping. *)
Definition csvNoLeads : jstr :=
  lit "Full Name,Mail,Phone" ++ [newline] ++ lit ",,5" ++ [newline].

Definition user : User.t := User.mk (lit "user-1").

Definition campaign : Campaign.t :=
  Campaign.mk (lit "campaign-1") None (Some (lit "Free audit")) None None
    (Some (lit "draft")) (lit "2025-07-08").

Definition form : FormData.t :=
  FormData.mk (lit "Free audit") [] [] (lit "draft").

Definition tab (text : jstr) : UploadLeadsTab.state :=
  {| UploadLeadsTab.campaignId := lit "campaign-1";
     UploadLeadsTab.user := Some user;
     UploadLeadsTab.csvFile := Some (File.mk (inr text));
     UploadLeadsTab.columnMapping := mapping |}.

Definition edit (text : jstr) : EditCampaign.state :=
  {| EditCampaign.id := Some (lit "campaign-1");
     EditCampaign.user := Some user;
     EditCampaign.campaign := Some campaign;
     EditCampaign.csvFile := Some (File.mk (inr text));
     EditCampaign.columnMapping := mapping;
     EditCampaign.formData := form |}.

Definition campaignList : Campaigns.state :=
  {| Campaigns.user := Some user; Campaigns.theme := lit "gold";
     Campaigns.formData := form |}.

Definition builder : SequenceBuilder.state :=
  {| SequenceBuilder.campaignId := lit "campaign-1";
     SequenceBuilder.user := Some user;
     SequenceBuilder.steps := SequenceBuilder.initialSteps;
     SequenceBuilder.onSave := true |}.

(** The sequence saved earlier for the campaign: one email step. *)
Definition storedBefore : list SeqRow.t :=
  [SeqRow.mk (lit "campaign-1") 1 email (lit "Hello") 0 None].

End Sample.

(** Membership of an effect in an explicit trace, case by case. *)
Ltac split_trace H :=
  simpl in H;
  repeat (apply elem_of_cons in H as [H|H]; [try discriminate H|]);
  try (apply elem_of_nil in H; contradiction).

(** Comparisons of two string literals are evaluated, and the keyword table
    is searched, without touching the other strings of the goal. *)
Ltac closed_eqb :=
  repeat match goal with
         | |- context [str_eqb (lit ?a) (lit ?b)] =>
             let v := eval vm_compute in (str_eqb (lit a) (lit b)) in
             change (str_eqb (lit a) (lit b)) with v
         end.

Ltac table_lookup :=
  closed_eqb; cbn [find keywordTable fst snd existsb];
  closed_eqb; cbv iota; cbn [existsb].

(** * Theorems *)

(** ** Strings *)

Lemma split_nonempty sep s : split sep s <> [].
Proof.
  destruct s as [|c s]; simpl; [discriminate|].
  destruct (c =? sep)%N; [discriminate|].
  destruct (split sep s); discriminate.
Qed.

Lemma join_split sep s : join sep (split sep s) = s.
Proof.
  induction s as [|c s IH]; simpl; [reflexivity|].
  destruct (N.eqb_spec c sep) as [->|Hne].
  - pose proof (split_nonempty sep s) as Hs.
    destruct (split sep s) as [|p ps]; [contradiction|].
    simpl in *. destruct ps; simpl in *; rewrite <- IH; reflexivity.
  - pose proof (split_nonempty sep s) as Hs.
    destruct (split sep s) as [|p ps]; [contradiction|].
    destruct ps; simpl in *; rewrite <- IH; reflexivity.
Qed.

Lemma split_no_sep sep s : Forall (fun piece => sep ∉ piece) (split sep s).
Proof.
  induction s as [|c s IH]; simpl.
  - constructor; [apply not_elem_of_nil | constructor].
  - destruct (N.eqb_spec c sep) as [->|Hne].
    + constructor; [apply not_elem_of_nil | exact IH].
    + destruct (split sep s) as [|p ps].
      * constructor; [|constructor].
        intros Hin. apply list_elem_of_singleton in Hin. congruence.
      * inversion IH as [|? ? Hp Hps]; subst.
        constructor; [|exact Hps].
        intros Hin. apply elem_of_cons in Hin as [Heq|Hin]; [congruence|].
        exact (Hp Hin).
Qed.

Lemma split_length sep s : length (split sep s) = S (occurrences sep s).
Proof.
  unfold occurrences.
  induction s as [|c s IH]; simpl; [reflexivity|].
  pose proof (split_nonempty sep s) as Hs.
  destruct (c =? sep)%N; simpl.
  - rewrite IH. reflexivity.
  - destruct (split sep s) as [|p ps]; [contradiction|]. simpl in *. exact IH.
Qed.

Lemma stripQuotes_no_quote s : dquote ∉ stripQuotes s.
Proof.
  unfold stripQuotes. intros Hin.
  apply list_elem_of_In, filter_In in Hin as [_ Hin].
  rewrite N.eqb_refl in Hin. discriminate.
Qed.

Lemma stripQuotes_keeps c s : c ∈ stripQuotes s -> c ∈ s.
Proof.
  unfold stripQuotes. intros Hin.
  apply list_elem_of_In, filter_In in Hin as [Hin _].
  apply list_elem_of_In. exact Hin.
Qed.

Lemma trimStart_suffix s : exists ws, s = ws ++ trimStart s /\ forallb isWhiteSpace ws = true.
Proof.
  induction s as [|c s (ws & Hs & Hws)]; simpl.
  - exists []. split; reflexivity.
  - destruct (isWhiteSpace c) eqn:Hc.
    + exists (c :: ws). simpl. rewrite Hc, Hws. split; [f_equal; exact Hs | reflexivity].
    + exists []. split; reflexivity.
Qed.

Lemma trimStart_head s c s' : trimStart s = c :: s' -> isWhiteSpace c = false.
Proof.
  induction s as [|d s IH]; simpl; [discriminate|].
  destruct (isWhiteSpace d) eqn:Hd; [exact IH|].
  intros [= -> _]. exact Hd.
Qed.

(** [trim] removes a run of white space at each end and nothing else. *)
Lemma trim_spec s :
  exists before after,
    s = before ++ trim s ++ after
    /\ forallb isWhiteSpace before = true
    /\ forallb isWhiteSpace after = true.
Proof.
  unfold trim, trimEnd.
  destruct (trimStart_suffix s) as (before & Hs & Hb).
  destruct (trimStart_suffix (rev (trimStart s))) as (ws & Hr & Hw).
  exists before, (rev ws). split; [|split].
  - rewrite Hs at 1. f_equal.
    rewrite <- rev_app_distr, <- Hr, rev_involutive. reflexivity.
  - exact Hb.
  - rewrite forallb_forall in *. intros x Hx. apply Hw, in_rev. exact Hx.
Qed.

Lemma trim_keeps c s : c ∈ trim s -> c ∈ s.
Proof.
  destruct (trim_spec s) as (b & a & Hs & _). intros Hin.
  rewrite Hs. rewrite !elem_of_app. auto.
Qed.

Lemma bool_filter_decide {A} (P : A -> Prop) `{!forall x, Decision (P x)} (p : A -> bool) l :
  (forall x, p x = bool_decide (P x)) -> List.filter p l = filter P l.
Proof.
  intros Hp. induction l as [|x l IH]; simpl; [reflexivity|].
  rewrite filter_cons, Hp, IH. destruct (decide (P x)) as [HP|HP].
  - rewrite bool_decide_eq_true_2 by exact HP. reflexivity.
  - rewrite bool_decide_eq_false_2 by exact HP. reflexivity.
Qed.

Lemma truthy_nonempty s : truthy s = bool_decide (s <> []).
Proof. destruct s; reflexivity. Qed.

(** ** CSV parsing *)

Lemma parseCells_clean line :
  Forall (fun cell => (dquote ∉ cell) /\ (comma ∉ cell)) (Csv.parseCells line).
Proof.
  unfold Csv.parseCells. apply Forall_forall. intros cell Hin.
  apply list_elem_of_In, in_map_iff in Hin as (raw & <- & Hraw).
  split; [apply stripQuotes_no_quote|].
  intros Hc. apply stripQuotes_keeps, trim_keeps in Hc.
  pose proof (split_no_sep comma line) as Hall.
  rewrite Forall_forall in Hall. apply (Hall raw); [|exact Hc].
  apply list_elem_of_In. exact Hraw.
Qed.

Lemma parseCells_length line :
  length (Csv.parseCells line) = S (occurrences comma line).
Proof. unfold Csv.parseCells. rewrite length_map. apply split_length. Qed.

(** C2.  The parser cuts the text at every newline, drops the lines that are
    blank after trimming, cuts every line at every comma (so the number of
    cells is the number of commas plus one, quoted or not), and each cell is
    the trimmed piece with all its double quotes deleted.  A quoted field
    holding a comma therefore falls apart at the comma. *)
Theorem C2_naive_csv_parsing (csvText : jstr) :
  join newline (split newline csvText) = csvText
  /\ Forall (fun line => newline ∉ line) (split newline csvText)
  /\ Csv.csvLines csvText
     = filter (fun line => ~ blank line) (split newline csvText)
  /\ (forall line : jstr,
        join comma (split comma line) = line
        /\ Forall (fun piece => comma ∉ piece) (split comma line)
        /\ Csv.parseCells line
           = (fun piece => filter (fun c => c <> dquote) (trim piece))
               <$> split comma line
        /\ length (Csv.parseCells line) = S (occurrences comma line)
        /\ Forall (fun cell => (dquote ∉ cell) /\ (comma ∉ cell)) (Csv.parseCells line))
  /\ Csv.parseCells ([dquote] ++ lit "Doe, John" ++ [dquote] ++ lit ",42")
     = [lit "Doe"; lit "John"; lit "42"].
Proof.
  split; [apply join_split|].
  split; [apply split_no_sep|].
  split.
  { unfold Csv.csvLines. apply bool_filter_decide. intros line.
    unfold blank. apply truthy_nonempty. }
  split; [|reflexivity].
  intros line.
  split; [apply join_split|].
  split; [apply split_no_sep|].
  split.
  { unfold Csv.parseCells. apply map_ext. intros piece. unfold stripQuotes.
    apply bool_filter_decide. intros c.
    destruct (N.eqb_spec c dquote) as [Heq|Hne]; case_bool_decide;
      simpl; congruence. }
  split; [apply parseCells_length | apply parseCells_clean].
Qed.

(** ** The code's parser against the text *)

Lemma csvLines_textLines csvText : Csv.csvLines csvText = textLines csvText.
Proof.
  unfold Csv.csvLines, textLines. apply bool_filter_decide. intros line.
  unfold blank. apply truthy_nonempty.
Qed.

Lemma parseCells_lineCells line : Csv.parseCells line = lineCells line.
Proof.
  unfold Csv.parseCells, lineCells. apply map_ext. intros piece.
  unfold stripQuotes. apply bool_filter_decide. intros c.
  destruct (N.eqb_spec c dquote) as [Heq|Hne]; case_bool_decide;
    simpl; congruence.
Qed.

(** ** Preview generation *)

Lemma processRows_length mapping headers rest : forall i leads errors,
  let r := Csv.processRows mapping headers i rest leads errors in
  (length (fst r) + length (snd r) = length leads + length errors + length rest)%nat.
Proof.
  induction rest as [|line rest IH]; intros i leads errors; simpl.
  - lia.
  - destruct (Csv.hasContact _).
    + specialize (IH (S i) (leads ++ [Csv.buildLead mapping headers (Csv.parseCells line)]) errors).
      simpl in IH. rewrite IH, length_app. simpl. lia.
    + specialize (IH (S i) leads (errors ++ [Csv.rowError i])).
      simpl in IH. rewrite IH, length_app. simpl. lia.
Qed.

Lemma processCSV_length mapping csvText :
  let r := Csv.processCSVWithMapping mapping csvText in
  (length (fst r) + length (snd r) = length (Csv.csvLines csvText) - 1)%nat.
Proof.
  unfold Csv.processCSVWithMapping. simpl.
  destruct (Nat.ltb_spec (length (Csv.csvLines csvText)) 2) as [Hlt|Hge]; simpl.
  - lia.
  - pose proof (processRows_length mapping
                  (Csv.parseCells (nth 0 (Csv.csvLines csvText) []))
                  (drop 1 (Csv.csvLines csvText)) 1%nat [] []) as H.
    simpl in H. rewrite H, length_drop. reflexivity.
Qed.

(** C6.  The preview takes its headers from the cells of the first non-blank
    line of the text, its rows from the cells of at most the five non-blank
    lines that follow, and counts as [totalRows] all non-blank lines but the
    first, whether they later pass validation or not; a text without
    non-blank lines gives the empty preview.  Lines and cells are those of
    the text itself: cut at newlines, blank lines dropped, cut at commas,
    trimmed, quotes deleted. *)
Theorem C6_preview_generation (csvText : jstr) :
  let preview := Csv.parseCSVForPreview csvText in
  match textLines csvText with
  | [] =>
      Csv.headers preview = [] /\ Csv.rows preview = []
      /\ Csv.totalRows preview = 0
  | first :: others =>
      Csv.headers preview = lineCells first
      /\ Csv.rows preview = lineCells <$> take 5 others
      /\ (length (Csv.rows preview) <= 5)%nat
      /\ Csv.totalRows preview = Z.of_nat (length (textLines csvText)) - 1
      /\ Csv.totalRows preview = Z.of_nat (length others)
  end
  /\ (forall mapping : gmap jstr jstr,
        let r := Csv.processCSVWithMapping mapping csvText in
        Csv.totalRows preview = Z.of_nat (length (fst r) + length (snd r)))
  /\ Csv.parseCSVForPreview
       (lit "Full Name,Mail,Phone" ++ [newline]
        ++ lit "Ann,ann@x.org,1" ++ [newline]
        ++ lit "  " ++ [newline]
        ++ lit ",,5" ++ [newline])
     = {| Csv.headers := [lit "Full Name"; lit "Mail"; lit "Phone"];
          Csv.rows := [[lit "Ann"; lit "ann@x.org"; lit "1"]; [[]; []; lit "5"]];
          Csv.totalRows := 2 |}.
Proof.
  intros preview. subst preview. split; [|split; [|reflexivity]].
  - unfold Csv.parseCSVForPreview. rewrite <- csvLines_textLines.
    destruct (Csv.csvLines csvText) as [|first others] eqn:Hlines.
    + repeat split.
    + cbn [Csv.headers Csv.rows Csv.totalRows]. unfold slice. simpl.
      rewrite drop_0.
      split; [apply parseCells_lineCells|].
      split; [apply map_ext; intros line; apply parseCells_lineCells|].
      split; [rewrite length_map, length_take; lia|].
      split; lia.
  - intros mapping r. subst r.
    pose proof (processCSV_length mapping csvText) as Hlen. simpl in Hlen.
    rewrite Hlen. unfold Csv.parseCSVForPreview.
    destruct (Csv.csvLines csvText) as [|first others]; simpl; lia.
Qed.

(** ** Sequence steps *)

Lemma imap_step_numbers (g : nat -> Z) (f : nat -> SequenceBuilder.SequenceStep -> SequenceBuilder.SequenceStep) :
  (forall i s, SequenceBuilder.step_number (f i s) = g i) ->
  forall steps, SequenceBuilder.step_number <$> imap f steps = g <$> seq 0 (length steps).
Proof.
  intros Hf steps. revert g f Hf.
  induction steps as [|s steps IH]; intros g f Hf; simpl; [reflexivity|].
  rewrite Hf. f_equal.
  specialize (IH (g ∘ S) (f ∘ S) (fun i s => Hf (S i) s)).
  etransitivity; [exact IH|].
  rewrite <- fmap_S_seq, <- list_fmap_compose. reflexivity.
Qed.

Lemma removeStep_numbered steps index :
  numbered (SequenceBuilder.removeStep steps index).
Proof.
  unfold numbered, SequenceBuilder.removeStep.
  rewrite length_imap. apply imap_step_numbers. reflexivity.
Qed.

Lemma filterIndex_length index steps : forall i,
  length (SequenceBuilder.filterIndex index i steps)
  = if bool_decide (Z.of_nat i <= index < Z.of_nat (i + length steps))
    then (length steps - 1)%nat else length steps.
Proof.
  induction steps as [|s steps IH]; intros i; simpl.
  - case_bool_decide; [lia | reflexivity].
  - destruct (Z.eqb_spec (Z.of_nat i) index) as [Heq|Hne].
    + rewrite IH. repeat case_bool_decide; lia.
    + simpl. rewrite IH. repeat case_bool_decide; lia.
Qed.

(** C8.  A new builder holds a single step, numbered 1; when the steps are
    numbered 1..n, [addStep] appends a step numbered n + 1 and [removeStep]
    at any index renumbers what remains by position, so both results are
    numbered 1..m again. *)
Theorem C8_step_numbering (steps : list SequenceBuilder.SequenceStep) (index : Z)
    (Hnum : numbered steps) :
  numbered SequenceBuilder.initialSteps
  /\ SequenceBuilder.step_number <$> SequenceBuilder.initialSteps = [1]
  /\ (exists newStep,
        SequenceBuilder.addStep steps = steps ++ [newStep]
        /\ SequenceBuilder.step_number newStep = Z.of_nat (length steps) + 1)
  /\ numbered (SequenceBuilder.addStep steps)
  /\ numbered (SequenceBuilder.removeStep steps index)
  /\ length (SequenceBuilder.removeStep steps index)
     = if bool_decide (0 <= index < Z.of_nat (length steps))
       then (length steps - 1)%nat else length steps.
Proof.
  split; [reflexivity|].
  split; [reflexivity|].
  split; [eexists; split; reflexivity|].
  split.
  { unfold numbered, SequenceBuilder.addStep in *.
    rewrite fmap_app, length_app, Hnum. simpl.
    rewrite Nat.add_1_r, seq_S, fmap_app. reflexivity. }
  split; [apply removeStep_numbered|].
  unfold SequenceBuilder.removeStep. rewrite length_imap, filterIndex_length.
  simpl. reflexivity.
Qed.

Lemma C8_step_numbering_witness :
  numbered SequenceBuilder.initialSteps
  /\ SequenceBuilder.step_number <$> SequenceBuilder.initialSteps = [1]
  /\ numbered (SequenceBuilder.addStep SequenceBuilder.initialSteps)
  /\ numbered (SequenceBuilder.removeStep
                 (SequenceBuilder.addStep SequenceBuilder.initialSteps) 0).
Proof.
  assert (H1 : numbered SequenceBuilder.initialSteps) by reflexivity.
  assert (H2 : numbered (SequenceBuilder.addStep SequenceBuilder.initialSteps))
    by reflexivity.
  pose proof (C8_step_numbering SequenceBuilder.initialSteps 0 H1)
    as (_ & _ & _ & Ha & _).
  pose proof (C8_step_numbering _ 0 H2) as (Hi & Hone & _ & _ & Hr & _).
  exact (conj Hi (conj Hone (conj Ha Hr))).
Defined.


(** ** Row validation *)

Lemma indexOf_firstIndex arr x :
  indexOf arr x
  = match firstIndex arr x with Some i => Z.of_nat i | None => -1 end.
Proof.
  unfold firstIndex. induction arr as [|y arr IH]; simpl; [reflexivity|].
  unfold str_eqb. rewrite IH. clear IH.
  destruct (decide (y = x)) as [Heq|Hne].
  - rewrite bool_decide_eq_true_2 by exact Heq. reflexivity.
  - rewrite bool_decide_eq_false_2 by exact Hne.
    destruct (list_find (fun y => y = x) arr) as [[i z]|]; simpl; [|reflexivity].
    destruct (Z.eqb_spec (Z.of_nat i) (-1)); lia.
Qed.

Lemma at_index_of_nat {A} (arr : list A) (i : nat) :
  at_index arr (Z.of_nat i) = arr !! i.
Proof.
  unfold at_index. destruct (Z.ltb_spec (Z.of_nat i) 0); [lia|].
  rewrite Nat2Z.id. reflexivity.
Qed.

Lemma mapEntry_lookup headers values dbColumn csvColumn lead field :
  Csv.mapEntry headers values dbColumn csvColumn lead !! field
  = if decide (dbColumn = field)
    then match cellUnder headers values csvColumn with
         | Some value => Some value
         | None => lead !! field
         end
    else lead !! field.
Proof.
  unfold Csv.mapEntry, cellUnder. rewrite indexOf_firstIndex.
  destruct csvColumn as [|c0 csvColumn]; simpl.
  { destruct (decide (dbColumn = field)); reflexivity. }
  destruct (firstIndex headers (c0 :: csvColumn)) as [i|]; simpl.
  - rewrite at_index_of_nat.
    replace (Z.of_nat i =? -1) with false by (symmetry; apply Z.eqb_neq; lia).
    simpl. destruct (values !! i) as [[|v0 value]|]; simpl.
    + destruct (decide (dbColumn = field)); reflexivity.
    + rewrite lookup_insert. destruct (decide (dbColumn = field)); reflexivity.
    + destruct (decide (dbColumn = field)); reflexivity.
  - destruct (decide (dbColumn = field)); reflexivity.
Qed.

(** The lead object holds, for each field, the value the row yields. *)
Lemma buildLead_lookup mapping headers values field :
  Csv.buildLead mapping headers values !! field
  = mappedValue mapping headers values field.
Proof.
  unfold Csv.buildLead, mappedValue. revert field.
  apply (map_fold_weak_ind
           (fun (lead : gmap jstr jstr) (m : gmap jstr jstr) =>
              forall field, lead !! field = m !! field ≫= cellUnder headers values)).
  - intros field. rewrite !lookup_empty. reflexivity.
  - intros dbColumn csvColumn m lead Hfresh IH field.
    rewrite mapEntry_lookup, lookup_insert.
    destruct (decide (dbColumn = field)) as [->|Hne]; simpl.
    + destruct (cellUnder headers values csvColumn); [reflexivity|].
      rewrite IH, Hfresh. reflexivity.
    + apply IH.
Qed.

Lemma mappedValue_nonempty mapping headers values field value :
  mappedValue mapping headers values field = Some value -> value <> [].
Proof.
  unfold mappedValue, cellUnder.
  destruct (mapping !! field) as [csvColumn|]; simpl; [|discriminate].
  destruct (decide (csvColumn = [])); [discriminate|].
  destruct (firstIndex headers csvColumn); simpl; [|discriminate].
  destruct (values !! n0); simpl; [|discriminate].
  destruct (decide (l = [])); [discriminate|]. congruence.
Qed.

Lemma truthy_mappedValue mapping headers values field :
  truthy_opt (mappedValue mapping headers values field)
  = bool_decide (is_Some (mappedValue mapping headers values field)).
Proof.
  destruct (mappedValue mapping headers values field) as [value|] eqn:Hv; simpl.
  - apply mappedValue_nonempty in Hv. destruct value; [contradiction|].
    reflexivity.
  - reflexivity.
Qed.

Lemma hasContact_rowValid mapping headers values :
  Csv.hasContact (Csv.buildLead mapping headers values)
  = bool_decide (rowValid mapping headers values).
Proof.
  unfold Csv.hasContact, rowValid, contactFields.
  rewrite !buildLead_lookup, !truthy_mappedValue.
  repeat case_bool_decide; simpl; try reflexivity.
  all: match goal with
       | H : ~ Exists _ _ |- _ => exfalso; apply H
       | H : Exists _ _ |- _ =>
           exfalso; repeat (apply Exists_cons in H as [H|H]; [contradiction|]);
           inversion H
       end.
  all: repeat (first [ apply Exists_cons_hd; assumption | apply Exists_cons_tl ]).
Qed.

Lemma imap_shift {A B} (f g : nat -> A -> B) (l : list A) :
  (forall k x, f k x = g k x) -> imap f l = imap g l.
Proof. intros Hfg. apply imap_ext. intros k x _. apply Hfg. Qed.

Lemma rowError_message i : Csv.rowError i = rowMessage (i + 1).
Proof. reflexivity. Qed.

(** The loop sorts the rows it visits: valid ones to [leads], the others to
    [errors], in order. *)
Lemma processRows_spec mapping headers rest : forall i leads errors,
  let rows := imap (fun k line => ((i + k + 1)%nat, Csv.parseCells line)) rest in
  Csv.processRows mapping headers i rest leads errors
  = (leads ++ ((fun row => Csv.buildLead mapping headers row.2)
                 <$> filter (fun row => rowValid mapping headers row.2) rows),
     errors ++ ((fun row => rowMessage row.1)
                  <$> filter (fun row => ~ rowValid mapping headers row.2) rows)).
Proof.
  induction rest as [|line rest IH]; intros i leads errors; simpl.
  - rewrite !app_nil_r. reflexivity.
  - rewrite hasContact_rowValid, !filter_cons. simpl.
    rewrite (imap_shift _ (fun k line => ((S i + k + 1)%nat, Csv.parseCells line)))
      by (intros; unfold compose; f_equal; lia).
    destruct (decide (rowValid mapping headers (Csv.parseCells line))) as [Hv|Hv].
    + rewrite bool_decide_eq_true_2 by exact Hv.
      rewrite decide_False by tauto.
      rewrite IH. simpl. rewrite <- app_assoc. reflexivity.
    + rewrite bool_decide_eq_false_2 by exact Hv.
      rewrite decide_True by exact Hv.
      rewrite IH. simpl. rewrite <- app_assoc, rowError_message.
      replace (i + 0 + 1)%nat with (i + 1)%nat by lia. reflexivity.
Qed.

Lemma processCSV_spec mapping csvText :
  let headers := headerCells csvText in
  let rows := dataRows csvText in
  Csv.processCSVWithMapping mapping csvText
  = ((fun row => Csv.buildLead mapping headers row.2)
       <$> filter (fun row => rowValid mapping headers row.2) rows,
     (fun row => rowMessage row.1)
       <$> filter (fun row => ~ rowValid mapping headers row.2) rows).
Proof.
  unfold Csv.processCSVWithMapping, headerCells, dataRows.
  cbv zeta.
  destruct (Csv.csvLines csvText) as [|first [|second others]];
    [reflexivity | reflexivity |].
  cbn [length Nat.ltb Nat.leb nth drop].
  rewrite (processRows_spec mapping (Csv.parseCells first)
             (second :: others) 1 [] []).
  cbv zeta. rewrite !app_nil_l.
  rewrite (imap_shift (fun k line => ((1 + k + 1)%nat, Csv.parseCells line))
             (fun k line => ((k + 2)%nat, Csv.parseCells line)))
    by (intros; f_equal; lia).
  reflexivity.
Qed.

(** ** The upload handlers, effect by effect *)

Lemma tab_upload_trace (st : UploadLeadsTab.state) (ans : db_response) :
  trace (UploadLeadsTab.handleFileUpload st ans)
  = match UploadLeadsTab.csvFile st, UploadLeadsTab.user st with
    | Some file, Some u =>
        if truthy (UploadLeadsTab.campaignId st) then
          [SetUploadLoading true; SetUploadResult None]
          ++ match File.text file with
             | inl e =>
                 [ConsoleError;
                  SetUploadResult (Some (UploadLeadsTab.uploadFailed e))]
             | inr csvText =>
                 let r := Csv.processCSVWithMapping
                            (UploadLeadsTab.columnMapping st) csvText in
                 match r.1 with
                 | [] => [SetUploadResult (Some (UploadLeadsTab.noValidLeads r.2))]
                 | _ :: _ =>
                     InsertLeads
                       (UploadLeadsTab.leadToInsert (User.id u)
                          (UploadLeadsTab.campaignId st) <$> r.1) ans
                     :: match ans with
                        | DbError m =>
                            [ConsoleError;
                             SetUploadResult
                               (Some (UploadLeadsTab.uploadFailed
                                        (ErrorObject (lit "Database error: " ++ m))))]
                        | DbOk =>
                            [SetUploadResult
                               (Some (UploadLeadsTab.uploadSucceeded (length r.1)));
                             SetCsvFile None; SetCsvPreview None;
                             SetShowPreview false; SetColumnMapping ∅;
                             Query uploaded_leads
                               [(lit "campaign_id", UploadLeadsTab.campaignId st);
                                (lit "user_id", User.id u)]]
                        end
                 end
             end
          ++ [SetUploadLoading false]
        else []
    | _, _ => []
    end.
Proof.
  unfold UploadLeadsTab.handleFileUpload, UploadLeadsTab.fetchExistingLeads.
  destruct st as [cid [u|] [[[e|csvText]]|] mapping]; simpl; try reflexivity.
  - destruct (truthy cid); reflexivity.
  - destruct (truthy cid) eqn:Hcid; [|reflexivity].
    destruct (Csv.processCSVWithMapping mapping csvText) as [[|lead leads] errors];
      simpl; [reflexivity|].
    destruct ans; reflexivity.
Qed.

Lemma callStartCampaign_run (hook : http_response) :
  EditCampaign.callStartCampaign hook
  = ([HttpPost EditCampaign.startCampaignUrl hook],
     inr (webhookOk hook,
          if webhookOk hook then None else Some (webhookFailure hook))).
Proof.
  unfold EditCampaign.callStartCampaign.
  destruct hook as [status|e]; simpl; [|reflexivity].
  destruct (response_ok status); reflexivity.
Qed.

Lemma edit_upload_trace (st : EditCampaign.state)
    (ans : db_response) (hook : http_response) :
  trace (EditCampaign.handleFileUpload st ans hook)
  = match EditCampaign.csvFile st, EditCampaign.user st, EditCampaign.campaign st with
    | Some file, Some u, Some c =>
        [SetUploadLoading true; SetUploadResult None]
        ++ match File.text file with
           | inl e =>
               [ConsoleError;
                SetUploadResult (Some (EditCampaign.uploadFailed e))]
           | inr csvText =>
               let r := Csv.processCSVWithMapping
                          (EditCampaign.columnMapping st) csvText in
               match r.1 with
               | [] => [SetUploadResult (Some (UploadLeadsTab.noValidLeads r.2))]
               | _ :: _ =>
                   InsertLeads
                     (UploadLeadsTab.leadToInsert (User.id u) (Campaign.id c)
                        <$> r.1) ans
                   :: match ans with
                      | DbError m =>
                          [ConsoleError;
                           SetUploadResult
                             (Some (EditCampaign.uploadFailed
                                      (ErrorObject (lit "Database error: " ++ m))))]
                      | DbOk =>
                          [HttpPost EditCampaign.startCampaignUrl hook;
                           SetUploadResult
                             (Some (EditCampaign.uploadSucceeded (length r.1)
                                      (webhookOk hook)
                                      (if webhookOk hook then None
                                       else Some (webhookFailure hook))));
                           SetCsvFile None; SetCsvPreview None;
                           SetShowPreview false; SetColumnMapping ∅]
                      end
               end
           end
        ++ [SetUploadLoading false]
    | _, _, _ => []
    end.
Proof.
  unfold EditCampaign.handleFileUpload.
  destruct st as [i [u|] [c|] [[[e|csvText]]|] mapping fd]; simpl; try reflexivity.
  destruct (Csv.processCSVWithMapping mapping csvText) as [[|lead leads] errors];
    simpl; [reflexivity|].
  destruct ans; [|reflexivity].
  simpl. rewrite callStartCampaign_run. reflexivity.
Qed.

Lemma tab_insert_origin (st : UploadLeadsTab.state) ans rows r :
  InsertLeads rows r ∈ trace (UploadLeadsTab.handleFileUpload st ans) ->
  exists u file csvText,
    UploadLeadsTab.user st = Some u
    /\ UploadLeadsTab.csvFile st = Some file
    /\ File.text file = inr csvText
    /\ (Csv.processCSVWithMapping (UploadLeadsTab.columnMapping st) csvText).1 <> []
    /\ rows = UploadLeadsTab.leadToInsert (User.id u) (UploadLeadsTab.campaignId st)
              <$> (Csv.processCSVWithMapping (UploadLeadsTab.columnMapping st) csvText).1.
Proof.
  rewrite tab_upload_trace. intros Hin.
  destruct (UploadLeadsTab.csvFile st) as [file|]; [|split_trace Hin].
  destruct (UploadLeadsTab.user st) as [u|]; [|split_trace Hin].
  destruct (truthy (UploadLeadsTab.campaignId st)); [|split_trace Hin].
  destruct (File.text file) as [e|csvText] eqn:Htext; [split_trace Hin|].
  exists u, file, csvText. cbv zeta in Hin.
  destruct ((Csv.processCSVWithMapping (UploadLeadsTab.columnMapping st) csvText).1)
    as [|lead leads]; [split_trace Hin|].
  repeat (split; [first [reflexivity | exact Htext | discriminate]|]).
  destruct ans; split_trace Hin; injection Hin as Hrows _; exact Hrows.
Qed.

Lemma edit_insert_origin (st : EditCampaign.state) ans hook rows r :
  InsertLeads rows r ∈ trace (EditCampaign.handleFileUpload st ans hook) ->
  exists u c file csvText,
    EditCampaign.user st = Some u
    /\ EditCampaign.campaign st = Some c
    /\ EditCampaign.csvFile st = Some file
    /\ File.text file = inr csvText
    /\ (Csv.processCSVWithMapping (EditCampaign.columnMapping st) csvText).1 <> []
    /\ rows = UploadLeadsTab.leadToInsert (User.id u) (Campaign.id c)
              <$> (Csv.processCSVWithMapping (EditCampaign.columnMapping st) csvText).1.
Proof.
  rewrite edit_upload_trace. intros Hin.
  destruct (EditCampaign.csvFile st) as [file|]; [|split_trace Hin].
  destruct (EditCampaign.user st) as [u|]; [|split_trace Hin].
  destruct (EditCampaign.campaign st) as [c|]; [|split_trace Hin].
  destruct (File.text file) as [e|csvText] eqn:Htext; [split_trace Hin|].
  exists u, c, file, csvText. cbv zeta in Hin.
  destruct ((Csv.processCSVWithMapping (EditCampaign.columnMapping st) csvText).1)
    as [|lead leads]; [split_trace Hin|].
  repeat (split; [first [reflexivity | exact Htext | discriminate]|]).
  destruct ans; split_trace Hin; injection Hin as Hrows _; exact Hrows.
Qed.

Lemma headerCells_textHeaders csvText : headerCells csvText = textHeaders csvText.
Proof.
  unfold headerCells, textHeaders. rewrite <- csvLines_textLines.
  destruct (Csv.csvLines csvText); [reflexivity | apply parseCells_lineCells].
Qed.

Lemma dataRows_textRows csvText : dataRows csvText = textRows csvText.
Proof.
  unfold dataRows, textRows. rewrite <- csvLines_textLines.
  apply imap_ext. intros k line _. rewrite parseCells_lineCells. reflexivity.
Qed.

(** C1.  Every data row of the text (a non-blank line after the first, cut
    at its commas) ends in exactly one of two lists: a row that yields a
    non-empty name, phone or email under the mapping becomes a lead, which
    holds for each of the seven fields the value the row yields, and any
    other row becomes an error message carrying its row number.  With a
    file, a user and a campaign at hand, no lead means the failure report
    and no insert, and an insert that is attempted carries at least one
    row. *)
Theorem C1_validation_before_insertion
    (mapping : gmap jstr jstr) (csvText : jstr)
    (u : User.t) (cid : jstr) (c : Campaign.t) (i : option jstr)
    (fd : FormData.t) (ans : db_response) (hook : http_response)
    (Hcid : cid <> []) :
  let headers := textHeaders csvText in
  let rows := textRows csvText in
  let leads := (Csv.processCSVWithMapping mapping csvText).1 in
  let errors := (Csv.processCSVWithMapping mapping csvText).2 in
  let file := Some (File.mk (inr csvText)) in
  let tab := {| UploadLeadsTab.campaignId := cid; UploadLeadsTab.user := Some u;
                UploadLeadsTab.csvFile := file;
                UploadLeadsTab.columnMapping := mapping |} in
  let edit := {| EditCampaign.id := i; EditCampaign.user := Some u;
                 EditCampaign.campaign := Some c; EditCampaign.csvFile := file;
                 EditCampaign.columnMapping := mapping;
                 EditCampaign.formData := fd |} in
  leads = (fun row => Csv.buildLead mapping headers row.2)
            <$> filter (fun row => rowValid mapping headers row.2) rows
  /\ errors = (fun row => rowMessage row.1)
                <$> filter (fun row => ~ rowValid mapping headers row.2) rows
  /\ (forall values field, field ∈ fieldKeys ->
        Csv.buildLead mapping headers values !! field
        = mappedValue mapping headers values field)
  /\ (length leads + length errors = length rows)%nat
  /\ match leads with
     | [] =>
         let failure :=
           [SetUploadLoading true; SetUploadResult None;
            SetUploadResult (Some (UploadLeadsTab.noValidLeads errors));
            SetUploadLoading false] in
         trace (UploadLeadsTab.handleFileUpload tab ans) = failure
         /\ trace (EditCampaign.handleFileUpload edit ans hook) = failure
         /\ UploadResult.success (UploadLeadsTab.noValidLeads errors) = false
         /\ UploadResult.message (UploadLeadsTab.noValidLeads errors)
            = lit "No valid leads found in CSV file."
     | _ :: _ =>
         List.filter is_insert_leads (trace (UploadLeadsTab.handleFileUpload tab ans))
         = [InsertLeads (UploadLeadsTab.leadToInsert (User.id u) cid <$> leads) ans]
         /\ List.filter is_insert_leads
              (trace (EditCampaign.handleFileUpload edit ans hook))
            = [InsertLeads
                 (UploadLeadsTab.leadToInsert (User.id u) (Campaign.id c) <$> leads)
                 ans]
     end
  /\ (forall st ans' inserted r,
        InsertLeads inserted r ∈ trace (UploadLeadsTab.handleFileUpload st ans') ->
        inserted <> [])
  /\ (forall st ans' hook' inserted r,
        InsertLeads inserted r ∈ trace (EditCampaign.handleFileUpload st ans' hook') ->
        inserted <> []).
Proof.
  intros headers rows leads errors file tab edit.
  pose proof (processCSV_spec mapping csvText) as Hspec. cbv zeta in Hspec.
  rewrite headerCells_textHeaders, dataRows_textRows in Hspec.
  fold headers rows in Hspec.
  split; [subst leads; rewrite Hspec; reflexivity|].
  split; [subst errors; rewrite Hspec; reflexivity|].
  split; [intros; apply buildLead_lookup|].
  split.
  { pose proof (processCSV_length mapping csvText) as Hlen. cbv zeta in Hlen.
    subst leads errors rows. rewrite Hlen. unfold textRows.
    rewrite length_imap, length_drop, <- csvLines_textLines. reflexivity. }
  split.
  { rewrite tab_upload_trace, edit_upload_trace.
    subst tab edit file. cbn [UploadLeadsTab.csvFile UploadLeadsTab.user
      UploadLeadsTab.campaignId UploadLeadsTab.columnMapping EditCampaign.csvFile
      EditCampaign.user EditCampaign.campaign EditCampaign.columnMapping File.text].
    cbv zeta. fold leads errors.
    replace (truthy cid) with true by (destruct cid; [contradiction | reflexivity]).
    destruct leads as [|lead more].
    - repeat split.
    - destruct ans; split; reflexivity. }
  split.
  - intros st ans' inserted r Hin.
    apply tab_insert_origin in Hin as (u' & f' & t' & _ & _ & _ & Hne & ->).
    intros Hnil. apply Hne. apply fmap_nil_inv in Hnil. exact Hnil.
  - intros st ans' hook' inserted r Hin.
    apply edit_insert_origin in Hin as (u' & c' & f' & t' & _ & _ & _ & _ & Hne & ->).
    intros Hnil. apply Hne. apply fmap_nil_inv in Hnil. exact Hnil.
Qed.

(** At the sample file the row of Ann becomes the one lead, with her name
    and address, and the row with a phone number alone becomes the error of
    row 3. *)
Lemma C1_validation_witness :
  (exists lead,
     (Csv.processCSVWithMapping Sample.mapping Sample.csvText).1 = [lead]
     /\ lead !! lit "name" = Some (lit "Ann")
     /\ lead !! lit "email" = Some (lit "ann@x.org")
     /\ lead !! lit "phone" = None)
  /\ (Csv.processCSVWithMapping Sample.mapping Sample.csvText).2
     = [lit "Row 3: Missing required data (name, phone, or email)"].
Proof.
  assert (Hcid : lit "campaign-1" <> []) by (vm_compute; discriminate).
  destruct (C1_validation_before_insertion Sample.mapping Sample.csvText
              Sample.user (lit "campaign-1") Sample.campaign None Sample.form
              DbOk (Responded 200) Hcid)
    as (Hleads & Herrors & Hfields & _).
  assert (Hrows : textRows Sample.csvText
                  = [(2%nat, [lit "Ann"; lit "ann@x.org"; lit "1"]);
                     (3%nat, [[]; []; lit "5"])]) by (vm_compute; reflexivity).
  assert (Hheaders : textHeaders Sample.csvText
                     = [lit "Full Name"; lit "Mail"; lit "Phone"])
    by (vm_compute; reflexivity).
  assert (Hkey : forall field,
            In field [lit "name"; lit "email"; lit "phone"] -> field ∈ fieldKeys).
  { intros field Hin. apply list_elem_of_In. vm_compute.
    simpl in Hin. destruct Hin as [<-|[<-|[<-|[]]]]; vm_compute; tauto. }
  rewrite Hrows, Hheaders in Hleads, Herrors.
  assert (Hvalid2 : rowValid Sample.mapping [lit "Full Name"; lit "Mail"; lit "Phone"]
                      [lit "Ann"; lit "ann@x.org"; lit "1"]).
  { apply Exists_cons_hd. vm_compute. eexists. reflexivity. }
  assert (Hvalid3 : ~ rowValid Sample.mapping [lit "Full Name"; lit "Mail"; lit "Phone"]
                      [[]; []; lit "5"]).
  { intros Hv. unfold rowValid, contactFields in Hv.
    repeat (apply Exists_cons in Hv as [Hv|Hv];
            [vm_compute in Hv; destruct Hv as [v Hv]; discriminate Hv|]).
    inversion Hv. }
  rewrite !filter_cons, filter_nil in Hleads, Herrors. cbn [snd fst] in Hleads, Herrors.
  rewrite (decide_True _ _ Hvalid2), (decide_False _ _ Hvalid3) in Hleads.
  rewrite (decide_False (P := ~ rowValid _ _ [lit "Ann"; _; _])) in Herrors by tauto.
  rewrite (decide_True _ _ Hvalid3) in Herrors.
  split.
  - eexists. split; [exact Hleads|].
    rewrite !Hfields by (apply Hkey; simpl; tauto).
    vm_compute. repeat split.
  - rewrite Herrors. reflexivity.
Defined.

(** ** Shape of the inserted rows *)

Lemma or_else_mapped mapping headers values field :
  or_else (mappedValue mapping headers values field) []
  = default [] (mappedValue mapping headers values field).
Proof.
  destruct (mappedValue mapping headers values field) as [value|] eqn:Hv;
    simpl; [|reflexivity].
  apply mappedValue_nonempty in Hv. destruct value; [contradiction | reflexivity].
Qed.

Lemma leadToInsert_fields uid cid mapping headers values :
  Forall (fun kp : jstr * (LeadRow.t -> jstr) =>
            kp.2 (UploadLeadsTab.leadToInsert uid cid
                    (Csv.buildLead mapping headers values))
            = default [] (mappedValue mapping headers values kp.1))
         leadFields.
Proof.
  unfold leadFields. repeat constructor; simpl;
    rewrite buildLead_lookup; apply or_else_mapped.
Qed.

(** What C10 says of one inserted row. *)
Lemma inserted_rows_shape uid cid mapping csvText :
  Forall (fun row =>
            LeadRow.status row = lit "pending"
            /\ LeadRow.user_id row = uid
            /\ LeadRow.campaign_id row = cid
            /\ exists n values,
                 (n, values) ∈ dataRows csvText
                 /\ rowValid mapping (headerCells csvText) values
                 /\ Forall (fun kp : jstr * (LeadRow.t -> jstr) =>
                              kp.2 row
                              = default []
                                  (mappedValue mapping (headerCells csvText)
                                     values kp.1))
                           leadFields)
         (UploadLeadsTab.leadToInsert uid cid
            <$> (Csv.processCSVWithMapping mapping csvText).1).
Proof.
  pose proof (processCSV_spec mapping csvText) as Hspec. cbv zeta in Hspec.
  rewrite Hspec. cbn [fst]. apply Forall_fmap, Forall_fmap, Forall_forall.
  intros [n values] Hin. apply list_elem_of_filter in Hin as [Hvalid Hin].
  simpl. repeat (split; [reflexivity|]).
  exists n, values. split; [exact Hin|]. split; [exact Hvalid|].
  apply leadToInsert_fields.
Qed.

(** C10.  Every row handed to the insert into [uploaded_leads], by either
    upload handler, has status pending, the id of the signed-in user, the id
    of the current campaign, and in each of the seven mapped fields the cell
    the mapping yields for its data row, or the empty string when there is
    none. *)
Theorem C10_uploaded_lead_row_shape :
  (forall (st : UploadLeadsTab.state) ans rows r,
     InsertLeads rows r ∈ trace (UploadLeadsTab.handleFileUpload st ans) ->
     exists u file csvText,
       UploadLeadsTab.user st = Some u
       /\ UploadLeadsTab.csvFile st = Some file
       /\ File.text file = inr csvText
       /\ Forall (fun row =>
            LeadRow.status row = lit "pending"
            /\ LeadRow.user_id row = User.id u
            /\ LeadRow.campaign_id row = UploadLeadsTab.campaignId st
            /\ exists n values,
                 (n, values) ∈ dataRows csvText
                 /\ rowValid (UploadLeadsTab.columnMapping st)
                      (headerCells csvText) values
                 /\ Forall (fun kp : jstr * (LeadRow.t -> jstr) =>
                              kp.2 row
                              = default []
                                  (mappedValue (UploadLeadsTab.columnMapping st)
                                     (headerCells csvText) values kp.1))
                           leadFields)
            rows)
  /\ (forall (st : EditCampaign.state) ans hook rows r,
        InsertLeads rows r ∈ trace (EditCampaign.handleFileUpload st ans hook) ->
        exists u c file csvText,
          EditCampaign.user st = Some u
          /\ EditCampaign.campaign st = Some c
          /\ EditCampaign.csvFile st = Some file
          /\ File.text file = inr csvText
          /\ Forall (fun row =>
               LeadRow.status row = lit "pending"
               /\ LeadRow.user_id row = User.id u
               /\ LeadRow.campaign_id row = Campaign.id c
               /\ exists n values,
                    (n, values) ∈ dataRows csvText
                    /\ rowValid (EditCampaign.columnMapping st)
                         (headerCells csvText) values
                    /\ Forall (fun kp : jstr * (LeadRow.t -> jstr) =>
                                 kp.2 row
                                 = default []
                                     (mappedValue (EditCampaign.columnMapping st)
                                        (headerCells csvText) values kp.1))
                              leadFields)
               rows).
Proof.
  split.
  - intros st ans rows r Hin.
    apply tab_insert_origin in Hin as (u & file & csvText & Hu & Hf & Ht & _ & ->).
    exists u, file, csvText. repeat (split; [assumption|]).
    apply inserted_rows_shape.
  - intros st ans hook rows r Hin.
    apply edit_insert_origin in Hin
      as (u & c & file & csvText & Hu & Hc & Hf & Ht & _ & ->).
    exists u, c, file, csvText. repeat (split; [assumption|]).
    apply inserted_rows_shape.
Qed.

Lemma C10_row_shape_witness :
  Forall (fun row => LeadRow.status row = lit "pending")
    (UploadLeadsTab.leadToInsert (lit "user-1") (lit "campaign-1")
       <$> (Csv.processCSVWithMapping Sample.mapping Sample.csvText).1).
Proof.
  assert (Hin : InsertLeads
                  (UploadLeadsTab.leadToInsert (lit "user-1") (lit "campaign-1")
                     <$> (Csv.processCSVWithMapping Sample.mapping Sample.csvText).1)
                  DbOk
                ∈ trace (UploadLeadsTab.handleFileUpload
                           (Sample.tab Sample.csvText) DbOk)).
  { apply list_elem_of_In. vm_compute. right; right; left; reflexivity. }
  destruct (proj1 C10_uploaded_lead_row_shape _ _ _ _ Hin)
    as (u & file & csvText & _ & _ & _ & Hall).
  eapply Forall_impl; [exact Hall|].
  intros row (Hstatus & _). exact Hstatus.
Defined.

(** ** The column auto-mapper *)

Lemma startsWith_spec p s : startsWith p s = true <-> exists post, s = p ++ post.
Proof.
  revert s. induction p as [|a p IH]; intros s; simpl.
  - split; [intros _; exists s; reflexivity | reflexivity].
  - destruct s as [|b s].
    + split; [discriminate | intros (post & Hs); discriminate].
    + rewrite andb_true_iff, N.eqb_eq, IH. split.
      * intros (-> & post & ->). exists post. reflexivity.
      * intros (post & [= -> ->]). split; [reflexivity | exists post; reflexivity].
Qed.

(** [includes] is the substring test. *)
Lemma includes_spec s p :
  includes s p = true <-> exists pre post, s = pre ++ p ++ post.
Proof.
  induction s as [|c s IH]; simpl.
  - rewrite orb_false_r, startsWith_spec. split.
    + intros (post & Hs). exists [], post. exact Hs.
    + intros (pre & post & Hs). symmetry in Hs.
      apply app_eq_nil in Hs as (-> & Hs). exists post. symmetry. exact Hs.
  - rewrite orb_true_iff, startsWith_spec, IH. split.
    + intros [(post & Hs)|(pre & post & Hs)].
      * exists [], post. exact Hs.
      * exists (c :: pre), post. simpl. f_equal. exact Hs.
    + intros (pre & post & Hs). destruct pre as [|d pre].
      * left. exists post. exact Hs.
      * right. injection Hs as _ Hs. exists pre, post. exact Hs.
Qed.

(** [find] returns the first element that passes the test. *)
Lemma find_first {A} (p : A -> bool) (arr : list A) (x : A) :
  find p arr = Some x <->
  exists i, arr !! i = Some x /\ p x = true
            /\ forall j y, (j < i)%nat -> arr !! j = Some y -> p y = false.
Proof.
  induction arr as [|a arr IH]; simpl.
  - split; [discriminate | intros (i & Hi & _); destruct i; discriminate].
  - destruct (p a) eqn:Hpa.
    + split.
      * intros [= ->]. exists 0%nat. repeat split; [exact Hpa | intros; lia].
      * intros (i & Hi & Hpx & Hmin). destruct i as [|i]; [exact Hi|].
        specialize (Hmin 0%nat a (Nat.lt_0_succ i) eq_refl). congruence.
    + rewrite IH. split.
      * intros (i & Hi & Hpx & Hmin). exists (S i). repeat split; try assumption.
        intros [|j] y Hj Hy; [injection Hy as <-; exact Hpa|].
        apply (Hmin j y); [lia | exact Hy].
      * intros (i & Hi & Hpx & Hmin). destruct i as [|i].
        { injection Hi as ->. congruence. }
        exists i. repeat split; try assumption.
        intros j y Hj Hy. apply (Hmin (S j) y); [lia | exact Hy].
Qed.

Section AutoMapper.

Variable toLowerCase : jstr -> jstr.

(** On ASCII text the host lower-cases by the ASCII rule. *)
Hypothesis toLowerCase_ascii :
  forall s, Forall (fun c => (c < 128)%N) s -> toLowerCase s = asciiLower s.

Variable headers : list jstr.

Lemma autoMapping_fold (cols : list Csv.DbColumn) : forall acc field,
  fold_left
    (fun (mapping : gmap jstr jstr) dbCol =>
       match find (Csv.headerMatches toLowerCase dbCol) headers with
       | Some matchingHeader =>
           if truthy matchingHeader
           then <[Csv.key dbCol := matchingHeader]> mapping
           else mapping
       | None => mapping
       end) cols acc !! field
  = if decide (field ∈ Csv.key <$> cols)
    then match suggestion toLowerCase headers field with
         | Some header => Some header
         | None => acc !! field
         end
    else acc !! field.
Proof using Type.
  induction cols as [|col cols IH]; intros acc field; simpl.
  - reflexivity.
  - rewrite IH. clear IH.
    assert (Hsame : find (Csv.headerMatches toLowerCase col) headers
                    ≫= (fun header => if truthy header then Some header else None)
                    = suggestion toLowerCase headers (Csv.key col)) by reflexivity.
    destruct (decide (field = Csv.key col)) as [->|Hne].
    + rewrite (decide_True (P := Csv.key col ∈ Csv.key col :: _))
        by (apply elem_of_cons; left; reflexivity).
      rewrite <- Hsame.
      destruct (find (Csv.headerMatches toLowerCase col) headers) as [h|]; simpl.
      * destruct (truthy h); [rewrite lookup_insert_eq|];
          destruct (decide _); reflexivity.
      * destruct (decide _); reflexivity.
    + assert (Hacc :
        match find (Csv.headerMatches toLowerCase col) headers with
        | Some matchingHeader =>
            if truthy matchingHeader
            then <[Csv.key col := matchingHeader]> acc else acc
        | None => acc
        end !! field = acc !! field).
      { destruct (find _ headers) as [h|]; [|reflexivity].
        destruct (truthy h); [|reflexivity].
        apply lookup_insert_ne. congruence. }
      rewrite Hacc.
      destruct (decide (field ∈ Csv.key <$> cols)) as [Hin|Hnin].
      * rewrite decide_True by (apply elem_of_cons; right; exact Hin).
        reflexivity.
      * rewrite decide_False; [reflexivity|].
        intros Hin. apply elem_of_cons in Hin as [Heq|Hin]; contradiction.
Qed.

Lemma fieldKeys_cases (P : jstr -> Prop) :
  P (lit "name") -> P (lit "phone") -> P (lit "email") ->
  P (lit "company_name") -> P (lit "job_title") -> P (lit "source_url") ->
  P (lit "source_platform") ->
  forall field, field ∈ fieldKeys -> P field.
Proof using Type.
  intros H1 H2 H3 H4 H5 H6 H7 field Hin.
  unfold fieldKeys in Hin. simpl in Hin.
  repeat (apply elem_of_cons in Hin as [->|Hin]; [assumption|]).
  apply elem_of_nil in Hin. contradiction.
Qed.

Lemma toLowerCase_key field : field ∈ fieldKeys -> toLowerCase field = field.
Proof using toLowerCase_ascii.
  revert field. apply fieldKeys_cases;
    (rewrite toLowerCase_ascii;
     [reflexivity | repeat constructor]).
Qed.

Lemma toLowerCase_empty : toLowerCase [] = [].
Proof using toLowerCase_ascii. rewrite toLowerCase_ascii; [reflexivity | constructor]. Qed.

(** The [switch] of the source is the keyword table. *)
Lemma patternMatch_table field lower :
  field ∈ fieldKeys ->
  str_eqb lower field || Csv.patternMatch field lower = fieldTest field lower.
Proof using Type.
  revert field. apply fieldKeys_cases; unfold fieldTest, Csv.patternMatch.
  all: table_lookup.
  all: rewrite ?orb_false_r, ?orb_assoc; reflexivity.
Qed.

Lemma headerMatches_fieldTest field header :
  field ∈ fieldKeys ->
  Csv.headerMatches toLowerCase
    {| Csv.key := field; Csv.label := []; Csv.description := [];
       Csv.required := false |} header
  = fieldTest field (toLowerCase header).
Proof using toLowerCase_ascii.
  intros Hin. unfold Csv.headerMatches. cbn [Csv.key].
  rewrite (toLowerCase_key field Hin), <- (patternMatch_table field _ Hin).
  destruct (str_eqb (toLowerCase header) field); reflexivity.
Qed.

Lemma fieldTest_empty field : field ∈ fieldKeys -> fieldTest field [] = false.
Proof using Type. revert field. apply fieldKeys_cases; reflexivity. Qed.

Lemma find_ext {A} (p q : A -> bool) (arr : list A) :
  (forall x, p x = q x) -> find p arr = find q arr.
Proof using Type.
  intros Hpq. induction arr as [|x arr IH]; simpl; [reflexivity|].
  rewrite Hpq, IH. reflexivity.
Qed.

(** A header that matches is never empty, so the truthiness test of the
    source lets every match through. *)
Lemma suggestion_find field :
  field ∈ fieldKeys ->
  suggestion toLowerCase headers field
  = find (fun header => fieldTest field (toLowerCase header)) headers.
Proof using toLowerCase_ascii.
  intros Hin. unfold suggestion.
  rewrite (find_ext _ (fun header => fieldTest field (toLowerCase header)))
    by (intros; apply headerMatches_fieldTest; exact Hin).
  destruct (find _ headers) as [header|] eqn:Hfind; simpl; [|reflexivity].
  apply (find_first (fun header => fieldTest field (toLowerCase header)))
    in Hfind as (i & _ & Htest & _).
  destruct header as [|c header]; [|reflexivity].
  rewrite toLowerCase_empty, (fieldTest_empty field Hin) in Htest. discriminate.
Qed.

(** C3.  The auto-mapper goes through the seven database fields in their
    fixed order and maps each one to the first header whose lower-cased
    form is the field key or passes the keyword test of the field (for
    phone: contains phone, mobile or number, or is tel); a field without
    such a header stays unmapped, and nothing else is mapped. *)
Theorem C3_auto_mapper :
  fieldKeys = [lit "name"; lit "phone"; lit "email"; lit "company_name";
               lit "job_title"; lit "source_url"; lit "source_platform"]
  /\ (forall field, field ∈ fieldKeys ->
        Csv.autoMapping toLowerCase headers !! field
        = find (fun header => fieldTest field (toLowerCase header)) headers)
  /\ (forall field header, field ∈ fieldKeys ->
        (Csv.autoMapping toLowerCase headers !! field = Some header <->
         exists i, headers !! i = Some header
                   /\ fieldTest field (toLowerCase header) = true
                   /\ forall j other, (j < i)%nat -> headers !! j = Some other ->
                        fieldTest field (toLowerCase other) = false))
  /\ (forall field, field ∉ fieldKeys ->
        Csv.autoMapping toLowerCase headers !! field = None)
  /\ (forall lower,
        fieldTest (lit "phone") lower
        = includes lower (lit "phone") || includes lower (lit "mobile")
          || includes lower (lit "number")
          || str_eqb lower (lit "tel") || str_eqb lower (lit "phone")).
Proof using toLowerCase_ascii.
  assert (Hmap : forall field, field ∈ fieldKeys ->
            Csv.autoMapping toLowerCase headers !! field
            = find (fun header => fieldTest field (toLowerCase header)) headers).
  { intros field Hin. unfold Csv.autoMapping.
    rewrite autoMapping_fold, decide_True by exact Hin.
    rewrite lookup_empty, (suggestion_find field Hin).
    destruct (find _ headers); reflexivity. }
  split; [reflexivity|].
  split; [exact Hmap|].
  split.
  { intros field header Hin. rewrite (Hmap field Hin).
    apply (find_first (fun header => fieldTest field (toLowerCase header))). }
  split.
  { intros field Hnin. unfold Csv.autoMapping.
    rewrite autoMapping_fold, decide_False by exact Hnin.
    apply lookup_empty. }
  intros lower. unfold fieldTest. table_lookup.
  destruct (includes lower (lit "phone")), (includes lower (lit "mobile")),
    (includes lower (lit "number")), (str_eqb lower (lit "tel")),
    (str_eqb lower (lit "phone")); reflexivity.
Qed.

End AutoMapper.

(** [handleFileSelect] stores the auto-mapping of the headers of the preview. *)
Lemma handleFileSelect_trace (toLowerCase : jstr -> jstr) (csvText : jstr) :
  let file := File.mk (inr csvText) in
  let preview := Csv.parseCSVForPreview csvText in
  trace (UploadLeadsTab.handleFileSelect toLowerCase (Some file))
  = [SetCsvFile (Some file); SetUploadResult None; SetShowPreview false;
     SetCsvPreview (Some preview);
     SetColumnMapping (Csv.autoMapping toLowerCase (Csv.headers preview));
     SetShowPreview true].
Proof. reflexivity. Qed.

Lemma C3_auto_mapper_witness :
  Csv.autoMapping asciiLower (Csv.parseCells (lit "Full Name,Mobile No,Mail"))
    !! lit "phone"
  = find (fun header => fieldTest (lit "phone") (asciiLower header))
      (Csv.parseCells (lit "Full Name,Mobile No,Mail")).
Proof.
  assert (Hlower : forall s, Forall (fun c => (c < 128)%N) s ->
                             asciiLower s = asciiLower s)
    by (intros s _; reflexivity).
  assert (Hphone : lit "phone" ∈ fieldKeys)
    by (apply list_elem_of_In; vm_compute; right; left; reflexivity).
  exact (proj1 (proj2 (C3_auto_mapper asciiLower Hlower
                         (Csv.parseCells (lit "Full Name,Mobile No,Mail"))))
           (lit "phone") Hphone).
Defined.

(** ** The webhooks *)

Lemma webhookFailure_truthy hook : truthy (webhookFailure hook) = true.
Proof. destruct hook; reflexivity. Qed.

(** C4.  When the rows are stored and the start-campaign webhook then
    answers with a status that is not ok, or the call throws, the one result
    shown is still a success with the number of leads; the failure of the
    webhook only appears as a note in its list of messages. *)
Theorem C4_webhook_failure_not_fatal
    (mapping : gmap jstr jstr) (csvText : jstr)
    (u : User.t) (c : Campaign.t) (i : option jstr) (fd : FormData.t)
    (hook : http_response)
    (Hleads : (Csv.processCSVWithMapping mapping csvText).1 <> [])
    (Hhook : webhookOk hook = false) :
  let leads := (Csv.processCSVWithMapping mapping csvText).1 in
  let st := {| EditCampaign.id := i; EditCampaign.user := Some u;
               EditCampaign.campaign := Some c;
               EditCampaign.csvFile := Some (File.mk (inr csvText));
               EditCampaign.columnMapping := mapping;
               EditCampaign.formData := fd |} in
  exists result,
    trace (EditCampaign.handleFileUpload st DbOk hook)
    = [SetUploadLoading true; SetUploadResult None;
       InsertLeads (UploadLeadsTab.leadToInsert (User.id u) (Campaign.id c) <$> leads)
         DbOk;
       HttpPost EditCampaign.startCampaignUrl hook;
       SetUploadResult (Some result);
       SetCsvFile None; SetCsvPreview None; SetShowPreview false;
       SetColumnMapping ∅; SetUploadLoading false]
    /\ reported (trace (EditCampaign.handleFileUpload st DbOk hook)) = [result]
    /\ UploadResult.success result = true
    /\ UploadResult.leadsCount result = Some (Z.of_nat (length leads))
    /\ UploadResult.errors result
       = Some [EditCampaign.webhookNote; webhookFailure hook].
Proof.
  intros leads st.
  exists (EditCampaign.uploadSucceeded (length leads) false
            (Some (webhookFailure hook))).
  rewrite edit_upload_trace. subst st.
  cbn [EditCampaign.csvFile EditCampaign.user EditCampaign.campaign
       EditCampaign.columnMapping File.text].
  cbv zeta. fold leads. rewrite Hhook.
  destruct leads as [|lead more] eqn:Hl; [contradiction|].
  repeat split.
  unfold EditCampaign.uploadSucceeded. cbn [UploadResult.errors or_else].
  rewrite webhookFailure_truthy. reflexivity.
Qed.

Lemma C4_webhook_failure_witness :
  exists result,
    reported (trace (EditCampaign.handleFileUpload
                       (Sample.edit Sample.csvText) DbOk (Responded 500)))
    = [result]
    /\ UploadResult.success result = true.
Proof.
  assert (Hleads : (Csv.processCSVWithMapping Sample.mapping Sample.csvText).1 <> [])
    by (vm_compute; discriminate).
  assert (Hhook : webhookOk (Responded 500) = false) by reflexivity.
  destruct (C4_webhook_failure_not_fatal Sample.mapping Sample.csvText
              Sample.user Sample.campaign (Some (lit "campaign-1")) Sample.form
              (Responded 500) Hleads Hhook)
    as (result & _ & Hreported & Hsuccess & _).
  exists result. split; [exact Hreported | exact Hsuccess].
Defined.

Lemma trigger_trace (st : EditCampaign.state) (hook : http_response) :
  trace (EditCampaign.triggerChannelsEngine st hook)
  = match EditCampaign.campaign st, EditCampaign.user st with
    | Some _, Some _ =>
        [HttpPost EditCampaign.channelsEngineUrl hook;
         EditCampaign.report (webhookOk hook)
           (if webhookOk hook
            then lit "Channels engine triggered successfully!"
            else lit "Failed to trigger channels engine. Please try again.")]
    | _, _ => []
    end.
Proof.
  unfold EditCampaign.triggerChannelsEngine.
  destruct (EditCampaign.campaign st), (EditCampaign.user st); try reflexivity.
  destruct hook as [status|e]; simpl; [|reflexivity].
  destruct (response_ok status); reflexivity.
Qed.

(** C5.  One invocation posts to the webhook at most once, whatever the
    answer: the leads tab never posts, the upload of [EditCampaign] posts at
    most once to the start-campaign hook, and a manual trigger posts exactly
    once to the channels-engine hook when a campaign and a user are present.
    A post is followed by exactly one result: for the trigger a success
    exactly when the answer was ok, for the upload a result whose list of
    messages is empty exactly when the answer was ok. *)
Theorem C5_single_webhook_call :
  (forall (st : UploadLeadsTab.state) ans,
     List.filter is_post (trace (UploadLeadsTab.handleFileUpload st ans)) = [])
  /\ (forall (st : EditCampaign.state) ans hook,
        let t := trace (EditCampaign.handleFileUpload st ans hook) in
        List.filter is_post t = []
        \/ (List.filter is_post t = [HttpPost EditCampaign.startCampaignUrl hook]
            /\ exists result,
                 reported t = [result]
                 /\ UploadResult.errors result
                    = Some (if webhookOk hook then []
                            else [EditCampaign.webhookNote; webhookFailure hook])))
  /\ (forall (st : EditCampaign.state) hook,
        let t := trace (EditCampaign.triggerChannelsEngine st hook) in
        t = []
        \/ (List.filter is_post t = [HttpPost EditCampaign.channelsEngineUrl hook]
            /\ exists result,
                 reported t = [result]
                 /\ UploadResult.success result = webhookOk hook)).
Proof.
  split; [|split].
  - intros st ans. rewrite tab_upload_trace.
    destruct (UploadLeadsTab.csvFile st) as [file|]; [|reflexivity].
    destruct (UploadLeadsTab.user st) as [u|]; [|reflexivity].
    destruct (truthy (UploadLeadsTab.campaignId st)); [|reflexivity].
    destruct (File.text file) as [e|csvText]; [reflexivity|].
    cbv zeta.
    destruct ((Csv.processCSVWithMapping _ csvText).1); [reflexivity|].
    destruct ans; reflexivity.
  - intros st ans hook t. subst t. rewrite edit_upload_trace.
    destruct (EditCampaign.csvFile st) as [file|]; [|left; reflexivity].
    destruct (EditCampaign.user st) as [u|]; [|left; reflexivity].
    destruct (EditCampaign.campaign st) as [c|]; [|left; reflexivity].
    destruct (File.text file) as [e|csvText]; [left; reflexivity|].
    cbv zeta.
    destruct ((Csv.processCSVWithMapping _ csvText).1) as [|lead more];
      [left; reflexivity|].
    destruct ans; [|left; reflexivity].
    right. split; [reflexivity|].
    eexists. split; [reflexivity|].
    unfold EditCampaign.uploadSucceeded. cbn [UploadResult.errors].
    destruct (webhookOk hook); [reflexivity|].
    cbn [or_else]. rewrite webhookFailure_truthy. reflexivity.
  - intros st hook t. subst t. rewrite trigger_trace.
    destruct (EditCampaign.campaign st); [|left; reflexivity].
    destruct (EditCampaign.user st); [|left; reflexivity].
    right. split; [reflexivity|].
    eexists. split; reflexivity.
Qed.

(** ** Mutations and re-fetching *)

(** After a successful update of the campaign form, [EditCampaign] issues no
    query: the statement of C7 fails for [handleSubmit]. *)
Lemma C7_update_without_refetch :
  let t := trace (EditCampaign.handleSubmit (Sample.edit Sample.csvText) DbOk) in
  existsb is_mutation_ok t = true
  /\ existsb is_query t = false
  /\ refetches t = false.
Proof. vm_compute. repeat split. Qed.

Lemma no_query_no_refetch_needed (t : list effect) :
  existsb is_mutation_ok t = false -> refetches t = true.
Proof.
  induction t as [|e t IH]; simpl; [reflexivity|].
  destruct (is_mutation_ok e); simpl; [discriminate | exact IH].
Qed.

(** C7, as the code has it.  In the campaign list and in the leads tab a
    successful create, delete or upload is followed by the query of the
    component's fetch function, which is sent when a user is signed in (and,
    in the leads tab, a campaign id is set).  [EditCampaign] does not
    re-fetch: after a successful update it only reports the result, and after
    a successful publish it patches the status of its local copies. *)
Theorem C7_refetch_after_mutation
    (u : User.t) (cid : jstr) (theme : jstr) (fd : FormData.t)
    (file : option File.t) (c : option Campaign.t) (mapping : gmap jstr jstr)
    (Hcid : cid <> []) :
  let campaignList := {| Campaigns.user := Some u; Campaigns.theme := theme;
                         Campaigns.formData := fd |} in
  let tab := {| UploadLeadsTab.campaignId := cid; UploadLeadsTab.user := Some u;
                UploadLeadsTab.csvFile := file;
                UploadLeadsTab.columnMapping := mapping |} in
  let edit := {| EditCampaign.id := Some cid; EditCampaign.user := Some u;
                 EditCampaign.campaign := c; EditCampaign.csvFile := file;
                 EditCampaign.columnMapping := mapping;
                 EditCampaign.formData := fd |} in
  let filters := [(lit "id", cid); (lit "user_id", User.id u)] in
  (forall st ans, refetches (trace (Campaigns.handleCreateCampaign st ans)) = true)
  /\ (forall id confirmed ans,
        refetches (trace (Campaigns.handleDeleteCampaign campaignList id confirmed ans))
        = true)
  /\ (forall st ans, refetches (trace (UploadLeadsTab.handleFileUpload st ans)) = true)
  /\ (forall leadId confirmed ans,
        refetches (trace (UploadLeadsTab.deleteLead tab leadId confirmed ans)) = true)
  /\ (forall (st : EditCampaign.state) ans,
        existsb is_query (trace (EditCampaign.handleSubmit st ans)) = false
        /\ existsb is_query (trace (EditCampaign.handlePublish st ans)) = false)
  /\ trace (EditCampaign.handleSubmit edit DbOk)
     = [PreventDefault; SetSaving true;
        UpdateCampaign (WholeForm fd) filters DbOk;
        EditCampaign.report true (lit "Campaign updated successfully!");
        SetSaving false]
  /\ trace (EditCampaign.handlePublish edit DbOk)
     = [SetPublishing true;
        UpdateCampaign (StatusOnly (lit "active")) filters DbOk;
        PatchCampaignStatus (lit "active"); PatchFormStatus (lit "active");
        EditCampaign.report true (lit "Campaign published successfully!");
        SetPublishing false].
Proof.
  intros campaignList tab edit filters.
  assert (Htruthy : truthy cid = true) by (destruct cid; [contradiction | reflexivity]).
  split.
  { intros [[u'|] th fd'] ans; [|reflexivity]. destruct ans; reflexivity. }
  split.
  { intros id confirmed ans. destruct confirmed, ans; reflexivity. }
  split.
  { intros st ans. rewrite tab_upload_trace.
    destruct (UploadLeadsTab.csvFile st) as [f|]; [|reflexivity].
    destruct (UploadLeadsTab.user st) as [u'|]; [|reflexivity].
    destruct (truthy (UploadLeadsTab.campaignId st)); [|reflexivity].
    destruct (File.text f) as [e|csvText]; [reflexivity|].
    cbv zeta.
    destruct ((Csv.processCSVWithMapping _ csvText).1); [reflexivity|].
    destruct ans; reflexivity. }
  split.
  { intros leadId confirmed ans.
    unfold UploadLeadsTab.deleteLead, UploadLeadsTab.fetchExistingLeads.
    subst tab. cbn [UploadLeadsTab.user UploadLeadsTab.campaignId].
    rewrite Htruthy. destruct confirmed, ans; reflexivity. }
  split.
  { intros st ans.
    unfold EditCampaign.handleSubmit, EditCampaign.handlePublish.
    destruct (EditCampaign.id st) as [i|], (EditCampaign.user st) as [u'|];
      try (split; reflexivity).
    destruct (truthy i); [|split; reflexivity].
    destruct ans; split; reflexivity. }
  unfold EditCampaign.handleSubmit, EditCampaign.handlePublish.
  subst edit. cbn [EditCampaign.id EditCampaign.user EditCampaign.formData].
  rewrite Htruthy. split; reflexivity.
Qed.

Lemma C7_refetch_witness :
  refetches (trace (UploadLeadsTab.deleteLead (Sample.tab Sample.csvText)
                      (lit "lead-7") true DbOk)) = true.
Proof.
  assert (Hcid : lit "campaign-1" <> []) by (vm_compute; discriminate).
  exact (proj1 (proj2 (proj2 (proj2
           (C7_refetch_after_mutation Sample.user (lit "campaign-1") (lit "gold")
              Sample.form (Some (File.mk (inr Sample.csvText))) None
              Sample.mapping Hcid))))
           (lit "lead-7") true DbOk).
Defined.

(** ** Saving a sequence *)

Lemma saveSequence_trace (st : SequenceBuilder.state) (del ins : db_response) :
  trace (SequenceBuilder.saveSequence st del ins)
  = match SequenceBuilder.user st with
    | None => []
    | Some _ =>
        [SetSaving true;
         DeleteFrom campaign_sequences
           [(lit "campaign_id", SequenceBuilder.campaignId st)] del;
         InsertSteps
           (SequenceBuilder.stepToInsert (SequenceBuilder.campaignId st)
              <$> SequenceBuilder.steps st) ins]
        ++ match ins with
           | DbOk => if SequenceBuilder.onSave st then [OnSave] else []
           | DbError _ => [ConsoleError]
           end
        ++ [SetSaving false]
    end.
Proof.
  unfold SequenceBuilder.saveSequence.
  destruct (SequenceBuilder.user st); [|reflexivity].
  destruct ins; simpl; [|reflexivity].
  destruct (SequenceBuilder.onSave st); reflexivity.
Qed.

Lemma storedSequence_app campaign xs ys :
  SequenceBuilder.storedSequence campaign (xs ++ ys)
  = SequenceBuilder.storedSequence campaign xs
    ++ SequenceBuilder.storedSequence campaign ys.
Proof. unfold SequenceBuilder.storedSequence. apply List.filter_app. Qed.

Lemma storedSequence_inserted campaign steps :
  SequenceBuilder.storedSequence campaign
    (SequenceBuilder.stepToInsert campaign <$> steps)
  = SequenceBuilder.stepToInsert campaign <$> steps.
Proof.
  unfold SequenceBuilder.storedSequence.
  induction steps as [|step steps IH]; simpl; [reflexivity|].
  unfold str_eqb at 1. rewrite bool_decide_eq_true_2 by reflexivity.
  f_equal. exact IH.
Qed.

Lemma storedSequence_deleted campaign stored :
  SequenceBuilder.storedSequence campaign
    (List.filter
       (fun row => negb (SequenceBuilder.rowMatches [(lit "campaign_id", campaign)] row))
       stored)
  = [].
Proof.
  unfold SequenceBuilder.storedSequence.
  induction stored as [|row stored IH]; simpl; [reflexivity|].
  rewrite andb_true_r.
  replace (str_eqb (lit "campaign_id") (lit "campaign_id")) with true by reflexivity.
  simpl. destruct (str_eqb (SeqRow.campaign_id row) campaign) eqn:Hrow; simpl.
  - exact IH.
  - rewrite Hrow. exact IH.
Qed.

(** When the backend carries out both requests, the stored sequence of the
    campaign is exactly the current steps. *)
Lemma saveSequence_replaces (st : SequenceBuilder.state) (stored : list SeqRow.t) :
  SequenceBuilder.user st <> None ->
  SequenceBuilder.storedSequence (SequenceBuilder.campaignId st)
    (SequenceBuilder.applyTrace stored
       (trace (SequenceBuilder.saveSequence st DbOk DbOk)))
  = SequenceBuilder.stepToInsert (SequenceBuilder.campaignId st)
      <$> SequenceBuilder.steps st.
Proof.
  intros Huser. rewrite saveSequence_trace.
  destruct (SequenceBuilder.user st); [|contradiction].
  unfold SequenceBuilder.applyTrace.
  destruct (SequenceBuilder.onSave st); simpl;
    rewrite storedSequence_app, storedSequence_deleted, storedSequence_inserted;
    reflexivity.
Qed.

(** When the delete is carried out and the insert fails, the campaign is left
    without steps and nothing restores the former ones. *)
Lemma saveSequence_insert_fails (st : SequenceBuilder.state)
    (stored : list SeqRow.t) (m : jstr) :
  SequenceBuilder.user st <> None ->
  SequenceBuilder.storedSequence (SequenceBuilder.campaignId st)
    (SequenceBuilder.applyTrace stored
       (trace (SequenceBuilder.saveSequence st DbOk (DbError m))))
  = [].
Proof.
  intros Huser. rewrite saveSequence_trace.
  destruct (SequenceBuilder.user st); [|contradiction].
  unfold SequenceBuilder.applyTrace. simpl. apply storedSequence_deleted.
Qed.

(** When the delete fails, its error is dropped: the insert goes ahead, and
    if it succeeds the save counts as done while the former rows are still
    there, followed by the new ones. *)
Lemma saveSequence_delete_fails (st : SequenceBuilder.state)
    (stored : list SeqRow.t) (m : jstr) :
  SequenceBuilder.user st <> None ->
  let t := trace (SequenceBuilder.saveSequence st (DbError m) DbOk) in
  (ConsoleError ∉ t)
  /\ (SequenceBuilder.onSave st = true -> OnSave ∈ t)
  /\ SequenceBuilder.storedSequence (SequenceBuilder.campaignId st)
       (SequenceBuilder.applyTrace stored t)
     = SequenceBuilder.storedSequence (SequenceBuilder.campaignId st) stored
       ++ (SequenceBuilder.stepToInsert (SequenceBuilder.campaignId st)
             <$> SequenceBuilder.steps st).
Proof.
  intros Huser t. subst t. rewrite saveSequence_trace.
  destruct (SequenceBuilder.user st); [|contradiction].
  unfold SequenceBuilder.applyTrace.
  split; [|split].
  - destruct (SequenceBuilder.onSave st); intros Hin; split_trace Hin.
  - intros ->. simpl. rewrite !elem_of_cons. auto.
  - destruct (SequenceBuilder.onSave st); simpl;
      rewrite storedSequence_app, storedSequence_inserted; reflexivity.
Qed.

(** C9 at a failing input.  A campaign has one stored step; the builder
    holds its initial single step; the backend answers the delete with an
    error and the insert without one.  The save is signalled as done
    ([onSave] is called, nothing is logged), yet the stored sequence is the
    former step followed by the new one, not the current steps alone. *)
Theorem C9_delete_error_is_dropped :
  let current :=
    SequenceBuilder.stepToInsert (lit "campaign-1")
      <$> SequenceBuilder.steps Sample.builder in
  let t := trace (SequenceBuilder.saveSequence Sample.builder
                    (DbError (lit "Failed to fetch")) DbOk) in
  let after :=
    SequenceBuilder.storedSequence (lit "campaign-1")
      (SequenceBuilder.applyTrace Sample.storedBefore t) in
  (OnSave ∈ t)
  /\ (ConsoleError ∉ t)
  /\ after = Sample.storedBefore ++ current
  /\ after <> current.
Proof.
  intros current t after.
  destruct (saveSequence_delete_fails Sample.builder Sample.storedBefore
              (lit "Failed to fetch")) as (Hlog & Hsave & Hafter);
    [discriminate|].
  split; [apply Hsave; reflexivity|].
  split; [exact Hlog|].
  split; [exact Hafter|].
  vm_compute. intros Heq. discriminate Heq.
Qed.

(** ** Worked examples *)

Example trim_strips_carriage_return :
  trim (lit " x y " ++ [0x0D%N]) = lit "x y".
Proof. reflexivity. Qed.

Example split_keeps_empty_pieces :
  split comma (lit "a,,b") = [lit "a"; []; lit "b"].
Proof. reflexivity. Qed.

Example indexOf_first_of_two :
  indexOf [lit "a"; lit "b"; lit "b"] (lit "b") = 1
  /\ indexOf [lit "a"; lit "b"] (lit "c") = -1.
Proof. split; reflexivity. Qed.

Example preview_of_sample :
  Csv.parseCSVForPreview Sample.csvText
  = {| Csv.headers := [lit "Full Name"; lit "Mail"; lit "Phone"];
       Csv.rows := [[lit "Ann"; lit "ann@x.org"; lit "1"]; [[]; []; lit "5"]];
       Csv.totalRows := 2 |}.
Proof. reflexivity. Qed.

Example sample_is_sorted :
  length (Csv.processCSVWithMapping Sample.mapping Sample.csvText).1 = 1%nat
  /\ (Csv.processCSVWithMapping Sample.mapping Sample.csvText).2
     = [lit "Row 3: Missing required data (name, phone, or email)"].
Proof. vm_compute. split; reflexivity. Qed.

(** Blank lines are dropped before the rows are numbered. *)
Example row_numbers_skip_blank_lines :
  (Csv.processCSVWithMapping Sample.mapping
     (lit "Full Name,Mail" ++ [newline; newline] ++ lit "  " ++ [newline]
      ++ lit "," ++ [newline])).2
  = [lit "Row 2: Missing required data (name, phone, or email)"].
Proof. vm_compute. reflexivity. Qed.

Example sample_rows_inserted :
  List.filter is_insert_leads
    (trace (UploadLeadsTab.handleFileUpload (Sample.tab Sample.csvText) DbOk))
  = [InsertLeads
       [LeadRow.mk (lit "user-1") (lit "campaign-1") (lit "Ann") []
          (lit "ann@x.org") [] [] [] [] (lit "pending")]
       DbOk].
Proof. vm_compute. reflexivity. Qed.

Example sample_without_leads :
  reported (trace (UploadLeadsTab.handleFileUpload
                     (Sample.tab Sample.csvNoLeads) DbOk))
  = [UploadLeadsTab.noValidLeads
       [lit "Row 2: Missing required data (name, phone, or email)"]]
  /\ List.filter is_insert_leads
       (trace (UploadLeadsTab.handleFileUpload (Sample.tab Sample.csvNoLeads) DbOk))
     = [].
Proof. vm_compute. split; reflexivity. Qed.

Example sample_auto_mapping :
  let m := Csv.autoMapping asciiLower [lit "Full Name"; lit "Mobile No"; lit "E-Mail"] in
  m !! lit "name" = Some (lit "Full Name")
  /\ m !! lit "phone" = Some (lit "Mobile No")
  /\ m !! lit "email" = Some (lit "E-Mail")
  /\ m !! lit "company_name" = None.
Proof. vm_compute. repeat split. Qed.

(** A column set back to [none] yields no value. *)
Example none_unmaps_a_field :
  mappedValue
    (Csv.handleColumnMappingChange Sample.mapping (lit "name") (lit "none"))
    [lit "Full Name"; lit "Mail"] [lit "Ann"; lit "ann@x.org"] (lit "name")
  = None.
Proof. vm_compute. reflexivity. Qed.

Example webhook_down_still_success :
  reported (trace (EditCampaign.handleFileUpload (Sample.edit Sample.csvText)
                     DbOk (Responded 503)))
  = [EditCampaign.uploadSucceeded 1 false
       (Some (lit "Webhook failed with status: 503"))].
Proof. vm_compute. reflexivity. Qed.

(** * Further properties of the code *)

(** ** Reading back what was written *)

Lemma split_single sep p : sep ∉ p -> split sep p = [p].
Proof.
  induction p as [|c p IH]; intros Hsep; simpl; [reflexivity|].
  apply not_elem_of_cons in Hsep as [Hne Hsep].
  destruct (N.eqb_spec c sep) as [Heq|_]; [congruence|].
  rewrite (IH Hsep). reflexivity.
Qed.

Lemma split_app_sep sep p rest :
  sep ∉ p -> split sep (p ++ sep :: rest) = p :: split sep rest.
Proof.
  induction p as [|c p IH]; intros Hsep; simpl.
  - rewrite N.eqb_refl. reflexivity.
  - apply not_elem_of_cons in Hsep as [Hne Hsep].
    destruct (N.eqb_spec c sep) as [Heq|_]; [congruence|].
    rewrite (IH Hsep). reflexivity.
Qed.

Lemma split_join sep pieces :
  pieces <> [] -> Forall (fun piece => sep ∉ piece) pieces ->
  split sep (join sep pieces) = pieces.
Proof.
  induction pieces as [|p pieces IH]; intros Hne Hall; [contradiction|].
  inversion Hall as [|? ? Hp Hrest]; subst.
  destruct pieces as [|q pieces].
  - simpl. apply split_single. exact Hp.
  - change (join sep (p :: q :: pieces)) with (p ++ sep :: join sep (q :: pieces)).
    rewrite (split_app_sep sep p _ Hp), IH; [reflexivity | discriminate | exact Hrest].
Qed.

Lemma stripQuotes_id cell : dquote ∉ cell -> stripQuotes cell = cell.
Proof.
  unfold stripQuotes. induction cell as [|c cell IH]; intros Hq; simpl; [reflexivity|].
  apply not_elem_of_cons in Hq as [Hne Hq].
  destruct (N.eqb_spec c dquote) as [Heq|_]; [congruence|].
  simpl. rewrite (IH Hq). reflexivity.
Qed.

Lemma parseCells_join_clean (cells : list jstr) :
  cells <> [] -> Forall cleanCell cells ->
  Csv.parseCells (join comma cells) = cells.
Proof.
  intros Hne Hclean. unfold Csv.parseCells.
  rewrite split_join; [| exact Hne |].
  - clear Hne. induction Hclean as [|cell cells (Htrim & _ & Hq & _) _ IH]; simpl;
      [reflexivity|].
    rewrite Htrim, (stripQuotes_id cell Hq), IH. reflexivity.
  - eapply Forall_impl; [exact Hclean|]. intros cell (_ & Hc & _). exact Hc.
Qed.

(** X1.  Cells that need no trimming and hold no comma and no double quote
    are read back from their comma-joined line exactly as they were
    written. *)
Theorem X1_cells_read_back (cells : list jstr)
    (Hne : cells <> []) (Hclean : Forall cleanCell cells) :
  Csv.parseCells (join comma cells) = cells.
Proof. exact (parseCells_join_clean cells Hne Hclean). Qed.

Lemma cleanCell_sample :
  Forall cleanCell [lit "Ann"; lit "ann@x.org"; []; lit "+31 6 12"].
Proof.
  repeat constructor; try reflexivity;
    intros Hin; apply list_elem_of_In in Hin; vm_compute in Hin;
    repeat (destruct Hin as [Hin|Hin]; [discriminate Hin|]); exact Hin.
Qed.

Lemma X1_cells_read_back_witness :
  Csv.parseCells (join comma [lit "Ann"; lit "ann@x.org"; []; lit "+31 6 12"])
  = [lit "Ann"; lit "ann@x.org"; []; lit "+31 6 12"].
Proof.
  apply X1_cells_read_back; [discriminate | exact cleanCell_sample].
Defined.

(** ** Lines *)

Lemma split_app sep a b :
  split sep (a ++ sep :: b) = split sep a ++ split sep b.
Proof.
  induction a as [|c a IH]; simpl.
  - rewrite N.eqb_refl. reflexivity.
  - rewrite IH. destruct (c =? sep)%N; [reflexivity|].
    pose proof (split_nonempty sep a) as Ha.
    destruct (split sep a) as [|p ps]; [contradiction | reflexivity].
Qed.

Lemma csvLines_app a b :
  Csv.csvLines (a ++ newline :: b) = Csv.csvLines a ++ Csv.csvLines b.
Proof. unfold Csv.csvLines. rewrite split_app. apply List.filter_app. Qed.


Lemma all_space_trim_nil s : forallb isWhiteSpace s = true -> trim s = [].
Proof.
  intros Hall. unfold trim, trimEnd.
  assert (Hstart : trimStart s = []).
  { induction s as [|c s IH]; simpl in *; [reflexivity|].
    apply andb_true_iff in Hall as [Hc Hall]. rewrite Hc. apply IH. exact Hall. }
  rewrite Hstart. reflexivity.
Qed.

Lemma blank_text_no_lines blanks :
  forallb isWhiteSpace blanks = true -> Csv.csvLines blanks = [].
Proof.
  intros Hblank. unfold Csv.csvLines.
  assert (Hall : forall line, In line (split newline blanks) ->
                              truthy (trim line) = false).
  { intros line Hin.
    rewrite all_space_trim_nil; [reflexivity|].
    rewrite forallb_forall in *. intros c Hc. apply Hblank.
    rewrite <- (join_split newline blanks).
    clear Hblank. revert Hin. generalize (split newline blanks).
    intros pieces. induction pieces as [|p pieces IH]; intros Hin; [destruct Hin|].
    destruct pieces as [|q pieces].
    - destruct Hin as [->|[]]. exact Hc.
    - change (In c (p ++ newline :: join newline (q :: pieces))).
      apply in_or_app. destruct Hin as [->|Hin]; [left; exact Hc|].
      right. right. apply IH. exact Hin. }
  induction (split newline blanks) as [|line ls IH]; simpl; [reflexivity|].
  rewrite (Hall line (or_introl eq_refl)). apply IH.
  intros l Hl. apply Hall. right. exact Hl.
Qed.

(** X2.  The non-blank lines of two texts put one after the other, with a
    newline between them, are those of the first followed by those of the
    second; so a newline at the end of the file, and any run of lines made of
    white space only, change nothing. *)
Theorem X2_lines_compose (a b blanks : jstr)
    (Hblank : forallb isWhiteSpace blanks = true) :
  Csv.csvLines (a ++ newline :: b) = Csv.csvLines a ++ Csv.csvLines b
  /\ Csv.csvLines (a ++ [newline]) = Csv.csvLines a
  /\ Csv.csvLines (a ++ newline :: blanks ++ newline :: b)
     = Csv.csvLines a ++ Csv.csvLines b.
Proof.
  split; [apply csvLines_app|]. split.
  - rewrite csvLines_app. change (Csv.csvLines []) with (@nil jstr).
    apply app_nil_r.
  - rewrite !csvLines_app, (blank_text_no_lines blanks Hblank). reflexivity.
Qed.

Lemma X2_lines_compose_witness :
  Csv.csvLines (lit "Name,Mail" ++ newline :: (lit "  " ++ [newline; 9%N])
                ++ newline :: lit "Ann,a@x.org")
  = Csv.csvLines (lit "Name,Mail") ++ Csv.csvLines (lit "Ann,a@x.org").
Proof.
  assert (Hblank : forallb isWhiteSpace (lit "  " ++ [newline; 9%N]) = true)
    by reflexivity.
  exact (proj2 (proj2 (X2_lines_compose (lit "Name,Mail") (lit "Ann,a@x.org")
                         (lit "  " ++ [newline; 9%N]) Hblank))).
Defined.

(** ** Reading back a whole table *)







(** ** Line ends *)

Lemma trimStart_snoc_space p w :
  isWhiteSpace w = true ->
  trimStart (p ++ [w])
  = match trimStart p with [] => [] | _ :: _ => trimStart p ++ [w] end.
Proof.
  intros Hw. induction p as [|c p IH]; simpl.
  - rewrite Hw. reflexivity.
  - destruct (isWhiteSpace c); [exact IH | reflexivity].
Qed.

Lemma trim_snoc_space p w : isWhiteSpace w = true -> trim (p ++ [w]) = trim p.
Proof.
  intros Hw. unfold trim, trimEnd. rewrite (trimStart_snoc_space p w Hw).
  destruct (trimStart p) as [|c rest]; [reflexivity|].
  rewrite rev_app_distr. simpl rev at 1. simpl app. cbn [trimStart].
  rewrite Hw. reflexivity.
Qed.

Lemma split_snoc sep s w :
  w <> sep ->
  exists front final,
    split sep s = front ++ [final]
    /\ split sep (s ++ [w]) = front ++ [final ++ [w]].
Proof.
  intros Hw. induction s as [|c s (front & final & Hs & Hsw)]; simpl.
  - exists [], []. split; [reflexivity|].
    destruct (N.eqb_spec w sep); [contradiction | reflexivity].
  - rewrite Hs, Hsw. destruct (c =? sep)%N.
    + exists ([] :: front), final. split; reflexivity.
    + destruct front as [|f front].
      * exists [], (c :: final). split; reflexivity.
      * exists ((c :: f) :: front), final. split; reflexivity.
Qed.

Lemma parseCells_snoc_space line w :
  isWhiteSpace w = true -> Csv.parseCells (line ++ [w]) = Csv.parseCells line.
Proof.
  intros Hw.
  assert (Hne : w <> comma) by (intros ->; discriminate Hw).
  destruct (split_snoc comma line w Hne) as (front & final & Hs & Hsw).
  unfold Csv.parseCells. rewrite Hs, Hsw, !map_app. simpl.
  rewrite (trim_snoc_space final w Hw). reflexivity.
Qed.

(** Line by line, the text with Windows line ends has the lines of the
    original, some of them followed by a carriage return. *)
Lemma split_toCrlf text :
  Forall2 (fun l' l => l' = l \/ l' = l ++ [0x0D%N])
    (split newline (toCrlf text)) (split newline text).
Proof.
  induction text as [|c text IH]; simpl.
  - constructor; [left; reflexivity | constructor].
  - destruct (N.eqb_spec c newline) as [->|Hne]; simpl.
    + constructor; [right; reflexivity | exact IH].
    + destruct (N.eqb_spec c newline) as [Heq|_]; [contradiction|].
      pose proof (split_nonempty newline text) as Hn.
      destruct (split newline text) as [|p ps]; [contradiction|].
      inversion IH as [|p' ? ps' ? Hp Hps Heq1]; subst.
      constructor; [|exact Hps].
      destruct Hp as [Hp|Hp]; rewrite Hp; [left | right]; reflexivity.
Qed.

Lemma csvLines_toCrlf text :
  Csv.parseCells <$> Csv.csvLines (toCrlf text)
  = Csv.parseCells <$> Csv.csvLines text.
Proof.
  unfold Csv.csvLines.
  induction (split_toCrlf text) as [|l' l ls' ls Hl _ IH]; simpl; [reflexivity|].
  assert (Hcr : isWhiteSpace 0x0D%N = true) by reflexivity.
  assert (Htrim : trim l' = trim l)
    by (destruct Hl as [Hl|Hl]; rewrite Hl;
        [reflexivity | apply trim_snoc_space, Hcr]).
  assert (Hcells : Csv.parseCells l' = Csv.parseCells l)
    by (destruct Hl as [Hl|Hl]; rewrite Hl;
        [reflexivity | apply parseCells_snoc_space, Hcr]).
  rewrite Htrim. destruct (truthy (trim l)); simpl; [|exact IH].
  rewrite Hcells. f_equal. exact IH.
Qed.

Lemma processRows_cells mapping headers rest : forall rest' i leads errors,
  Csv.parseCells <$> rest = Csv.parseCells <$> rest' ->
  Csv.processRows mapping headers i rest leads errors
  = Csv.processRows mapping headers i rest' leads errors.
Proof.
  induction rest as [|line rest IH]; intros [|line' rest'] i leads errors Heq;
    try discriminate Heq; [reflexivity|].
  simpl in Heq. injection Heq as Hline Hrest. simpl. rewrite Hline.
  destruct (Csv.hasContact _); apply IH; exact Hrest.
Qed.

(** The preview and the validation see a text only through the cells of its
    non-blank lines. *)
Lemma same_cells_same_result text1 text2 :
  Csv.parseCells <$> Csv.csvLines text1 = Csv.parseCells <$> Csv.csvLines text2 ->
  Csv.parseCSVForPreview text1 = Csv.parseCSVForPreview text2
  /\ forall mapping,
       Csv.processCSVWithMapping mapping text1
       = Csv.processCSVWithMapping mapping text2.
Proof.
  intros Heq. unfold Csv.parseCSVForPreview, Csv.processCSVWithMapping. cbv zeta.
  assert (Hlen : length (Csv.csvLines text1) = length (Csv.csvLines text2))
    by (rewrite <- (length_fmap Csv.parseCells), Heq, length_fmap; reflexivity).
  rewrite Hlen.
  destruct (Csv.csvLines text1) as [|l1 ls1], (Csv.csvLines text2) as [|l2 ls2];
    try discriminate Heq; [split; reflexivity|].
  simpl in Heq. injection Heq as Hhead Htail. split.
  - rewrite Hhead. unfold slice. cbn [drop Nat.sub]. rewrite !drop_0.
    f_equal.
    change (Csv.parseCells <$> take 5 ls1 = Csv.parseCells <$> take 5 ls2).
    rewrite !fmap_take. f_equal. exact Htail.
  - intros mapping. destruct (length (l2 :: ls2) <? 2)%nat; [reflexivity|].
    cbn [nth drop]. rewrite !drop_0, Hhead.
    apply processRows_cells. exact Htail.
Qed.

(** X4.  A file with Windows line ends gives the same preview and, under
    every mapping, the same leads and errors as the file with plain
    newlines: the carriage return at the end of a line is trimmed away with
    the last cell. *)
Theorem X4_windows_line_ends (text : jstr) :
  Csv.parseCSVForPreview (toCrlf text) = Csv.parseCSVForPreview text
  /\ (forall mapping,
        Csv.processCSVWithMapping mapping (toCrlf text)
        = Csv.processCSVWithMapping mapping text)
  /\ (forall line, Csv.parseCells (line ++ [0x0D%N]) = Csv.parseCells line).
Proof.
  destruct (same_cells_same_result (toCrlf text) text (csvLines_toCrlf text))
    as [Hpreview Hprocess].
  split; [exact Hpreview|]. split; [exact Hprocess|].
  intros line. apply parseCells_snoc_space. reflexivity.
Qed.

(** ** Rows and mappings at their edges *)

Lemma firstIndex_bound headers csvColumn i :
  firstIndex headers csvColumn = Some i ->
  headers !! i = Some csvColumn /\ (i < length headers)%nat.
Proof.
  unfold firstIndex. intros Hfind.
  destruct (list_find (fun y => y = csvColumn) headers) as [[j y]|] eqn:Hlf;
    [|discriminate Hfind].
  simpl in Hfind. injection Hfind as ->.
  apply list_find_Some in Hlf as (Hlook & -> & _).
  split; [exact Hlook | eapply lookup_lt_Some; exact Hlook].
Qed.

Lemma cellUnder_take headers values csvColumn :
  cellUnder headers (take (length headers) values) csvColumn
  = cellUnder headers values csvColumn.
Proof.
  unfold cellUnder. destruct (decide (csvColumn = [])); [reflexivity|].
  destruct (firstIndex headers csvColumn) as [i|] eqn:Hi; simpl; [|reflexivity].
  apply firstIndex_bound in Hi as [_ Hlt].
  rewrite lookup_take_lt by exact Hlt. reflexivity.
Qed.

(** X5.  Only the cells that stand under a header count: cutting a row to the
    number of headers does not change the lead built from it, for any
    mapping. *)
Theorem X5_cells_beyond_headers_ignored
    (mapping : gmap jstr jstr) (headers values : list jstr) :
  Csv.buildLead mapping headers (take (length headers) values)
  = Csv.buildLead mapping headers values
  /\ Csv.hasContact (Csv.buildLead mapping headers (take (length headers) values))
     = Csv.hasContact (Csv.buildLead mapping headers values).
Proof.
  assert (Heq : Csv.buildLead mapping headers (take (length headers) values)
                = Csv.buildLead mapping headers values).
  { apply map_eq. intros field. rewrite !buildLead_lookup. unfold mappedValue.
    destruct (mapping !! field) as [csvColumn|]; simpl; [|reflexivity].
    apply cellUnder_take. }
  split; [exact Heq | rewrite Heq; reflexivity].
Qed.

Lemma filter_none {A} (P : A -> Prop) `{!forall x, Decision (P x)} (l : list A) :
  (forall x, ~ P x) -> filter P l = [].
Proof.
  intros Hnone. induction l as [|x l IH]; [reflexivity|].
  rewrite filter_cons, decide_False by apply Hnone. exact IH.
Qed.

Lemma unmapped_contacts_no_leads (mapping : gmap jstr jstr) :
  (forall field, field ∈ contactFields ->
                 mapping !! field = None \/ mapping !! field = Some []) ->
  forall csvText,
    (Csv.processCSVWithMapping mapping csvText).1 = []
    /\ length (Csv.processCSVWithMapping mapping csvText).2
       = length (dataRows csvText).
Proof.
  intros Hnone csvText.
  assert (Hinvalid : forall headers values, ~ rowValid mapping headers values).
  { intros headers values Hvalid. unfold rowValid in Hvalid.
    apply Exists_exists in Hvalid as (field & Hin & Hsome).
    unfold mappedValue in Hsome.
    destruct (Hnone field Hin) as [Hm|Hm]; rewrite Hm in Hsome; simpl in Hsome;
      destruct Hsome as [v Hv]; discriminate Hv. }
  assert (Hleads : (Csv.processCSVWithMapping mapping csvText).1 = []).
  { pose proof (processCSV_spec mapping csvText) as Hspec. cbv zeta in Hspec.
    rewrite Hspec. cbn [fst].
    rewrite filter_none; [reflexivity|]. intros row. apply Hinvalid. }
  split; [exact Hleads|].
  pose proof (processCSV_length mapping csvText) as Hlen. cbv zeta in Hlen.
  rewrite Hleads in Hlen. simpl in Hlen. rewrite Hlen.
  unfold dataRows. rewrite length_imap, length_drop. reflexivity.
Qed.

(** X6.  When none of name, phone and email is mapped to a column (the field
    is absent from the mapping or set to the empty choice), no row of any
    file becomes a lead: every data row gives an error message, and the
    upload of the leads tab reports that no valid leads were found, without
    an insert. *)
Theorem X6_no_contact_column_no_leads
    (mapping : gmap jstr jstr) (csvText : jstr) (u : User.t) (cid : jstr)
    (ans : db_response)
    (Hcid : cid <> [])
    (Hnone : forall field, field ∈ contactFields ->
               mapping !! field = None \/ mapping !! field = Some []) :
  let r := Csv.processCSVWithMapping mapping csvText in
  let tab := {| UploadLeadsTab.campaignId := cid; UploadLeadsTab.user := Some u;
                UploadLeadsTab.csvFile := Some (File.mk (inr csvText));
                UploadLeadsTab.columnMapping := mapping |} in
  r.1 = []
  /\ length r.2 = length (dataRows csvText)
  /\ trace (UploadLeadsTab.handleFileUpload tab ans)
     = [SetUploadLoading true; SetUploadResult None;
        SetUploadResult (Some (UploadLeadsTab.noValidLeads r.2));
        SetUploadLoading false].
Proof.
  intros r tab.
  destruct (unmapped_contacts_no_leads mapping Hnone csvText) as [Hleads Herrors].
  split; [exact Hleads|]. split; [exact Herrors|].
  rewrite tab_upload_trace. subst tab.
  cbn [UploadLeadsTab.csvFile UploadLeadsTab.user UploadLeadsTab.campaignId
       UploadLeadsTab.columnMapping File.text].
  replace (truthy cid) with true by (destruct cid; [contradiction | reflexivity]).
  cbv zeta. rewrite Hleads. reflexivity.
Qed.

Lemma X6_no_contact_column_witness :
  (Csv.processCSVWithMapping (<[lit "company_name" := lit "Phone"]> ∅)
     Sample.csvText).1 = [].
Proof.
  assert (Hcid : lit "campaign-1" <> []) by (vm_compute; discriminate).
  assert (Hnone : forall field, field ∈ contactFields ->
            (<[lit "company_name" := lit "Phone"]> ∅ : gmap jstr jstr) !! field = None
            \/ (<[lit "company_name" := lit "Phone"]> ∅ : gmap jstr jstr) !! field
               = Some []).
  { intros field Hin. left. unfold contactFields in Hin.
    repeat (apply elem_of_cons in Hin as [->|Hin]; [vm_compute; reflexivity|]).
    apply elem_of_nil in Hin. contradiction. }
  exact (proj1 (X6_no_contact_column_no_leads _ Sample.csvText Sample.user
                  (lit "campaign-1") DbOk Hcid Hnone)).
Defined.

Lemma mappedCount_zero (mapping : gmap jstr jstr) :
  UploadLeadsTab.mappedCount mapping = 0%nat ->
  forall field csvColumn, mapping !! field = Some csvColumn -> csvColumn = [].
Proof.
  unfold UploadLeadsTab.mappedCount. intros Hzero field csvColumn Hlook.
  apply length_zero_iff_nil in Hzero.
  assert (Hin : In csvColumn (snd <$> map_to_list mapping)).
  { apply list_elem_of_In, list_elem_of_fmap. exists (field, csvColumn).
    split; [reflexivity|]. apply elem_of_map_to_list. exact Hlook. }
  destruct csvColumn as [|c rest]; [reflexivity|].
  assert (Hkeep : In (c :: rest) (List.filter truthy (snd <$> map_to_list mapping)))
    by (apply filter_In; split; [exact Hin | reflexivity]).
  rewrite Hzero in Hkeep. destruct Hkeep.
Qed.

(** X7.  The upload button is disabled while an upload runs or while the
    count of mapped fields is zero; in the second case nothing is lost,
    because with such a mapping no row of any file would become a lead. *)
Theorem X7_disabled_button_loses_nothing
    (mapping : gmap jstr jstr) (csvText : jstr)
    (Hdisabled : UploadLeadsTab.uploadDisabled false mapping = true) :
  UploadLeadsTab.mappedCount mapping = 0%nat
  /\ (Csv.processCSVWithMapping mapping csvText).1 = []
  /\ UploadLeadsTab.uploadDisabled true mapping = true.
Proof.
  unfold UploadLeadsTab.uploadDisabled in Hdisabled. simpl in Hdisabled.
  apply Nat.eqb_eq in Hdisabled.
  split; [exact Hdisabled|]. split; [|reflexivity].
  apply unmapped_contacts_no_leads. intros field _.
  destruct (mapping !! field) as [csvColumn|] eqn:Hlook; [right | left; reflexivity].
  rewrite (mappedCount_zero mapping Hdisabled field csvColumn Hlook). reflexivity.
Qed.

Lemma X7_disabled_button_witness :
  (Csv.processCSVWithMapping
     (Csv.handleColumnMappingChange ∅ (lit "name") (lit "none"))
     Sample.csvText).1 = [].
Proof.
  assert (Hdisabled :
    UploadLeadsTab.uploadDisabled false
      (Csv.handleColumnMappingChange ∅ (lit "name") (lit "none")) = true)
    by (vm_compute; reflexivity).
  exact (proj1 (proj2 (X7_disabled_button_loses_nothing _ Sample.csvText Hdisabled))).
Defined.

Lemma cellUnder_empty_choice headers values : cellUnder headers values [] = None.
Proof. reflexivity. Qed.






(** ** What the handlers always, and never, do *)

(** X10.  A handler that switches a busy flag on switches it off again as
    its last effect, whatever the file, the backend and the webhook answer:
    both uploads, the update and the publish of a campaign, and the save of
    a sequence. *)
Theorem X10_busy_flag_is_cleared :
  (forall (st : UploadLeadsTab.state) ans,
     let t := trace (UploadLeadsTab.handleFileUpload st ans) in
     t = [] \/ (head t = Some (SetUploadLoading true)
                /\ last t = Some (SetUploadLoading false)))
  /\ (forall (st : EditCampaign.state) ans hook,
        let t := trace (EditCampaign.handleFileUpload st ans hook) in
        t = [] \/ (head t = Some (SetUploadLoading true)
                   /\ last t = Some (SetUploadLoading false)))
  /\ (forall (st : EditCampaign.state) ans,
        let t := trace (EditCampaign.handleSubmit st ans) in
        t = [PreventDefault]
        \/ (t !! 1%nat = Some (SetSaving true) /\ last t = Some (SetSaving false)))
  /\ (forall (st : EditCampaign.state) ans,
        let t := trace (EditCampaign.handlePublish st ans) in
        t = [] \/ (head t = Some (SetPublishing true)
                   /\ last t = Some (SetPublishing false)))
  /\ (forall (st : SequenceBuilder.state) del ins,
        let t := trace (SequenceBuilder.saveSequence st del ins) in
        t = [] \/ (head t = Some (SetSaving true)
                   /\ last t = Some (SetSaving false))).
Proof.
  split; [|split; [|split; [|split]]].
  - intros st ans t. subst t. rewrite tab_upload_trace.
    destruct (UploadLeadsTab.csvFile st) as [file|]; [|left; reflexivity].
    destruct (UploadLeadsTab.user st) as [u|]; [|left; reflexivity].
    destruct (truthy (UploadLeadsTab.campaignId st)); [|left; reflexivity].
    right. destruct (File.text file) as [e|csvText]; [split; reflexivity|].
    cbv zeta. destruct ((Csv.processCSVWithMapping _ csvText).1);
      [split; reflexivity|].
    destruct ans; split; reflexivity.
  - intros st ans hook t. subst t. rewrite edit_upload_trace.
    destruct (EditCampaign.csvFile st) as [file|]; [|left; reflexivity].
    destruct (EditCampaign.user st) as [u|]; [|left; reflexivity].
    destruct (EditCampaign.campaign st) as [c|]; [|left; reflexivity].
    right. destruct (File.text file) as [e|csvText]; [split; reflexivity|].
    cbv zeta. destruct ((Csv.processCSVWithMapping _ csvText).1);
      [split; reflexivity|].
    destruct ans; split; reflexivity.
  - intros st ans t. subst t. unfold EditCampaign.handleSubmit.
    destruct (EditCampaign.id st) as [i|], (EditCampaign.user st) as [u|];
      try (left; reflexivity).
    destruct (truthy i); [|left; reflexivity].
    right. destruct ans; split; reflexivity.
  - intros st ans t. subst t. unfold EditCampaign.handlePublish.
    destruct (EditCampaign.id st) as [i|], (EditCampaign.user st) as [u|];
      try (left; reflexivity).
    destruct (truthy i); [|left; reflexivity].
    right. destruct ans; split; reflexivity.
  - intros st del ins t. subst t. rewrite saveSequence_trace.
    destruct (SequenceBuilder.user st); [|left; reflexivity].
    right. destruct ins; [destruct (SequenceBuilder.onSave st)|]; split; reflexivity.
Qed.

(** X11.  When the backend refuses the insert of the leads, the failure is
    the only result shown, it carries the backend's message, the webhook is
    not called, nothing is fetched again, and the chosen file and mapping
    are kept. *)
Theorem X11_failed_insert
    (mapping : gmap jstr jstr) (csvText : jstr)
    (u : User.t) (cid : jstr) (c : Campaign.t) (i : option jstr)
    (fd : FormData.t) (m : jstr) (hook : http_response)
    (Hcid : cid <> [])
    (Hleads : (Csv.processCSVWithMapping mapping csvText).1 <> []) :
  let file := Some (File.mk (inr csvText)) in
  let tab := {| UploadLeadsTab.campaignId := cid; UploadLeadsTab.user := Some u;
                UploadLeadsTab.csvFile := file;
                UploadLeadsTab.columnMapping := mapping |} in
  let edit := {| EditCampaign.id := i; EditCampaign.user := Some u;
                 EditCampaign.campaign := Some c; EditCampaign.csvFile := file;
                 EditCampaign.columnMapping := mapping;
                 EditCampaign.formData := fd |} in
  let t1 := trace (UploadLeadsTab.handleFileUpload tab (DbError m)) in
  let t2 := trace (EditCampaign.handleFileUpload edit (DbError m) hook) in
  let failure := ErrorObject (lit "Database error: " ++ m) in
  reported t1 = [UploadLeadsTab.uploadFailed failure]
  /\ reported t2 = [EditCampaign.uploadFailed failure]
  /\ UploadResult.errors (UploadLeadsTab.uploadFailed failure)
     = Some [lit "Database error: " ++ m]
  /\ existsb is_post t2 = false
  /\ existsb is_query t1 = false
  /\ (SetCsvFile None ∉ t1) /\ (SetColumnMapping ∅ ∉ t1)
  /\ (SetCsvFile None ∉ t2) /\ (SetColumnMapping ∅ ∉ t2).
Proof.
  intros file tab edit t1 t2 failure. subst t1 t2.
  rewrite tab_upload_trace, edit_upload_trace. subst tab edit file.
  cbn [UploadLeadsTab.csvFile UploadLeadsTab.user UploadLeadsTab.campaignId
       UploadLeadsTab.columnMapping EditCampaign.csvFile EditCampaign.user
       EditCampaign.campaign EditCampaign.columnMapping File.text].
  replace (truthy cid) with true by (destruct cid; [contradiction | reflexivity]).
  cbv zeta.
  destruct ((Csv.processCSVWithMapping mapping csvText).1) as [|lead more];
    [contradiction|].
  repeat (split; [reflexivity|]).
  repeat split; intros Hin; split_trace Hin.
Qed.

Lemma X11_failed_insert_witness :
  existsb is_post
    (trace (EditCampaign.handleFileUpload (Sample.edit Sample.csvText)
              (DbError (lit "permission denied")) (Responded 200))) = false.
Proof.
  assert (Hcid : lit "campaign-1" <> []) by (vm_compute; discriminate).
  assert (Hleads : (Csv.processCSVWithMapping Sample.mapping Sample.csvText).1 <> [])
    by (vm_compute; discriminate).
  exact (proj1 (proj2 (proj2 (proj2
           (X11_failed_insert Sample.mapping Sample.csvText Sample.user
              (lit "campaign-1") Sample.campaign (Some (lit "campaign-1"))
              Sample.form (lit "permission denied") (Responded 200)
              Hcid Hleads))))).
Defined.

(** X12.  When the chosen file cannot be read, no request leaves the
    browser: both uploads report a failure with the message of the error
    (or a fixed text when the thrown value is no error object), and the file
    selection reports a read error and neither shows a preview nor proposes
    a mapping. *)
Theorem X12_unreadable_file
    (e : thrown) (u : option User.t) (cid : jstr) (c : option Campaign.t)
    (i : option jstr) (fd : FormData.t) (mapping : gmap jstr jstr)
    (ans : db_response) (hook : http_response) (toLowerCase : jstr -> jstr) :
  let file := File.mk (inl e) in
  let tab := {| UploadLeadsTab.campaignId := cid; UploadLeadsTab.user := u;
                UploadLeadsTab.csvFile := Some file;
                UploadLeadsTab.columnMapping := mapping |} in
  let edit := {| EditCampaign.id := i; EditCampaign.user := u;
                 EditCampaign.campaign := c; EditCampaign.csvFile := Some file;
                 EditCampaign.columnMapping := mapping;
                 EditCampaign.formData := fd |} in
  let t1 := trace (UploadLeadsTab.handleFileUpload tab ans) in
  let t2 := trace (EditCampaign.handleFileUpload edit ans hook) in
  let t3 := trace (UploadLeadsTab.handleFileSelect toLowerCase (Some file)) in
  List.filter is_request (t1 ++ t2 ++ t3) = []
  /\ (t1 = [] \/ reported t1 = [UploadLeadsTab.uploadFailed e])
  /\ (t2 = [] \/ reported t2 = [EditCampaign.uploadFailed e])
  /\ UploadResult.errors (UploadLeadsTab.uploadFailed e)
     = Some [match e with
             | ErrorObject message => message
             | OtherValue => lit "Unknown error occurred"
             end]
  /\ t3 = [SetCsvFile (Some file); SetUploadResult None; SetShowPreview false;
           ConsoleError;
           SetUploadResult (Some {|
             UploadResult.success := false;
             UploadResult.message :=
               lit "Error reading CSV file. Please check the file format.";
             UploadResult.leadsCount := None;
             UploadResult.errors := Some
               [lit "Make sure the file is a valid CSV with comma-separated values"]
           |})].
Proof.
  intros file tab edit t1 t2 t3. subst t1 t2 t3.
  rewrite tab_upload_trace, edit_upload_trace. subst tab edit file.
  cbn [UploadLeadsTab.csvFile UploadLeadsTab.user UploadLeadsTab.campaignId
       UploadLeadsTab.columnMapping EditCampaign.csvFile EditCampaign.user
       EditCampaign.campaign EditCampaign.columnMapping File.text].
  destruct u as [u|], c as [c|], (truthy cid), e as [message|];
    (split; [reflexivity|]);
    (split; [first [left; reflexivity | right; reflexivity]|]);
    (split; [first [left; reflexivity | right; reflexivity]|]);
    split; reflexivity.
Qed.

(** X13.  Nothing is deleted without the user's consent: when the confirm
    dialog is declined, deleting a campaign or a lead sends no request at
    all.  When it is accepted, exactly one delete is sent, filtered by the id
    alone, whether or not a user is signed in. *)
Theorem X13_delete_needs_consent
    (campaignList : Campaigns.state) (tab : UploadLeadsTab.state)
    (id : jstr) (ans : db_response) :
  List.filter is_request (trace (Campaigns.handleDeleteCampaign campaignList id false ans)) = []
  /\ List.filter is_request (trace (UploadLeadsTab.deleteLead tab id false ans)) = []
  /\ List.filter (fun e => is_request e && negb (is_query e))
       (trace (Campaigns.handleDeleteCampaign campaignList id true ans))
     = [DeleteFrom campaigns [(lit "id", id)] ans]
  /\ List.filter (fun e => is_request e && negb (is_query e))
       (trace (UploadLeadsTab.deleteLead tab id true ans))
     = [DeleteFrom uploaded_leads [(lit "id", id)] ans].
Proof.
  unfold Campaigns.handleDeleteCampaign, UploadLeadsTab.deleteLead,
    Campaigns.fetchCampaigns, UploadLeadsTab.fetchExistingLeads.
  destruct campaignList as [[u|] theme fd], tab as [cid [u'|] file mapping], ans;
    simpl; try destruct (truthy cid); repeat split.
Qed.

(** X14.  When the backend refuses to create or to delete a campaign, or to
    delete a lead, the error is only logged: no result is shown, nothing is
    fetched again, and the create form keeps what was typed. *)
Theorem X14_list_errors_only_logged
    (campaignList : Campaigns.state) (tab : UploadLeadsTab.state)
    (id m : jstr) :
  let t1 := trace (Campaigns.handleCreateCampaign campaignList (DbError m)) in
  let t2 := trace (Campaigns.handleDeleteCampaign campaignList id true (DbError m)) in
  let t3 := trace (UploadLeadsTab.deleteLead tab id true (DbError m)) in
  reported (t1 ++ t2 ++ t3) = []
  /\ existsb is_query (t1 ++ t2 ++ t3) = false
  /\ (SetFormData Campaigns.emptyForm ∉ t1)
  /\ (SetShowCreateForm false ∉ t1)
  /\ last t2 = Some ConsoleError
  /\ last t3 = Some ConsoleError
  /\ (t1 = [PreventDefault] \/ last t1 = Some ConsoleError).
Proof.
  unfold Campaigns.handleCreateCampaign, Campaigns.handleDeleteCampaign,
    UploadLeadsTab.deleteLead.
  destruct campaignList as [[u|] theme fd]; simpl;
    (split; [reflexivity|]); (split; [reflexivity|]);
    (split; [intros Hin; split_trace Hin|]);
    (split; [intros Hin; split_trace Hin|]);
    (split; [reflexivity|]); (split; [reflexivity|]);
    first [left; reflexivity | right; reflexivity].
Qed.

(** X15.  Without a signed-in user no insert, update, query or webhook call
    is ever sent: creating a campaign, both uploads, updating and publishing
    a campaign, triggering the channels engine and saving a sequence do
    nothing at all (the create only cancels the form's default action). *)
Theorem X15_no_user_no_request
    (theme cid : jstr) (fd : FormData.t) (file : option File.t)
    (mapping : gmap jstr jstr) (i : option jstr) (c : option Campaign.t)
    (steps : list SequenceBuilder.SequenceStep) (onSave : bool)
    (a1 a2 : db_response) (hook : http_response) :
  let campaignList := {| Campaigns.user := None; Campaigns.theme := theme;
                         Campaigns.formData := fd |} in
  let tab := {| UploadLeadsTab.campaignId := cid; UploadLeadsTab.user := None;
                UploadLeadsTab.csvFile := file;
                UploadLeadsTab.columnMapping := mapping |} in
  let edit := {| EditCampaign.id := i; EditCampaign.user := None;
                 EditCampaign.campaign := c; EditCampaign.csvFile := file;
                 EditCampaign.columnMapping := mapping;
                 EditCampaign.formData := fd |} in
  let builder := {| SequenceBuilder.campaignId := cid;
                    SequenceBuilder.user := None;
                    SequenceBuilder.steps := steps;
                    SequenceBuilder.onSave := onSave |} in
  trace (Campaigns.handleCreateCampaign campaignList a1) = [PreventDefault]
  /\ trace (Campaigns.fetchCampaigns campaignList) = []
  /\ trace (UploadLeadsTab.handleFileUpload tab a1) = []
  /\ trace (UploadLeadsTab.fetchExistingLeads tab) = []
  /\ trace (EditCampaign.handleFileUpload edit a1 hook) = []
  /\ trace (EditCampaign.handleSubmit edit a1) = [PreventDefault]
  /\ trace (EditCampaign.handlePublish edit a1) = []
  /\ trace (EditCampaign.triggerChannelsEngine edit hook) = []
  /\ trace (EditCampaign.fetchCampaign edit) = []
  /\ trace (SequenceBuilder.saveSequence builder a1 a2) = [].
Proof.
  intros campaignList tab edit builder.
  unfold UploadLeadsTab.handleFileUpload, EditCampaign.handleFileUpload,
    EditCampaign.handleSubmit, EditCampaign.handlePublish,
    EditCampaign.triggerChannelsEngine, EditCampaign.fetchCampaign.
  subst campaignList tab edit builder. simpl.
  destruct file, i, c; repeat split.
Qed.

(** X16.  When some rows are valid and the backend stores them, the leads
    tab reports a success with the number of stored rows and without any
    message: the rows that failed validation are skipped silently, and
    their number is what is missing from the row count of the preview. *)
Theorem X16_invalid_rows_skipped_silently
    (mapping : gmap jstr jstr) (csvText : jstr) (u : User.t) (cid : jstr)
    (Hcid : cid <> [])
    (Hleads : (Csv.processCSVWithMapping mapping csvText).1 <> []) :
  let r := Csv.processCSVWithMapping mapping csvText in
  let tab := {| UploadLeadsTab.campaignId := cid; UploadLeadsTab.user := Some u;
                UploadLeadsTab.csvFile := Some (File.mk (inr csvText));
                UploadLeadsTab.columnMapping := mapping |} in
  let t := trace (UploadLeadsTab.handleFileUpload tab DbOk) in
  exists result,
    reported t = [result]
    /\ UploadResult.success result = true
    /\ UploadResult.errors result = None
    /\ UploadResult.leadsCount result = Some (Z.of_nat (length r.1))
    /\ Z.of_nat (length r.1) + Z.of_nat (length r.2)
       = Csv.totalRows (Csv.parseCSVForPreview csvText)
    /\ List.filter is_insert_leads t
       = [InsertLeads (UploadLeadsTab.leadToInsert (User.id u) cid <$> r.1) DbOk]
    /\ last t = Some (SetUploadLoading false).
Proof.
  intros r tab t. subst t.
  exists (UploadLeadsTab.uploadSucceeded (length r.1)).
  rewrite tab_upload_trace. subst tab.
  cbn [UploadLeadsTab.csvFile UploadLeadsTab.user UploadLeadsTab.campaignId
       UploadLeadsTab.columnMapping File.text].
  replace (truthy cid) with true by (destruct cid; [contradiction | reflexivity]).
  cbv zeta. fold r.
  pose proof (processCSV_length mapping csvText) as Hlen. cbv zeta in Hlen. fold r in Hlen.
  assert (Htotal : Csv.totalRows (Csv.parseCSVForPreview csvText)
                   = Z.of_nat (length (Csv.csvLines csvText) - 1)).
  { unfold Csv.parseCSVForPreview.
    destruct (Csv.csvLines csvText); simpl; lia. }
  destruct (r.1) as [|lead more] eqn:Hr1; [contradiction|].
  repeat (split; [reflexivity|]).
  split; [rewrite Htotal, <- Hlen; lia|].
  split; reflexivity.
Qed.

Lemma X16_invalid_rows_witness :
  exists result,
    reported (trace (UploadLeadsTab.handleFileUpload (Sample.tab Sample.csvText) DbOk))
    = [result]
    /\ UploadResult.errors result = None.
Proof.
  assert (Hcid : lit "campaign-1" <> []) by (vm_compute; discriminate).
  assert (Hleads : (Csv.processCSVWithMapping Sample.mapping Sample.csvText).1 <> [])
    by (vm_compute; discriminate).
  destruct (X16_invalid_rows_skipped_silently Sample.mapping Sample.csvText
              Sample.user (lit "campaign-1") Hcid Hleads)
    as (result & Hreported & _ & Herrors & _).
  exists result. split; [exact Hreported | exact Herrors].
Defined.

(** ** Editing the steps of a sequence *)

Lemma filterIndex_delete index steps : forall i,
  SequenceBuilder.filterIndex index i steps
  = if bool_decide (Z.of_nat i <= index)
    then delete (Z.to_nat index - i)%nat steps
    else steps.
Proof.
  induction steps as [|step steps IH]; intros i; simpl.
  - case_bool_decide; reflexivity.
  - rewrite IH. destruct (Z.eqb_spec (Z.of_nat i) index) as [Heq|Hne];
      repeat case_bool_decide; try lia; try reflexivity.
    + replace (Z.to_nat index - i)%nat with 0%nat by lia. reflexivity.
    + replace (Z.to_nat index - i)%nat with (S (Z.to_nat index - S i)) by lia.
      reflexivity.
Qed.

Lemma renumber_content (steps : list SequenceBuilder.SequenceStep) :
  stepContent
    <$> imap (fun i step =>
                {| SequenceBuilder.id := SequenceBuilder.id step;
                   SequenceBuilder.step_number := Z.of_nat i + 1;
                   SequenceBuilder.message_type := SequenceBuilder.message_type step;
                   SequenceBuilder.message_content := SequenceBuilder.message_content step;
                   SequenceBuilder.delay_hours := SequenceBuilder.delay_hours step;
                   SequenceBuilder.conditions := SequenceBuilder.conditions step |})
         steps
  = stepContent <$> steps.
Proof.
  rewrite fmap_imap. apply list_eq. intros i.
  rewrite list_lookup_imap, list_lookup_fmap.
  destruct (steps !! i); reflexivity.
Qed.

(** X17.  Removing a step keeps the content of all other steps and their
    order: apart from the numbers, the result is the list without the
    element at the index, and the unchanged list when the index is negative
    or beyond the end. *)
Theorem X17_remove_keeps_contents
    (steps : list SequenceBuilder.SequenceStep) (index : Z) :
  stepContent <$> SequenceBuilder.removeStep steps index
  = if bool_decide (0 <= index)
    then delete (Z.to_nat index) (stepContent <$> steps)
    else stepContent <$> steps.
Proof.
  unfold SequenceBuilder.removeStep. cbv zeta.
  rewrite renumber_content, filterIndex_delete.
  change (Z.of_nat 0) with 0. rewrite Nat.sub_0_r.
  case_bool_decide; [apply list_fmap_delete | reflexivity].
Qed.

Lemma numbered_lookup steps i step :
  numbered steps -> steps !! i = Some step ->
  SequenceBuilder.step_number step = Z.of_nat i + 1.
Proof.
  unfold numbered. intros Hnum Hlook.
  assert (Hi : (SequenceBuilder.step_number <$> steps) !! i
               = Some (SequenceBuilder.step_number step))
    by (rewrite list_lookup_fmap, Hlook; reflexivity).
  rewrite Hnum, list_lookup_fmap in Hi.
  destruct (seq 0 (length steps) !! i) as [k|] eqn:Hk; [|discriminate Hi].
  apply lookup_seq in Hk as [-> _]. simpl in Hi. congruence.
Qed.

Lemma renumber_numbered steps :
  numbered steps ->
  imap (fun i step =>
          {| SequenceBuilder.id := SequenceBuilder.id step;
             SequenceBuilder.step_number := Z.of_nat i + 1;
             SequenceBuilder.message_type := SequenceBuilder.message_type step;
             SequenceBuilder.message_content := SequenceBuilder.message_content step;
             SequenceBuilder.delay_hours := SequenceBuilder.delay_hours step;
             SequenceBuilder.conditions := SequenceBuilder.conditions step |})
       steps
  = steps.
Proof.
  intros Hnum. apply list_eq. intros i. rewrite list_lookup_imap.
  destruct (steps !! i) as [step|] eqn:Hlook; [|reflexivity].
  simpl. rewrite <- (numbered_lookup steps i step Hnum Hlook).
  destruct step. reflexivity.
Qed.

(** X18.  On steps numbered 1..n, removing at an index that is negative or
    beyond the end changes nothing, and removing the step that [addStep]
    has just appended gives back the steps as they were. *)
Theorem X18_add_then_remove
    (steps : list SequenceBuilder.SequenceStep) (index : Z)
    (Hnum : numbered steps)
    (Hout : index < 0 \/ Z.of_nat (length steps) <= index) :
  SequenceBuilder.removeStep (SequenceBuilder.addStep steps)
    (Z.of_nat (length steps)) = steps
  /\ SequenceBuilder.removeStep steps index = steps.
Proof.
  split.
  - unfold SequenceBuilder.removeStep, SequenceBuilder.addStep. cbv zeta.
    rewrite filterIndex_delete. change (Z.of_nat 0) with 0.
    rewrite bool_decide_eq_true_2 by lia.
    rewrite Nat.sub_0_r, Nat2Z.id, delete_take_drop.
    rewrite take_app_length, drop_ge by (rewrite length_app; simpl; lia).
    rewrite app_nil_r. apply renumber_numbered. exact Hnum.
  - unfold SequenceBuilder.removeStep. cbv zeta.
    rewrite filterIndex_delete. change (Z.of_nat 0) with 0. rewrite Nat.sub_0_r.
    assert (Hsame : forall k, (length steps <= k)%nat -> delete k steps = steps).
    { intros k Hk. rewrite delete_take_drop, take_ge, drop_ge by lia.
      apply app_nil_r. }
    repeat case_bool_decide; try lia;
      try (rewrite Hsame by lia); apply renumber_numbered; exact Hnum.
Qed.

Lemma X18_add_then_remove_witness :
  SequenceBuilder.removeStep (SequenceBuilder.addStep SequenceBuilder.initialSteps) 1
  = SequenceBuilder.initialSteps.
Proof.
  assert (Hnum : numbered SequenceBuilder.initialSteps) by reflexivity.
  assert (Hout : 5 < 0 \/ Z.of_nat (length SequenceBuilder.initialSteps) <= 5)
    by (right; vm_compute; discriminate).
  exact (proj1 (X18_add_then_remove SequenceBuilder.initialSteps 5 Hnum Hout)).
Defined.

Lemma delete_insert_same {A} (l : list A) (i : nat) (x : A) :
  delete i (<[i := x]> l) = delete i l.
Proof.
  revert i. induction l as [|y l IH]; intros [|i]; simpl; try reflexivity.
  f_equal. apply IH.
Qed.

Lemma setField_number step fv :
  SequenceBuilder.step_number (SequenceBuilder.setField step fv)
  = match fv with
    | SequenceBuilder.F_step_number v => v
    | _ => SequenceBuilder.step_number step
    end.
Proof. destruct fv; reflexivity. Qed.

(** X19.  [updateStep] at the index of a step changes that step alone, and
    in it the named field alone: the list keeps its length, every other
    position keeps its step, and unless the field is the step number itself
    the numbers stay as they were.  At an index without a step the result is
    no list of steps. *)
Theorem X19_update_touches_one_field
    (steps : list SequenceBuilder.SequenceStep) (index : nat)
    (fv : SequenceBuilder.field_value) :
  match steps !! index with
  | None => SequenceBuilder.updateStep steps index fv = None
  | Some step =>
      exists steps',
        SequenceBuilder.updateStep steps index fv = Some steps'
        /\ length steps' = length steps
        /\ steps' !! index = Some (SequenceBuilder.setField step fv)
        /\ delete index steps' = delete index steps
        /\ SequenceBuilder.step_number <$> steps'
           = match fv with
             | SequenceBuilder.F_step_number v =>
                 <[index := v]> (SequenceBuilder.step_number <$> steps)
             | _ => SequenceBuilder.step_number <$> steps
             end
        /\ SequenceBuilder.message_content <$> steps'
           = match fv with
             | SequenceBuilder.F_message_content v =>
                 <[index := v]> (SequenceBuilder.message_content <$> steps)
             | _ => SequenceBuilder.message_content <$> steps
             end
  end.
Proof.
  unfold SequenceBuilder.updateStep.
  destruct (steps !! index) as [step|] eqn:Hlook; [|reflexivity].
  eexists. split; [reflexivity|].
  split; [apply length_insert|].
  split; [apply list_lookup_insert_eq; eapply lookup_lt_Some; exact Hlook|].
  split; [apply delete_insert_same|].
  rewrite !list_fmap_insert.
  split; destruct fv; simpl; try reflexivity;
    apply list_insert_id; rewrite list_lookup_fmap, Hlook; reflexivity.
Qed.

Lemma editStep_numbers steps index fv :
  (forall v, fv <> SequenceBuilder.F_step_number v) ->
  SequenceBuilder.step_number <$> SequenceBuilder.editStep steps index fv
  = SequenceBuilder.step_number <$> steps
  /\ length (SequenceBuilder.editStep steps index fv) = length steps.
Proof.
  intros Hfield. unfold SequenceBuilder.editStep, SequenceBuilder.updateStep.
  destruct (steps !! index) as [step|] eqn:Hlook; [|split; reflexivity].
  split; [|apply length_insert].
  rewrite list_fmap_insert, setField_number.
  destruct fv; try (apply list_insert_id; rewrite list_lookup_fmap, Hlook; reflexivity).
  exfalso. exact (Hfield v eq_refl).
Qed.

Lemma perform_keeps_invariant steps a :
  numbered steps -> steps <> [] ->
  numbered (SequenceBuilder.perform steps a)
  /\ SequenceBuilder.perform steps a <> [].
Proof.
  intros Hnum Hne.
  assert (Hedit : forall index fv,
            (forall v, fv <> SequenceBuilder.F_step_number v) ->
            numbered (SequenceBuilder.editStep steps index fv)
            /\ SequenceBuilder.editStep steps index fv <> []).
  { intros index fv Hfield.
    destruct (editStep_numbers steps index fv Hfield) as [Hnums Hlen].
    split.
    - unfold numbered. rewrite Hnums, Hlen. exact Hnum.
    - intros Hnil. rewrite Hnil in Hlen. destruct steps; [contradiction | discriminate]. }
  destruct a as [|index|index v|index v|index v]; simpl.
  - split.
    + unfold numbered, SequenceBuilder.addStep in *.
      rewrite fmap_app, length_app, Hnum. simpl.
      rewrite Nat.add_1_r, seq_S, fmap_app. reflexivity.
    + unfold SequenceBuilder.addStep. destruct steps; discriminate.
  - destruct (Nat.ltb_spec 1 (length steps)) as [Hlen|_]; simpl; [|split; assumption].
    destruct (Nat.ltb_spec index (length steps)) as [Hidx|_]; [|split; assumption].
    split; [apply removeStep_numbered|].
    intros Hnil. apply (f_equal length) in Hnil.
    unfold SequenceBuilder.removeStep in Hnil.
    rewrite length_imap, filterIndex_length in Hnil.
    simpl in Hnil. case_bool_decide; simpl in Hnil; lia.
  - apply Hedit. discriminate.
  - apply Hedit. discriminate.
  - apply Hedit. discriminate.
Qed.

(** X20.  Whatever the user does in the editor (add a step, remove one while
    more than one is shown, change the type, the delay or the text of a
    step), starting from steps that are numbered 1..n and not empty, the
    steps stay numbered 1..m and never become empty; a save then inserts one
    row per step, carrying these numbers in order. *)
Theorem X20_editor_invariant
    (start : list SequenceBuilder.SequenceStep)
    (actions : list SequenceBuilder.uiAction)
    (cid : jstr) (u : User.t) (onSave : bool) (del ins : db_response)
    (Hnum : numbered start) (Hne : start <> []) :
  let steps := fold_left SequenceBuilder.perform actions start in
  let builder := {| SequenceBuilder.campaignId := cid;
                    SequenceBuilder.user := Some u;
                    SequenceBuilder.steps := steps;
                    SequenceBuilder.onSave := onSave |} in
  numbered steps
  /\ steps <> []
  /\ exists rows,
       List.filter is_mutation_ok
         (trace (SequenceBuilder.saveSequence builder DbOk DbOk))
       = [DeleteFrom campaign_sequences [(lit "campaign_id", cid)] DbOk;
          InsertSteps rows DbOk]
       /\ SeqRow.step_number <$> rows
          = (fun i => Z.of_nat i + 1) <$> seq 0 (length steps)
       /\ length rows = length steps
       /\ Forall (fun row => SeqRow.campaign_id row = cid) rows.
Proof.
  intros steps builder.
  assert (Hinv : numbered steps /\ steps <> []).
  { subst builder steps. revert start Hnum Hne.
    induction actions as [|a actions IH]; intros start Hnum Hne; simpl;
      [split; assumption|].
    destruct (perform_keeps_invariant start a Hnum Hne) as [Hn He].
    apply IH; assumption. }
  destruct Hinv as [Hn He]. split; [exact Hn|]. split; [exact He|].
  exists (SequenceBuilder.stepToInsert cid <$> steps).
  rewrite saveSequence_trace. subst builder.
  cbn [SequenceBuilder.user SequenceBuilder.campaignId SequenceBuilder.steps
       SequenceBuilder.onSave].
  split; [destruct onSave; reflexivity|].
  split.
  { rewrite <- list_fmap_compose. exact Hn. }
  split; [apply length_fmap|].
  apply Forall_fmap, Forall_forall. intros step _. reflexivity.
Qed.

Lemma X20_editor_invariant_witness :
  numbered (fold_left SequenceBuilder.perform
              [SequenceBuilder.ClickAdd; SequenceBuilder.ClickAdd;
               SequenceBuilder.ChangeDelay 1 48; SequenceBuilder.ClickRemove 0;
               SequenceBuilder.ClickRemove 0; SequenceBuilder.ClickRemove 0]
              SequenceBuilder.initialSteps).
Proof.
  assert (Hnum : numbered SequenceBuilder.initialSteps) by reflexivity.
  assert (Hne : SequenceBuilder.initialSteps <> []) by discriminate.
  exact (proj1 (X20_editor_invariant SequenceBuilder.initialSteps
                  [SequenceBuilder.ClickAdd; SequenceBuilder.ClickAdd;
                   SequenceBuilder.ChangeDelay 1 48; SequenceBuilder.ClickRemove 0;
                   SequenceBuilder.ClickRemove 0; SequenceBuilder.ClickRemove 0]
                  (lit "campaign-1") Sample.user true DbOk DbOk Hnum Hne)).
Defined.

(** ** Loading a sequence *)

Lemma or_undefined_or_null c :
  SequenceBuilder.or_null (SequenceBuilder.or_undefined c) = SequenceBuilder.or_null c.
Proof. destruct c as [[|x c]|]; reflexivity. Qed.

Lemma rowToStep_store cid id created step :
  SequenceBuilder.rowToStep (storeRow id created (SequenceBuilder.stepToInsert cid step))
  = {| SequenceBuilder.id := Some id;
       SequenceBuilder.step_number := SequenceBuilder.step_number step;
       SequenceBuilder.message_type := SequenceBuilder.message_type step;
       SequenceBuilder.message_content := SequenceBuilder.message_content step;
       SequenceBuilder.delay_hours := SequenceBuilder.delay_hours step;
       SequenceBuilder.conditions :=
         SequenceBuilder.or_null (SequenceBuilder.conditions step) |}.
Proof.
  unfold SequenceBuilder.rowToStep, storeRow, SequenceBuilder.stepToInsert. simpl.
  f_equal.
  - destruct (SequenceBuilder.message_content step); reflexivity.
  - destruct (SequenceBuilder.conditions step) as [[|x c]|]; reflexivity.
Qed.

Lemma or_null_idem c :
  SequenceBuilder.or_null (SequenceBuilder.or_null c) = SequenceBuilder.or_null c.
Proof. destruct c as [[|x c]|]; reflexivity. Qed.

Lemma orderByStepNumber_ascending (rows : list SequenceBuilder.StoredRow.t) :
  forall base : Z,
    (forall k row, rows !! k = Some row ->
                   SequenceBuilder.StoredRow.step_number row = base + Z.of_nat k) ->
    orderByStepNumber rows = rows.
Proof.
  unfold orderByStepNumber.
  induction rows as [|row rows IH]; intros base Hnum; simpl; [reflexivity|].
  rewrite (IH (base + 1)).
  - destruct rows as [|next rows]; [reflexivity|]. simpl.
    pose proof (Hnum 0%nat row eq_refl) as H0.
    pose proof (Hnum 1%nat next eq_refl) as H1.
    destruct (Z.leb_spec (SequenceBuilder.StoredRow.step_number row)
                (SequenceBuilder.StoredRow.step_number next)); [reflexivity | lia].
  - intros k r Hk. rewrite (Hnum (S k) r Hk). lia.
Qed.

(** X21.  Steps numbered 1..n that were saved and are loaded again (the
    query returns the stored rows by ascending step number) come back in the
    same order with the same number, type, text and delay, with the id the
    backend gave them, and with empty conditions turned into none; the
    loading flag is cleared; and saving the loaded steps inserts exactly the
    rows that were inserted before. *)
Theorem X21_save_then_load
    (cid : jstr) (steps current : list SequenceBuilder.SequenceStep)
    (ident : nat -> jstr * jstr)
    (Hne : steps <> []) (Hnum : numbered steps) :
  let rows := SequenceBuilder.stepToInsert cid <$> steps in
  let stored := imap (fun k row => storeRow (ident k).1 (ident k).2 row) rows in
  let answer : SequenceBuilder.query_answer :=
    inr (Some (orderByStepNumber stored)) in
  let loaded := (SequenceBuilder.fetchSequence current answer).1 in
  loaded
  = imap (fun k step =>
            {| SequenceBuilder.id := Some (ident k).1;
               SequenceBuilder.step_number := SequenceBuilder.step_number step;
               SequenceBuilder.message_type := SequenceBuilder.message_type step;
               SequenceBuilder.message_content := SequenceBuilder.message_content step;
               SequenceBuilder.delay_hours := SequenceBuilder.delay_hours step;
               SequenceBuilder.conditions :=
                 SequenceBuilder.or_null (SequenceBuilder.conditions step) |})
         steps
  /\ numbered loaded
  /\ SequenceBuilder.stepToInsert cid <$> loaded = rows
  /\ (SequenceBuilder.fetchSequence current answer).2 = false.
Proof.
  intros rows stored answer loaded.
  assert (Hsorted : orderByStepNumber stored = stored).
  { apply (orderByStepNumber_ascending stored 1). intros k row Hk.
    subst stored rows. rewrite imap_fmap, list_lookup_imap in Hk.
    destruct (steps !! k) as [step|] eqn:Hstep; [|discriminate Hk].
    simpl in Hk. injection Hk as <-. simpl.
    rewrite (numbered_lookup steps k step Hnum Hstep). lia. }
  assert (Hloaded : loaded
    = imap (fun k step =>
              {| SequenceBuilder.id := Some (ident k).1;
                 SequenceBuilder.step_number := SequenceBuilder.step_number step;
                 SequenceBuilder.message_type := SequenceBuilder.message_type step;
                 SequenceBuilder.message_content := SequenceBuilder.message_content step;
                 SequenceBuilder.delay_hours := SequenceBuilder.delay_hours step;
                 SequenceBuilder.conditions :=
                   SequenceBuilder.or_null (SequenceBuilder.conditions step) |})
           steps).
  { subst loaded answer. rewrite Hsorted. unfold SequenceBuilder.fetchSequence.
    replace (0 <? length stored)%nat with true.
    - cbn [fst]. subst stored rows.
      change (List.map SequenceBuilder.rowToStep ?l)
        with (SequenceBuilder.rowToStep <$> l).
      rewrite imap_fmap, fmap_imap. apply imap_ext. intros k step _.
      unfold compose. apply rowToStep_store.
    - symmetry. apply Nat.ltb_lt. subst stored rows.
      rewrite length_imap, length_fmap. destruct steps; [contradiction | simpl; lia]. }
  split; [exact Hloaded|]. split; [|split].
  - rewrite Hloaded. unfold numbered in *. rewrite length_imap, <- Hnum, fmap_imap.
    apply list_eq. intros k.
    rewrite list_lookup_imap, list_lookup_fmap. destruct (steps !! k); reflexivity.
  - rewrite Hloaded. subst rows. rewrite fmap_imap. apply list_eq. intros k.
    rewrite list_lookup_imap, list_lookup_fmap.
    destruct (steps !! k) as [step|]; [|reflexivity].
    simpl. unfold SequenceBuilder.stepToInsert. simpl.
    rewrite or_null_idem. reflexivity.
  - subst answer. unfold SequenceBuilder.fetchSequence.
    destruct (0 <? length (orderByStepNumber stored))%nat; reflexivity.
Qed.

Lemma X21_save_then_load_witness :
  SequenceBuilder.stepToInsert (lit "campaign-1")
    <$> (SequenceBuilder.fetchSequence []
           (inr (Some (orderByStepNumber
                         (imap (fun k row => storeRow (lit "id") (lit "now") row)
                            (SequenceBuilder.stepToInsert (lit "campaign-1")
                               <$> SequenceBuilder.addStep
                                     SequenceBuilder.initialSteps)))))).1
  = SequenceBuilder.stepToInsert (lit "campaign-1")
      <$> SequenceBuilder.addStep SequenceBuilder.initialSteps.
Proof.
  assert (Hne : SequenceBuilder.addStep SequenceBuilder.initialSteps <> [])
    by discriminate.
  assert (Hnum : numbered (SequenceBuilder.addStep SequenceBuilder.initialSteps))
    by reflexivity.
  exact (proj1 (proj2 (proj2 (X21_save_then_load (lit "campaign-1")
                         (SequenceBuilder.addStep SequenceBuilder.initialSteps) []
                         (fun _ => (lit "id", lit "now")) Hne Hnum)))).
Defined.

(** X22.  Loading never empties the editor and never renumbers: an error, a
    null answer or an empty answer leave the steps as they are, a non-empty
    answer replaces them by one step per row with the row's own number; in
    every case the loading flag ends cleared. *)
Theorem X22_load_keeps_editor_filled
    (current : list SequenceBuilder.SequenceStep)
    (answer : SequenceBuilder.query_answer)
    (Hne : current <> []) :
  let after := SequenceBuilder.fetchSequence current answer in
  after.1 <> []
  /\ after.2 = false
  /\ match answer with
     | inr (Some (row :: rows)) =>
         SequenceBuilder.step_number <$> after.1
         = SequenceBuilder.StoredRow.step_number <$> (row :: rows)
         /\ SequenceBuilder.id <$> after.1
            = (fun r => Some (SequenceBuilder.StoredRow.id r)) <$> (row :: rows)
     | _ => after.1 = current
     end.
Proof.
  intros after. subst after. unfold SequenceBuilder.fetchSequence.
  destruct answer as [e|[[|row rows]|]]; simpl; repeat split; try exact Hne;
    try discriminate.
  - f_equal. clear. induction rows as [|r rows IH]; simpl; [reflexivity|].
    f_equal. exact IH.
  - f_equal. clear. induction rows as [|r rows IH]; simpl; [reflexivity|].
    f_equal. exact IH.
Qed.

Lemma X22_load_witness :
  (SequenceBuilder.fetchSequence SequenceBuilder.initialSteps
     (inl (lit "Failed to fetch"))).1 <> [].
Proof.
  assert (Hne : SequenceBuilder.initialSteps <> []) by discriminate.
  exact (proj1 (X22_load_keeps_editor_filled SequenceBuilder.initialSteps
                  (inl (lit "Failed to fetch")) Hne)).
Defined.

(** ** Error messages *)

Lemma lit_inj s1 s2 : lit s1 = lit s2 -> s1 = s2.
Proof.
  unfold lit. intros Heq.
  rewrite <- (string_of_list_ascii_of_string s1),
          <- (string_of_list_ascii_of_string s2).
  f_equal. revert Heq.
  generalize (list_ascii_of_string s1) (list_ascii_of_string s2).
  intros l1. induction l1 as [|a l1 IH]; intros [|b l2] Heq;
    try discriminate Heq; [reflexivity|].
  simpl in Heq. injection Heq as Hab Hrest.
  f_equal; [|apply IH; exact Hrest].
  rewrite <- (ascii_N_embedding a), <- (ascii_N_embedding b), Hab. reflexivity.
Qed.

Lemma N_to_uint_nonnil n : N.to_uint n <> Decimal.Nil.
Proof.
  destruct n as [|p]; [discriminate|]. apply DecimalPos.Unsigned.to_uint_nonnil.
Qed.

Lemma decimal_inj n1 n2 : decimal n1 = decimal n2 -> n1 = n2.
Proof.
  unfold decimal. intros Heq. apply lit_inj in Heq.
  apply DecimalN.Unsigned.to_uint_inj.
  pose proof (NilZero.usu _ (N_to_uint_nonnil n1)) as H1.
  pose proof (NilZero.usu _ (N_to_uint_nonnil n2)) as H2.
  rewrite Heq in H1. congruence.
Qed.

#[global] Instance rowMessage_inj : Inj (=) (=) rowMessage.
Proof.
  intros n1 n2 Heq. unfold rowMessage in Heq.
  apply app_inv_head, app_inv_tail, decimal_inj in Heq. lia.
Qed.

Lemma dataRows_numbers csvText :
  NoDup (fst <$> dataRows csvText).
Proof.
  unfold dataRows. apply NoDup_alt. intros i j n Hi Hj.
  rewrite list_lookup_fmap, list_lookup_imap in Hi, Hj.
  destruct (drop 1 (Csv.csvLines csvText) !! i); [|discriminate Hi].
  destruct (drop 1 (Csv.csvLines csvText) !! j); [|discriminate Hj].
  simpl in Hi, Hj. injection Hi as Hi. injection Hj as Hj. lia.
Qed.

Lemma NoDup_fmap_filter {A B} (f : A -> B) (P : A -> Prop)
    `{!forall x, Decision (P x)} (l : list A) :
  NoDup (f <$> l) -> NoDup (f <$> filter P l).
Proof.
  induction l as [|x l IH]; intros Hnd; [constructor|].
  simpl in Hnd. apply NoDup_cons in Hnd as [Hx Hnd].
  rewrite filter_cons. destruct (decide (P x)); [|apply IH; exact Hnd].
  simpl. apply NoDup_cons. split; [|apply IH; exact Hnd].
  intros Hin. apply Hx.
  apply list_elem_of_fmap in Hin as (y & Hy & Hin).
  apply list_elem_of_filter in Hin as [_ Hin].
  apply list_elem_of_fmap. exists y. split; assumption.
Qed.

(** X23.  The error messages of a file name its failed rows one to one: no
    message occurs twice, and the message with a number is in the list
    exactly when the data row with that number yields no name, phone or
    email under the mapping. *)
Theorem X23_messages_name_rows
    (mapping : gmap jstr jstr) (csvText : jstr) :
  let errors := (Csv.processCSVWithMapping mapping csvText).2 in
  NoDup errors
  /\ forall n,
       rowMessage n ∈ errors
       <-> exists values,
             (n, values) ∈ dataRows csvText
             /\ ~ rowValid mapping (headerCells csvText) values.
Proof.
  intros errors. subst errors.
  pose proof (processCSV_spec mapping csvText) as Hspec. cbv zeta in Hspec.
  rewrite Hspec. cbn [snd].
  set (failed := filter _ (dataRows csvText)).
  replace ((fun row : nat * list jstr => rowMessage row.1) <$> failed)
    with (rowMessage <$> (fst <$> failed))
    by (rewrite <- list_fmap_compose; reflexivity).
  subst failed. split.
  - apply NoDup_fmap_2; [apply rowMessage_inj|].
    apply NoDup_fmap_filter, dataRows_numbers.
  - intros n. rewrite (list_elem_of_fmap_inj rowMessage), list_elem_of_fmap.
    split.
    + intros ([k values] & -> & Hin).
      apply list_elem_of_filter in Hin as [Hinvalid Hin].
      exists values. split; assumption.
    + intros (values & Hin & Hinvalid). exists (n, values).
      split; [reflexivity|]. apply list_elem_of_filter. split; assumption.
Qed.

(** ** Files without data rows, and the preview against the validation *)

(** X24.  A file with at most one non-blank line (empty, blank, or a header
    alone) has no data row: the preview shows no rows and counts none, the
    validation returns neither leads nor errors under any mapping, and the
    upload reports that no valid leads were found, with the one general
    hint, without touching the backend. *)
Theorem X24_file_without_data_rows
    (mapping : gmap jstr jstr) (csvText : jstr) (u : User.t) (cid : jstr)
    (ans : db_response)
    (Hcid : cid <> [])
    (Hshort : (length (Csv.csvLines csvText) < 2)%nat) :
  let tab := {| UploadLeadsTab.campaignId := cid; UploadLeadsTab.user := Some u;
                UploadLeadsTab.csvFile := Some (File.mk (inr csvText));
                UploadLeadsTab.columnMapping := mapping |} in
  let t := trace (UploadLeadsTab.handleFileUpload tab ans) in
  Csv.processCSVWithMapping mapping csvText = ([], [])
  /\ Csv.rows (Csv.parseCSVForPreview csvText) = []
  /\ Csv.totalRows (Csv.parseCSVForPreview csvText) = 0
  /\ reported t = [UploadLeadsTab.noValidLeads []]
  /\ UploadResult.errors (UploadLeadsTab.noValidLeads [])
     = Some [lit "Please ensure at least one row has name, phone, or email data"]
  /\ List.filter is_request t = [].
Proof.
  intros tab t.
  assert (Hprocess : Csv.processCSVWithMapping mapping csvText = ([], [])).
  { unfold Csv.processCSVWithMapping. cbv zeta.
    apply Nat.ltb_lt in Hshort. rewrite Hshort. reflexivity. }
  split; [exact Hprocess|].
  split; [|split].
  - unfold Csv.parseCSVForPreview.
    destruct (Csv.csvLines csvText) as [|l0 [|l1 ls]]; [reflexivity | reflexivity|].
    simpl in Hshort. lia.
  - unfold Csv.parseCSVForPreview.
    destruct (Csv.csvLines csvText) as [|l0 [|l1 ls]]; [reflexivity | reflexivity|].
    simpl in Hshort. lia.
  - subst t. rewrite tab_upload_trace. subst tab.
    cbn [UploadLeadsTab.csvFile UploadLeadsTab.user UploadLeadsTab.campaignId
         UploadLeadsTab.columnMapping File.text].
    replace (truthy cid) with true by (destruct cid; [contradiction | reflexivity]).
    cbv zeta. rewrite Hprocess. repeat split.
Qed.

Lemma X24_file_without_data_rows_witness :
  Csv.processCSVWithMapping Sample.mapping (lit "Full Name,Mail" ++ [newline])
  = ([], []).
Proof.
  assert (Hcid : lit "campaign-1" <> []) by (vm_compute; discriminate).
  assert (Hshort : (length (Csv.csvLines (lit "Full Name,Mail" ++ [newline])) < 2)%nat)
    by (vm_compute; lia).
  exact (proj1 (X24_file_without_data_rows Sample.mapping
                  (lit "Full Name,Mail" ++ [newline]) Sample.user
                  (lit "campaign-1") DbOk Hcid Hshort)).
Defined.

(** X25.  The preview and the validation agree on what the file holds: under
    every mapping, the validation looks the mapping up in the headers shown
    by the preview, and goes through the rows shown by the preview, numbered
    from 2, followed by the rows the preview leaves out (all rows after the
    fifth): the leads are built from those of these rows that yield contact
    data, the errors name the others.  Headers and rows are those of the
    text itself. *)
Theorem X25_preview_matches_validation
    (mapping : gmap jstr jstr) (csvText : jstr) :
  let preview := Csv.parseCSVForPreview csvText in
  let r := Csv.processCSVWithMapping mapping csvText in
  exists later : list (list jstr),
    let rows := imap (fun k row => ((k + 2)%nat, row)) (Csv.rows preview ++ later) in
    length later = (Z.to_nat (Csv.totalRows preview) - 5)%nat
    /\ Z.of_nat (length (Csv.rows preview ++ later)) = Csv.totalRows preview
    /\ r.1 = (fun row => Csv.buildLead mapping (Csv.headers preview) row.2)
               <$> filter (fun row => rowValid mapping (Csv.headers preview) row.2) rows
    /\ r.2 = (fun row => rowMessage row.1)
               <$> filter (fun row => ~ rowValid mapping (Csv.headers preview) row.2)
                     rows
    /\ Csv.headers preview = textHeaders csvText
    /\ rows = textRows csvText.
Proof.
  intros preview r. subst preview r.
  pose proof (processCSV_spec mapping csvText) as Hspec. cbv zeta in Hspec.
  rewrite Hspec. cbn [fst snd]. clear Hspec.
  pose proof (headerCells_textHeaders csvText) as Hheaders.
  pose proof (dataRows_textRows csvText) as Hdata.
  revert Hheaders Hdata.
  unfold Csv.parseCSVForPreview, headerCells, dataRows.
  destruct (Csv.csvLines csvText) as [|first others];
    cbn [Csv.headers Csv.rows Csv.totalRows drop]; intros Hheaders Hdata.
  - exists []. repeat split; assumption.
  - exists (Csv.parseCells <$> drop 5 others).
    rewrite drop_0. unfold slice. cbn [drop Nat.sub]. rewrite drop_0.
    change (map Csv.parseCells (take 5 others))
      with (Csv.parseCells <$> take 5 others).
    rewrite <- fmap_app, take_drop.
    assert (Hrows : imap (fun k line => ((k + 2)%nat, Csv.parseCells line)) others
                    = imap (fun k row => ((k + 2)%nat, row)) (Csv.parseCells <$> others)).
    { rewrite imap_fmap. reflexivity. }
    cbv zeta. rewrite Hrows.
    split; [rewrite length_fmap, length_drop; cbn [length]; lia|].
    split; [rewrite length_fmap; cbn [length]; lia|].
    split; [reflexivity|]. split; [reflexivity|].
    split; [exact Hheaders|]. rewrite <- Hrows. rewrite drop_0 in Hdata. exact Hdata.
Qed.

(** At the sample file, which the preview shows in full, the validation's
    error is the one for the second row shown. *)
Lemma X25_preview_matches_validation_witness :
  Csv.rows (Csv.parseCSVForPreview Sample.csvText)
  = [[lit "Ann"; lit "ann@x.org"; lit "1"]; [[]; []; lit "5"]]
  /\ (Csv.processCSVWithMapping Sample.mapping Sample.csvText).2 = [rowMessage 3].
Proof.
  destruct (X25_preview_matches_validation Sample.mapping Sample.csvText)
    as (later & Hlen & _ & _ & Herrors & _).
  assert (Hpreview : Csv.parseCSVForPreview Sample.csvText
            = {| Csv.headers := [lit "Full Name"; lit "Mail"; lit "Phone"];
                 Csv.rows := [[lit "Ann"; lit "ann@x.org"; lit "1"]; [[]; []; lit "5"]];
                 Csv.totalRows := 2 |}) by (vm_compute; reflexivity).
  rewrite Hpreview in Hlen, Herrors. cbn [Csv.headers Csv.rows Csv.totalRows] in *.
  destruct later as [|row later]; [|discriminate Hlen].
  split; [rewrite Hpreview; reflexivity|].
  rewrite Herrors. cbn [app imap compose].
  assert (Hvalid2 : rowValid Sample.mapping [lit "Full Name"; lit "Mail"; lit "Phone"]
                      [lit "Ann"; lit "ann@x.org"; lit "1"]).
  { apply Exists_cons_hd. vm_compute. eexists. reflexivity. }
  assert (Hvalid3 : ~ rowValid Sample.mapping [lit "Full Name"; lit "Mail"; lit "Phone"]
                      [[]; []; lit "5"]).
  { intros Hv. unfold rowValid, contactFields in Hv.
    repeat (apply Exists_cons in Hv as [Hv|Hv];
            [vm_compute in Hv; destruct Hv as [v Hv]; discriminate Hv|]).
    inversion Hv. }
  rewrite !filter_cons, filter_nil. cbn [snd fst].
  rewrite (decide_False (P := ~ rowValid _ _ [lit "Ann"; _; _])) by tauto.
  rewrite (decide_True _ _ Hvalid3). reflexivity.
Defined.

(** ** From the proposed mapping to the leads *)

Lemma autoMapping_value_nonempty toLowerCase headers field header :
  Csv.autoMapping toLowerCase headers !! field = Some header -> header <> [].
Proof.
  unfold Csv.autoMapping. rewrite autoMapping_fold, lookup_empty.
  destruct (decide _) as [_|_]; [|discriminate].
  unfold suggestion. destruct (find _ headers) as [h|]; simpl; [|discriminate].
  destruct (truthy h) eqn:Htruthy; [|discriminate].
  intros [= ->] ->. discriminate Htruthy.
Qed.

Lemma cellUnder_Some headers values csvColumn cell :
  cellUnder headers values csvColumn = Some cell
  <-> csvColumn <> [] /\ cell <> []
      /\ exists i, headers !! i = Some csvColumn
                   /\ (forall j, (j < i)%nat -> headers !! j <> Some csvColumn)
                   /\ values !! i = Some cell.
Proof.
  unfold cellUnder, firstIndex. split.
  - destruct (decide (csvColumn = [])) as [|Hcol]; [discriminate|].
    destruct (list_find (fun y => y = csvColumn) headers) as [[i y]|] eqn:Hfind;
      simpl; [|discriminate].
    apply list_find_Some in Hfind as (Hi & -> & Hmin).
    destruct (values !! i) as [v|] eqn:Hv; simpl; [|discriminate].
    destruct (decide (v = [])) as [|Hne]; [discriminate|].
    intros [= ->]. split; [exact Hcol|]. split; [exact Hne|].
    exists i. split; [exact Hi|]. split; [|exact Hv].
    intros j Hj Hjh. exact (Hmin j csvColumn Hjh Hj eq_refl).
  - intros (Hcol & Hne & i & Hi & Hmin & Hv).
    rewrite decide_False by exact Hcol.
    assert (Hfind : list_find (fun y => y = csvColumn) headers = Some (i, csvColumn)).
    { apply list_find_Some. split; [exact Hi|]. split; [reflexivity|].
      intros j y Hj Hlt ->. exact (Hmin j Hlt Hj). }
    rewrite Hfind. simpl. rewrite Hv. simpl.
    rewrite decide_False by exact Hne. reflexivity.
Qed.

(** X26.  With the mapping that the auto-mapper proposes for the headers of a
    file, whatever the host's lower-casing, a data row becomes a lead
    exactly when, for one of name, phone and email, a column was proposed
    and the row has a non-empty cell at the first position of that column's
    header. *)
Theorem X26_proposed_mapping_decides_leads
    (toLowerCase : jstr -> jstr) (headers values : list jstr) :
  let mapping := Csv.autoMapping toLowerCase headers in
  Csv.hasContact (Csv.buildLead mapping headers values) = true
  <-> exists field header i cell,
        field ∈ contactFields
        /\ mapping !! field = Some header
        /\ headers !! i = Some header
        /\ (forall j, (j < i)%nat -> headers !! j <> Some header)
        /\ values !! i = Some cell
        /\ cell <> [].
Proof.
  intros mapping. rewrite hasContact_rowValid, bool_decide_eq_true.
  unfold rowValid. rewrite Exists_exists. split.
  - intros (field & Hin & [cell Hcell]).
    unfold mappedValue in Hcell.
    destruct (mapping !! field) as [header|] eqn:Hmap; [|discriminate Hcell].
    simpl in Hcell.
    apply cellUnder_Some in Hcell as (_ & Hne & i & Hi & Hmin & Hv).
    exists field, header, i, cell. repeat split; assumption.
  - intros (field & header & i & cell & Hin & Hmap & Hi & Hmin & Hv & Hne).
    exists field. split; [exact Hin|]. exists cell.
    unfold mappedValue. rewrite Hmap. simpl.
    apply cellUnder_Some. split.
    + eapply autoMapping_value_nonempty. exact Hmap.
    + split; [exact Hne|]. exists i. repeat split; assumption.
Qed.

Lemma X23_messages_name_rows_witness :
  exists values,
    (3%nat, values) ∈ dataRows Sample.csvText
    /\ ~ rowValid Sample.mapping (headerCells Sample.csvText) values.
Proof.
  assert (Hin : rowMessage 3
                ∈ (Csv.processCSVWithMapping Sample.mapping Sample.csvText).2)
    by (apply list_elem_of_In; vm_compute; left; reflexivity).
  exact (proj1 (proj2 (X23_messages_name_rows Sample.mapping Sample.csvText) 3%nat)
           Hin).
Defined.

Lemma X26_proposed_mapping_witness :
  exists field header i cell,
    field ∈ contactFields
    /\ Csv.autoMapping asciiLower [lit "Full Name"; lit "Mobile No"] !! field
       = Some header
    /\ [lit "Full Name"; lit "Mobile No"] !! i = Some header
    /\ (forall j, (j < i)%nat -> [lit "Full Name"; lit "Mobile No"] !! j <> Some header)
    /\ [[]; lit "0612"] !! i = Some cell
    /\ cell <> [].
Proof.
  assert (Hlead :
    Csv.hasContact
      (Csv.buildLead (Csv.autoMapping asciiLower [lit "Full Name"; lit "Mobile No"])
         [lit "Full Name"; lit "Mobile No"] [[]; lit "0612"]) = true)
    by (vm_compute; reflexivity).
  exact (proj1 (X26_proposed_mapping_decides_leads asciiLower
                  [lit "Full Name"; lit "Mobile No"] [[]; lit "0612"]) Hlead).
Defined.
